(** * Presentation control helper: file registry, session manager and
      protocol server

    A shallow embedding of [src/managers/file-manager.js],
    [src/managers/presentation-manager.js], the WebSocket server class and
    the token rotation path of the tray application, followed by the
    properties proved about them.

    Conventions of the embedding.
    - JavaScript numbers that hold indices and counts are [Z]; the remainder
      operator [%] is [Z.rem] (truncated, sign of the dividend).
    - [null] and [undefined] are [None]; a thrown [Error] is the [Throw]
      result of the [Eff] monad, which keeps the state reached before the
      throw, as a JavaScript exception does.
    - [async] methods are run to completion one after the other: the
      embedding is the sequential semantics of one command at a time.
    - What the code obtains from Node, from the JavaScript runtime, from the
      file system and from the presentation applications is a parameter:
      [Platform], [FS], [Driver.Ops].
    - Not embedded: the callbacks of the chokidar watcher, the heartbeat
      timer and the start and stop of the listener, the tray menu and its
      dialogs, and the AppleScript text of the two drivers. *)

From Stdlib Require Import ZArith String Ascii List Lia Permutation Sorted.
From Stdlib Require OrderedTypeEx.
From stdpp Require Import base option list gmap strings sorting.

Local Open Scope string_scope.
Local Open Scope Z_scope.

(* ================================================================== *)
(** * Part I. The embedding                                             *)
(* ================================================================== *)

(** ** JavaScript values and control effects *)
Module Js.

(** A value found in a field of a parsed JSON message.  Numbers, arrays and
    objects are opaque but for their truthiness and for what a template
    literal makes of them, which is all the code looks at.  [Other] is a
    value the template prints as [text].  [Unprintable] is an object or an
    array the template cannot print: a parsed object with an entry named
    [toString] has no callable [toString], the conversion finds no primitive
    and throws a [TypeError], whose message is [error]. *)
Inductive Val : Type :=
| Undefined
| Null
| Bool (b : bool)
| Str (s : string)
| Other (truthy : bool) (text : string)
| Unprintable (error : string).

#[global] Instance Val_eq_dec : EqDecision Val.
Proof. solve_decision. Defined.

(** [!v] is [negb (truthy v)]. *)
Definition truthy (v : Val) : bool :=
  match v with
  | Undefined | Null => false
  | Bool b => b
  | Str s => negb (String.eqb s "")
  | Other t _ => t
  | Unprintable _ => true
  end.

(** [a % b] on integers. *)
Definition remainder (a b : Z) : Z := Z.rem a b.

(** [arr[i]] for an integer index: [undefined] out of range. *)
Definition index {A} (arr : list A) (i : Z) : option A :=
  if i <? 0 then None else arr !! Z.to_nat i.

(** [arr.findIndex(p)]: the first index whose element satisfies [p], or -1. *)
Fixpoint findIndexFrom {A} (p : A -> bool) (arr : list A) (i : Z) : Z :=
  match arr with
  | [] => -1
  | x :: rest => if p x then i else findIndexFrom p rest (i + 1)
  end.

Definition findIndex {A} (p : A -> bool) (arr : list A) : Z :=
  findIndexFrom p arr 0.

(** [arr.includes(s)] on an array of strings. *)
Definition includes (arr : list string) (s : string) : bool :=
  existsb (String.eqb s) arr.

(** [arr.length]. *)
Definition length {A} (arr : list A) : Z := Z.of_nat (List.length arr).

(** [arr.sort(cmp)]: the sort is stable, and an element goes before another
    one when the comparator is negative.  On a consistent comparator every
    stable sort returns this list; it is computed here by insertion from
    the left. *)
Fixpoint insertSorted {A} (cmp : A -> A -> Z) (x : A) (sorted : list A) : list A :=
  match sorted with
  | [] => [x]
  | y :: rest =>
      if cmp x y <? 0 then x :: y :: rest else y :: insertSorted cmp x rest
  end.

Definition sort {A} (cmp : A -> A -> Z) (arr : list A) : list A :=
  fold_left (fun sorted x => insertSorted cmp x sorted) arr [].

(** The result of a computation that may throw. *)
Inductive Result (A : Type) : Type :=
| Return (a : A)
| Throw (message : string).
Arguments Return {A} a.
Arguments Throw {A} message.

(** What a template literal [`${v}`] prints, or the [TypeError] it
    throws. *)
Definition toString (v : Val) : Result string :=
  match v with
  | Undefined => Return "undefined"
  | Null => Return "null"
  | Bool true => Return "true"
  | Bool false => Return "false"
  | Str s => Return s
  | Other _ text => Return text
  | Unprintable error => Throw error
  end.

(** Computations over a state [S] that may throw; the state reached at the
    throw is kept. *)
Definition Eff (S A : Type) : Type := S -> Result A * S.

Definition ret {S A} (a : A) : Eff S A := fun s => (Return a, s).

Definition bind {S A B} (m : Eff S A) (k : A -> Eff S B) : Eff S B :=
  fun s =>
    match m s with
    | (Return a, s') => k a s'
    | (Throw e, s') => (Throw e, s')
    end.

Definition throw {S A} (message : string) : Eff S A :=
  fun s => (Throw message, s).

(** An expression that may throw and touches no state. *)
Definition eval {S A} (r : Result A) : Eff S A := fun s => (r, s).

(** [try { m } catch (error) { handler(error.message) }]. *)
Definition tryCatch {S A} (m : Eff S A) (handler : string -> Eff S A) : Eff S A :=
  fun s =>
    match m s with
    | (Return a, s') => (Return a, s')
    | (Throw e, s') => handler e s'
    end.

Definition get {S} : Eff S S := fun s => (Return s, s).
Definition modify {S} (f : S -> S) : Eff S unit := fun s => (Return tt, f s).

(** Run a computation on a component [T] of the state. *)
Definition zoom {S T A} (proj : S -> T) (inj : T -> S -> S) (m : Eff T A) : Eff S A :=
  fun s => let '(r, t) := m (proj s) in (r, inj t s).

End Js.

Declare Scope eff_scope.
Delimit Scope eff_scope with eff.
Notation "x <- m ;; k" := (Js.bind m (fun x => k))
  (at level 100, m at next level, right associativity) : eff_scope.
Notation "m ;;; k" := (Js.bind m (fun _ => k))
  (at level 100, right associativity) : eff_scope.

(** ** The platform: Node's [path] module and the string built-ins *)

Record Platform : Type := {
  path_extname : string -> string;          (* path.extname *)
  path_join : string -> string -> string;   (* path.join(folder, name) *)
  toLowerCase : string -> string;           (* String.prototype.toLowerCase *)
  localeCompare : string -> string -> Z;    (* String.prototype.localeCompare *)
}.

(** What the proofs use of the platform: [localeCompare] is a consistent
    comparator in the sense of the language standard. *)
Record PlatformOk (P : Platform) : Prop := {
  localeCompare_antisym : forall a b,
      Z.sgn (localeCompare P b a) = - Z.sgn (localeCompare P a b);
  localeCompare_trans : forall a b c,
      localeCompare P a b <= 0 -> localeCompare P b c <= 0 ->
      localeCompare P a c <= 0;
}.

(** ** The file system as the registry sees it *)

Record Stats : Type := { st_size : Z; st_mtime : Z; st_isFile : bool }.

(** A directory entry of [readdir(..., {withFileTypes: true})]. *)
Record Dirent : Type := { d_name : string; d_isFile : bool }.

(** [None] is a rejected promise (the call throws). *)
Record FS : Type := {
  fs_readdir : string -> option (list Dirent);
  fs_stat : string -> option Stats;
}.

(** ** [src/managers/file-manager.js] *)
Module FileManager.

(** The values of [getFileType]: ['keynote'], ['powerpoint'], ['unknown']. *)
Inductive FileType : Type := keynote | powerpoint | unknown.

#[global] Instance FileType_eq_dec : EqDecision FileType.
Proof. solve_decision. Defined.

(** An element of [this.files], as pushed by [scanFiles]. *)
Record PresentationFile : Type := {
  name : string;
  path : string;
  extension : string;
  size : Z;
  modified : Z;
  type : FileType;
}.

#[global] Instance PresentationFile_eq_dec : EqDecision PresentationFile.
Proof. solve_decision. Defined.

(** A chokidar watcher: the folder it was created on and whether [close]
    was called on it. *)
Record Watcher : Type := { watched : string; closed : bool }.

(** The fields set by the constructor; [supportedExtensions] is never
    assigned again and is the constant below. *)
Record t : Type := {
  currentFolder : option string;
  files : list PresentationFile;
  currentFileIndex : Z;
  watcher : option Watcher;
}.

Definition supportedExtensions : list string := [".key"; ".pptx"; ".ppt"].

Definition constructor : t :=
  {| currentFolder := None; files := []; currentFileIndex := -1; watcher := None |}.

Definition set_currentFolder (v : option string) (fm : t) : t :=
  {| currentFolder := v; files := files fm;
     currentFileIndex := currentFileIndex fm; watcher := watcher fm |}.

Definition set_files (v : list PresentationFile) (fm : t) : t :=
  {| currentFolder := currentFolder fm; files := v;
     currentFileIndex := currentFileIndex fm; watcher := watcher fm |}.

Definition set_currentFileIndex (v : Z) (fm : t) : t :=
  {| currentFolder := currentFolder fm; files := files fm;
     currentFileIndex := v; watcher := watcher fm |}.

Definition set_watcher (v : option Watcher) (fm : t) : t :=
  {| currentFolder := currentFolder fm; files := files fm;
     currentFileIndex := currentFileIndex fm; watcher := v |}.

Definition getFileType (extension : string) : FileType :=
  if String.eqb extension ".key" then keynote
  else if String.eqb extension ".pptx" then powerpoint
  else if String.eqb extension ".ppt" then powerpoint
  else unknown.

Section WithPlatform.
Variable P : Platform.

(** The extension [scanFiles] computes for a directory entry. *)
Definition extensionOf (entryName : string) : string :=
  toLowerCase P (path_extname P entryName).

(** The [for (const entry of entries)] loop of [scanFiles].  [None] is a
    rejected [fs.stat], which leaves the loop for the [catch] clause. *)
Fixpoint scanEntries (fs : FS) (folder : string) (entries : list Dirent)
  : option (list PresentationFile) :=
  match entries with
  | [] => Some []
  | entry :: rest =>
      if d_isFile entry then
        let ext := extensionOf (d_name entry) in
        if Js.includes supportedExtensions ext then
          let fullPath := path_join P folder (d_name entry) in
          match fs_stat fs fullPath with
          | None => None
          | Some stats =>
              match scanEntries fs folder rest with
              | None => None
              | Some pushed =>
                  Some ({| name := d_name entry;
                           path := fullPath;
                           extension := ext;
                           size := st_size stats;
                           modified := st_mtime stats;
                           type := getFileType ext |} :: pushed)
              end
          end
        else scanEntries fs folder rest
      else scanEntries fs folder rest
  end.

(** [(a, b) => a.name.localeCompare(b.name)]. *)
Definition byName (a b : PresentationFile) : Z :=
  localeCompare P (name a) (name b).

Definition scanFiles (fs : FS) (fm : t) : t :=
  match currentFolder fm with
  | None => set_files [] fm
  | Some folder =>
      if String.eqb folder "" then set_files [] fm
      else
        match fs_readdir fs folder with
        | None => set_files [] fm
        | Some entries =>
            match scanEntries fs folder entries with
            | None => set_files [] fm
            | Some presentationFiles =>
                set_files (Js.sort byName presentationFiles) fm
            end
        end
  end.

Definition setupWatcher (fm : t) : t :=
  match currentFolder fm with
  | None => fm
  | Some folder =>
      if String.eqb folder "" then fm
      else set_watcher (Some {| watched := folder; closed := false |}) fm
  end.

Definition closeWatcher (fm : t) : t :=
  match watcher fm with
  | None => fm
  | Some w => set_watcher (Some {| watched := watched w; closed := true |}) fm
  end.

Definition setFolder (fs : FS) (folderPath : string) (fm : t) : t :=
  let fm := closeWatcher fm in
  let fm := set_currentFolder (Some folderPath) fm in
  let fm := set_currentFileIndex (-1) fm in
  let fm := scanFiles fs fm in
  setupWatcher fm.

End WithPlatform.

Definition getFiles (fm : t) : list PresentationFile := files fm.

Definition getCurrentFile (fm : t) : option PresentationFile :=
  if (0 <=? currentFileIndex fm) && (currentFileIndex fm <? Js.length (files fm))
  then Js.index (files fm) (currentFileIndex fm)
  else None.

(** The methods below assign [this.currentFileIndex] and return a value:
    they give the value and the manager after the call. *)
Definition setCurrentFile (filePath : string) (fm : t) : option PresentationFile * t :=
  let index := Js.findIndex (fun file => String.eqb (path file) filePath) (files fm) in
  if 0 <=? index then
    let fm := set_currentFileIndex index fm in
    (Js.index (files fm) index, fm)
  else (None, fm).

Definition nextFile (fm : t) : option PresentationFile * t :=
  if Js.length (files fm) =? 0 then (None, fm)
  else
    let fm := set_currentFileIndex
                (Js.remainder (currentFileIndex fm + 1) (Js.length (files fm))) fm in
    (Js.index (files fm) (currentFileIndex fm), fm).

Definition prevFile (fm : t) : option PresentationFile * t :=
  if Js.length (files fm) =? 0 then (None, fm)
  else
    let fm := set_currentFileIndex
                (if currentFileIndex fm <=? 0
                 then Js.length (files fm) - 1
                 else currentFileIndex fm - 1) fm in
    (Js.index (files fm) (currentFileIndex fm), fm).

Definition getFileByIndex (index : Z) (fm : t) : option PresentationFile * t :=
  if (0 <=? index) && (index <? Js.length (files fm)) then
    let fm := set_currentFileIndex index fm in
    (Js.index (files fm) index, fm)
  else (None, fm).

Definition getFileIndex (filePath : string) (fm : t) : Z :=
  Js.findIndex (fun file => String.eqb (path file) filePath) (files fm).

Definition getCurrentFileIndex (fm : t) : Z := currentFileIndex fm.

Definition getFileCount (fm : t) : Z := Js.length (files fm).

(** [fs.stat] then [stats.isFile()], any rejection giving [false]. *)
Definition validateFile (fs : FS) (filePath : string) : bool :=
  match fs_stat fs filePath with
  | Some stats => st_isFile stats
  | None => false
  end.

Definition clearFolder (fm : t) : t :=
  let fm := set_currentFolder None fm in
  let fm := set_files [] fm in
  let fm := set_currentFileIndex (-1) fm in
  match watcher fm with
  | None => fm
  | Some _ => set_watcher None fm
  end.

End FileManager.

(** ** The driver capability interface

    The two driver classes run AppleScript in the presentation application.
    The session manager only calls the methods below, so a driver is given
    by what each call does to the application side [App] (which includes the
    driver object's own fields) and by what it returns or throws. *)
Module Driver.

(** [this.keynoteDriver] and [this.powerpointDriver]: the two driver objects
    a manager holds; [this.currentDriver] is one of them or [null]. *)
Inductive Ref : Type := keynoteDriver | powerpointDriver.

#[global] Instance Ref_eq_dec : EqDecision Ref.
Proof. solve_decision. Defined.

(** The result object of [openFile]. *)
Record OpenResult : Type := { success : bool; message : string }.

(** The result object of [getCurrentSlideInfo]. *)
Record SlideInfo : Type := { currentSlide : Z; totalSlides : Z }.

Record Ops (App : Type) : Type := {
  openFile : string -> Js.Eff App OpenResult;
  startPresentation : Js.Eff App unit;
  stopPresentation : Js.Eff App unit;
  closePresentation : Js.Eff App unit;
  nextSlide : Js.Eff App unit;
  prevSlide : Js.Eff App unit;
  getCurrentSlideInfo : Js.Eff App SlideInfo;
  getSlideNotes : Z -> Js.Eff App string;
}.
Arguments openFile {App}.
Arguments startPresentation {App}.
Arguments stopPresentation {App}.
Arguments closePresentation {App}.
Arguments nextSlide {App}.
Arguments prevSlide {App}.
Arguments getCurrentSlideInfo {App}.
Arguments getSlideNotes {App}.

(** [typeof driver.getCurrentSlideInfo === 'function']: both
    [PowerPointDriver] and [KeynoteDriver] define the method. *)
Definition hasGetCurrentSlideInfo (d : Ref) : bool :=
  match d with
  | keynoteDriver => true
  | powerpointDriver => true
  end.

End Driver.

(** ** The status snapshot returned by [getStatus] *)
Module Status.

Record FileSummary : Type := {
  name : string;
  path : string;
  type : FileManager.FileType;
  index : Z;
}.

Record t : Type := {
  currentFile : option FileSummary;
  isPresenting : bool;
  currentSlide : Z;
  totalSlides : Z;
  slideNotes : string;
  folder : option string;
  fileCount : Z;
  driverType : option string;
}.

End Status.

(** ** [src/managers/presentation-manager.js] *)
Module PresentationManager.

(** The fields of the manager object.  [fileManager] is the registry the
    manager was constructed with. *)
Record t : Type := {
  fileManager : FileManager.t;
  currentDriver : option Driver.Ref;
  currentFile : option FileManager.PresentationFile;
  isPresenting : bool;
  currentSlideIndex : Z;
  totalSlides : Z;
  slideNotes : string;
}.

Definition constructor (fileManager : option FileManager.t) : t :=
  {| fileManager := default FileManager.constructor fileManager;
     currentDriver := None;
     currentFile := None;
     isPresenting := false;
     currentSlideIndex := 0;
     totalSlides := 0;
     slideNotes := "" |}.

Definition set_fileManager (v : FileManager.t) (pm : t) : t :=
  {| fileManager := v; currentDriver := currentDriver pm;
     currentFile := currentFile pm; isPresenting := isPresenting pm;
     currentSlideIndex := currentSlideIndex pm; totalSlides := totalSlides pm;
     slideNotes := slideNotes pm |}.

Definition set_currentDriver (v : option Driver.Ref) (pm : t) : t :=
  {| fileManager := fileManager pm; currentDriver := v;
     currentFile := currentFile pm; isPresenting := isPresenting pm;
     currentSlideIndex := currentSlideIndex pm; totalSlides := totalSlides pm;
     slideNotes := slideNotes pm |}.

Definition set_currentFile (v : option FileManager.PresentationFile) (pm : t) : t :=
  {| fileManager := fileManager pm; currentDriver := currentDriver pm;
     currentFile := v; isPresenting := isPresenting pm;
     currentSlideIndex := currentSlideIndex pm; totalSlides := totalSlides pm;
     slideNotes := slideNotes pm |}.

Definition set_isPresenting (v : bool) (pm : t) : t :=
  {| fileManager := fileManager pm; currentDriver := currentDriver pm;
     currentFile := currentFile pm; isPresenting := v;
     currentSlideIndex := currentSlideIndex pm; totalSlides := totalSlides pm;
     slideNotes := slideNotes pm |}.

Definition set_currentSlideIndex (v : Z) (pm : t) : t :=
  {| fileManager := fileManager pm; currentDriver := currentDriver pm;
     currentFile := currentFile pm; isPresenting := isPresenting pm;
     currentSlideIndex := v; totalSlides := totalSlides pm;
     slideNotes := slideNotes pm |}.

Definition set_totalSlides (v : Z) (pm : t) : t :=
  {| fileManager := fileManager pm; currentDriver := currentDriver pm;
     currentFile := currentFile pm; isPresenting := isPresenting pm;
     currentSlideIndex := currentSlideIndex pm; totalSlides := v;
     slideNotes := slideNotes pm |}.

Definition set_slideNotes (v : string) (pm : t) : t :=
  {| fileManager := fileManager pm; currentDriver := currentDriver pm;
     currentFile := currentFile pm; isPresenting := isPresenting pm;
     currentSlideIndex := currentSlideIndex pm; totalSlides := totalSlides pm;
     slideNotes := v |}.

(** The session: the six fields of the manager besides the registry. *)
Record Session : Type := {
  s_currentDriver : option Driver.Ref;
  s_currentFile : option FileManager.PresentationFile;
  s_isPresenting : bool;
  s_currentSlideIndex : Z;
  s_totalSlides : Z;
  s_slideNotes : string;
}.

Definition session (pm : t) : Session :=
  {| s_currentDriver := currentDriver pm;
     s_currentFile := currentFile pm;
     s_isPresenting := isPresenting pm;
     s_currentSlideIndex := currentSlideIndex pm;
     s_totalSlides := totalSlides pm;
     s_slideNotes := slideNotes pm |}.

(** The session the constructor builds. *)
Definition emptySession : Session := session (constructor None).

(** What a method of the manager runs on: the manager object, the file
    system and the application side of the drivers. *)
Record Sys (App : Type) : Type := {
  self : t;
  fs : FS;
  app : App;
}.
Arguments self {App}.
Arguments fs {App}.
Arguments app {App}.
Arguments Build_Sys {App}.

Section WithDrivers.
Context {App : Type}.
Variable P : Platform.
Variable drivers : Driver.Ref -> Driver.Ops App.

Definition M (A : Type) : Type := Js.Eff (Sys App) A.

(** An assignment [this.field = v]. *)
Definition assign (setter : t -> t) : M unit :=
  Js.modify (fun s => {| self := setter (self s); fs := fs s; app := app s |}).

(** A call of a driver method. *)
Definition call {A} (m : Js.Eff App A) : M A :=
  Js.zoom app (fun a s => {| self := self s; fs := fs s; app := a |}) m.

(** A call of a registry method that assigns the cursor. *)
Definition registry {A} (m : FileManager.t -> A * FileManager.t) : M A :=
  fun s =>
    let '(a, fm) := m (fileManager (self s)) in
    (Js.Return a, {| self := set_fileManager fm (self s); fs := fs s; app := app s |}).

Definition listFiles : M (list FileManager.PresentationFile) :=
  (s <- Js.get ;; Js.ret (FileManager.getFiles (fileManager (self s))))%eff.

Definition getDriverForFile (file : FileManager.PresentationFile) : option Driver.Ref :=
  match FileManager.type file with
  | FileManager.keynote => Some Driver.keynoteDriver
  | FileManager.powerpoint => Some Driver.powerpointDriver
  | FileManager.unknown => None
  end.

Definition updatePresentationInfo : M unit :=
  (s <- Js.get ;;
   match currentDriver (self s) with
   | None => Js.ret tt
   | Some driver =>
       Js.tryCatch
         (slideInfo <- call (Driver.getCurrentSlideInfo (drivers driver)) ;;
          assign (set_currentSlideIndex (Driver.currentSlide slideInfo - 1)) ;;;
          assign (set_totalSlides (Driver.totalSlides slideInfo)) ;;;
          Js.tryCatch
            (notes <- call (Driver.getSlideNotes (drivers driver)
                              (Driver.currentSlide slideInfo)) ;;
             assign (set_slideNotes notes))
            (fun _ => assign (set_slideNotes "")))
         (fun _ => Js.ret tt)
   end)%eff.

Definition failure (message : string) : Driver.OpenResult :=
  {| Driver.success := false; Driver.message := message |}.

Definition openFile (filePath : string) : M Driver.OpenResult :=
  Js.tryCatch
    (s <- Js.get ;;
     let isValid := FileManager.validateFile (fs s) filePath in
     if negb isValid then Js.ret (failure "File not found or invalid")
     else
       file <- registry (FileManager.setCurrentFile filePath) ;;
       match file with
       | None => Js.ret (failure "File not in current folder")
       | Some file =>
           match getDriverForFile file with
           | None => Js.ret (failure "Unsupported file type")
           | Some driver =>
               result <- call (Driver.openFile (drivers driver) filePath) ;;
               (if Driver.success result then
                  assign (set_currentDriver (Some driver)) ;;;
                  assign (set_currentFile (Some file)) ;;;
                  assign (set_isPresenting false) ;;;
                  updatePresentationInfo
                else Js.ret tt) ;;;
               Js.ret result
           end
       end)%eff
    (fun error => Js.ret (failure error)).

Definition startPresentation : M unit :=
  (s <- Js.get ;;
   match currentDriver (self s), currentFile (self s) with
   | Some driver, Some _ =>
       call (Driver.startPresentation (drivers driver)) ;;;
       assign (set_isPresenting true) ;;;
       updatePresentationInfo
   | _, _ => Js.throw "No presentation file is currently open"
   end)%eff.

Definition stopPresentation : M unit :=
  (s <- Js.get ;;
   match currentDriver (self s) with
   | None => Js.throw "No presentation is currently active"
   | Some driver =>
       call (Driver.stopPresentation (drivers driver)) ;;;
       assign (set_isPresenting false)
   end)%eff.

Definition closePresentation : M unit :=
  (s <- Js.get ;;
   match currentDriver (self s) with
   | None => Js.throw "No presentation is currently open"
   | Some driver =>
       call (Driver.closePresentation (drivers driver)) ;;;
       assign (set_currentDriver None) ;;;
       assign (set_currentFile None) ;;;
       assign (set_isPresenting false) ;;;
       assign (set_currentSlideIndex 0) ;;;
       assign (set_totalSlides 0)
   end)%eff.

Definition nextSlide : M unit :=
  (s <- Js.get ;;
   match currentDriver (self s) with
   | None => Js.throw "No presentation is currently open"
   | Some driver =>
       call (Driver.nextSlide (drivers driver)) ;;;
       updatePresentationInfo
   end)%eff.

Definition prevSlide : M unit :=
  (s <- Js.get ;;
   match currentDriver (self s) with
   | None => Js.throw "No presentation is currently open"
   | Some driver =>
       call (Driver.prevSlide (drivers driver)) ;;;
       updatePresentationInfo
   end)%eff.

(** The [realTimeSlideInfo] of [getStatus]: the result of the poll, or
    [null] when the guard is false or the poll throws. *)
Definition realTimeSlideInfo : M (option Driver.SlideInfo) :=
  (s <- Js.get ;;
   match currentDriver (self s) with
   | Some driver =>
       if bool_decide (driver = Driver.powerpointDriver)
          && isPresenting (self s)
          && Driver.hasGetCurrentSlideInfo driver
       then
         Js.tryCatch
           (info <- call (Driver.getCurrentSlideInfo (drivers driver)) ;;
            Js.ret (Some info))
           (fun _ => Js.ret None)
       else Js.ret None
   | None => Js.ret None
   end)%eff.

Definition getStatus : M Status.t :=
  (s0 <- Js.get ;;
   let currentFile := currentFile (self s0) in
   let files := FileManager.getFiles (fileManager (self s0)) in
   let currentFileIndex :=
     match currentFile with
     | Some _ => FileManager.getCurrentFileIndex (fileManager (self s0))
     | None => -1
     end in
   realTime <- realTimeSlideInfo ;;
   s <- Js.get ;;
   Js.ret
     {| Status.currentFile :=
          match currentFile with
          | Some file =>
              Some {| Status.name := FileManager.name file;
                      Status.path := FileManager.path file;
                      Status.type := FileManager.type file;
                      Status.index := currentFileIndex |}
          | None => None
          end;
        Status.isPresenting := isPresenting (self s);
        Status.currentSlide :=
          match realTime with
          | Some info => Driver.currentSlide info
          | None => currentSlideIndex (self s) + 1
          end;
        Status.totalSlides :=
          match realTime with
          | Some info => Driver.totalSlides info
          | None => totalSlides (self s)
          end;
        Status.slideNotes := slideNotes (self s);
        Status.folder := FileManager.currentFolder (fileManager (self s));
        Status.fileCount := Js.length files;
        Status.driverType :=
          match currentDriver (self s) with
          | Some driver =>
              Some (if bool_decide (driver = Driver.keynoteDriver)
                    then "keynote" else "powerpoint")
          | None => None
          end |})%eff.

Definition openNextFile : M Driver.OpenResult :=
  (nextFile <- registry FileManager.nextFile ;;
   match nextFile with
   | Some file => openFile (FileManager.path file)
   | None => Js.ret (failure "No next file available")
   end)%eff.

Definition openPrevFile : M Driver.OpenResult :=
  (prevFile <- registry FileManager.prevFile ;;
   match prevFile with
   | Some file => openFile (FileManager.path file)
   | None => Js.ret (failure "No previous file available")
   end)%eff.

Definition openFileByIndex (index : Z) : M Driver.OpenResult :=
  (file <- registry (FileManager.getFileByIndex index) ;;
   match file with
   | Some file => openFile (FileManager.path file)
   | None => Js.ret (failure "Invalid file index")
   end)%eff.

Definition setFolder (folderPath : string) : M unit :=
  (s <- Js.get ;;
   assign (set_fileManager
             (FileManager.setFolder P (fs s) folderPath (fileManager (self s)))) ;;;
   assign (set_currentDriver None) ;;;
   assign (set_currentFile None) ;;;
   assign (set_isPresenting false) ;;;
   assign (set_currentSlideIndex 0) ;;;
   assign (set_totalSlides 0) ;;;
   assign (set_slideNotes ""))%eff.

End WithDrivers.

End PresentationManager.

(** ** The WebSocket server class *)
Module WebSocketServer.

(** [ws.readyState]. *)
Inductive ReadyState : Type := CONNECTING | OPEN | CLOSING | CLOSED.

#[global] Instance ReadyState_eq_dec : EqDecision ReadyState.
Proof. solve_decision. Defined.

(** The messages the server sends, by their [type] field. *)
Inductive OutMsg : Type :=
| handshake (message : string) (authRequired : bool)
| authResult (success : bool) (message : string)
| status (snapshot : Status.t)
| fileList (files : list FileManager.PresentationFile)
| fileOpened (success : bool) (message : string) (filePath : Js.Val)
| commandResult (command : string) (success : bool)
| pong (timestamp : Z)
| folderChanged (folder : option string) (files : list FileManager.PresentationFile)
| tokenChanged (message : string)
| error (message : string).

(** A socket of the [ws] library: its state and what was sent on it, oldest
    first. *)
Record Socket : Type := {
  readyState : ReadyState;
  sent : list OutMsg;
}.

(** [ws.send(JSON.stringify(message))]. *)
Definition ws_send (message : OutMsg) (socket : Socket) : Socket :=
  {| readyState := readyState socket; sent := sent socket ++ [message] |}.

(** [ws.close()] on an open socket: the closing handshake starts. *)
Definition ws_close (socket : Socket) : Socket :=
  match readyState socket with
  | OPEN => {| readyState := CLOSING; sent := sent socket |}
  | _ => socket
  end.

(** A value of the [clients] map.  [ws] is a reference to the socket: its
    key in the socket store. *)
Record Client : Type := {
  ws : nat;
  authenticated : bool;
  lastPing : Z;
  ip : string;
}.

Definition set_authenticated (v : bool) (client : Client) : Client :=
  {| ws := ws client; authenticated := v;
     lastPing := lastPing client; ip := ip client |}.

(** The fields of the server object ([wss] and [presentationManager] are
    held by [Sys]). *)
Record t : Type := {
  port : Z;
  clients : gmap string Client;
  authToken : string;
}.

Definition set_clients (v : gmap string Client) (srv : t) : t :=
  {| port := port srv; clients := v; authToken := authToken srv |}.

Definition set_authToken (v : string) (srv : t) : t :=
  {| port := port srv; clients := clients srv; authToken := v |}.

(** A parsed JSON object received from a client: the three fields the
    server reads. *)
Record Message : Type := {
  type : Js.Val;
  token : Js.Val;
  filePath : Js.Val;
}.

(** The data of a ['message'] event: text that [JSON.parse] rejects, the
    JSON literal [null], or a value whose fields can be read. *)
Inductive Payload : Type :=
| NotJson
| JsonNull
| Json (message : Message).

(** What a method of the server runs on: the server object, the sockets, the
    manager with its surroundings, and the clock [Date.now()] reads. *)
Record Sys (App : Type) : Type := {
  self : t;
  sockets : gmap nat Socket;
  manager : PresentationManager.Sys App;
  now : Z;
}.
Arguments self {App}.
Arguments sockets {App}.
Arguments manager {App}.
Arguments now {App}.
Arguments Build_Sys {App}.

Section WithDrivers.
Context {App : Type}.
Variable drivers : Driver.Ref -> Driver.Ops App.

Definition M (A : Type) : Type := Js.Eff (Sys App) A.

Definition set_self (v : t) (s : Sys App) : Sys App :=
  {| self := v; sockets := sockets s; manager := manager s; now := now s |}.

Definition set_sockets (v : gmap nat Socket) (s : Sys App) : Sys App :=
  {| self := self s; sockets := v; manager := manager s; now := now s |}.

Definition set_manager (v : PresentationManager.Sys App) (s : Sys App) : Sys App :=
  {| self := self s; sockets := sockets s; manager := v; now := now s |}.

(** A call of a method of [this.presentationManager]. *)
Definition call {A} (m : PresentationManager.M A) : M A :=
  Js.zoom manager set_manager m.

(** [this.clients.forEach(f)]. *)
Definition forEach {S} (f : string -> Client -> S -> S)
    (m : gmap string Client) (s : S) : S :=
  fold_left (fun s kv => f (fst kv) (snd kv) s) (map_to_list m) s.

(** [client.ws.readyState === WebSocket.OPEN]. *)
Definition isOpen (socks : gmap nat Socket) (client : Client) : bool :=
  match socks !! ws client with
  | Some socket => bool_decide (readyState socket = OPEN)
  | None => false
  end.

Definition send (clientId : string) (message : OutMsg) : M unit :=
  Js.modify (fun s =>
    match clients (self s) !! clientId with
    | Some client =>
        if isOpen (sockets s) client
        then set_sockets (alter (ws_send message) (ws client) (sockets s)) s
        else s
    | None => s
    end).

Definition sendError (clientId : string) (err : string) : M unit :=
  send clientId (error err).

Definition broadcast (message : OutMsg) : M unit :=
  Js.modify (fun s =>
    set_sockets
      (forEach (fun _ client socks =>
                  if authenticated client && isOpen socks client
                  then alter (ws_send message) (ws client) socks
                  else socks)
               (clients (self s)) (sockets s)) s).

Definition sendStatus (clientId : string) : M unit :=
  (snapshot <- call (PresentationManager.getStatus drivers) ;;
   send clientId (status snapshot))%eff.

Definition broadcastStatus : M unit :=
  (snapshot <- call (PresentationManager.getStatus drivers) ;;
   broadcast (status snapshot))%eff.

(** The ['connection'] handler of [start]: [clientId] is the fresh uuid,
    [socket] the reference to the new open socket. *)
Definition onConnection (clientId : string) (socket : nat) (remoteAddress : string)
  : M unit :=
  (s <- Js.get ;;
   Js.modify (set_self
     (set_clients
        (<[clientId := {| ws := socket; authenticated := false;
                          lastPing := now s; ip := remoteAddress |}]>
           (clients (self s))) (self s))) ;;;
   send clientId (handshake "Presentation Control Helper v1.0" true))%eff.

(** A [case] label of the [switch (type)]. *)
Definition isCase (v : Js.Val) (label : string) : bool :=
  bool_decide (v = Js.Str label).

Definition handlePresentationCommand (clientId : string) (message : Message) : M unit :=
  (let type := type message in
   if isCase type "ping" then
     s <- Js.get ;; send clientId (pong (now s))
   else if isCase type "status" then sendStatus clientId
   else if isCase type "listFiles" then
     files <- call PresentationManager.listFiles ;;
     send clientId (fileList files)
   else if isCase type "openFile" then
     if negb (Js.truthy (filePath message))
     then Js.throw "filePath parameter required"
     else
       result <-
         match filePath message with
         | Js.Str p => call (PresentationManager.openFile drivers p)
         | _ =>
             (* [fs.stat] rejects an argument that is not a path, so
                [validateFile] gives [false] *)
             Js.ret (PresentationManager.failure "File not found or invalid")
         end ;;
       send clientId (fileOpened (Driver.success result) (Driver.message result)
                                 (filePath message)) ;;;
       broadcastStatus
   else if isCase type "start" then
     call (PresentationManager.startPresentation drivers) ;;;
     send clientId (commandResult "start" true) ;;;
     broadcastStatus
   else if isCase type "stop" then
     call (PresentationManager.stopPresentation drivers) ;;;
     send clientId (commandResult "stop" true) ;;;
     broadcastStatus
   else if isCase type "close" then
     call (PresentationManager.closePresentation drivers) ;;;
     send clientId (commandResult "close" true) ;;;
     broadcastStatus
   else if isCase type "next" then
     call (PresentationManager.nextSlide drivers) ;;;
     send clientId (commandResult "next" true) ;;;
     broadcastStatus
   else if isCase type "prev" then
     call (PresentationManager.prevSlide drivers) ;;;
     send clientId (commandResult "prev" true) ;;;
     broadcastStatus
   else
     text <- Js.eval (Js.toString type) ;;
     Js.throw ("Unknown command: " ++ text))%eff.

Definition handleMessage (clientId : string) (message : Message) : M unit :=
  (s <- Js.get ;;
   match clients (self s) !! clientId with
   | None => Js.ret tt
   | Some client =>
       if isCase (type message) "auth" then
         if bool_decide (token message = Js.Str (authToken (self s))) then
           Js.modify (set_self
             (set_clients (<[clientId := set_authenticated true client]>
                             (clients (self s))) (self s))) ;;;
           send clientId (authResult true "Authentication successful") ;;;
           sendStatus clientId
         else
           send clientId (authResult false "Invalid authentication token")
       else if negb (authenticated client) then
         sendError clientId "Authentication required"
       else
         Js.tryCatch
           (handlePresentationCommand clientId message)
           (fun err => sendError clientId ("Command failed: " ++ err))
   end)%eff.

(** The ['message'] handler of a connection. *)
Definition onMessage (clientId : string) (data : Payload) : M unit :=
  Js.tryCatch
    (match data with
     | NotJson => Js.throw "Unexpected token"
     | JsonNull => Js.throw "Cannot read properties of null (reading 'type')"
     | Json message => handleMessage clientId message
     end)
    (fun _ => sendError clientId "Invalid JSON format").

(** The ['close'] and ['error'] handlers of a connection. *)
Definition onClose (clientId : string) : M unit :=
  Js.modify (fun s => set_self (set_clients (delete clientId (clients (self s))) (self s)) s).

Definition getConnectionCount (s : Sys App) : Z :=
  Z.of_nat (size (clients (self s))).

Definition tokenChangedNotice : OutMsg :=
  tokenChanged
    "Authentication token has been regenerated. Please reconnect with the new token.".

(** The callback of the [forEach] of [disconnectAllClients], on the
    sockets. *)
Definition disconnectClient (client : Client) (socks : gmap nat Socket)
  : gmap nat Socket :=
  if isOpen socks client
  then alter (fun socket => ws_close (ws_send tokenChangedNotice socket))
             (ws client) socks
  else socks.

Definition disconnectAllClients : M unit :=
  (Js.modify (fun s =>
     set_sockets
       (forEach (fun _ client socks => disconnectClient client socks)
                (clients (self s)) (sockets s)) s) ;;;
   Js.modify (fun s => set_self (set_clients ∅ (self s)) s))%eff.

End WithDrivers.

End WebSocketServer.

(** ** The tray application: token rotation *)
Module PresentationControlApp.

(** [regenerateAuthToken], from the answer to its confirmation dialog on:
    [response] is the button pressed and [newToken] the value
    [tokenManager.regenerateToken()] returns.  [this.wsServer] is the server
    the computation runs on. *)
Definition regenerateAuthToken {App} (response : Z) (newToken : string)
  : WebSocketServer.M (App := App) unit :=
  (if response =? 1 then
     Js.modify (fun s => WebSocketServer.set_self
                           (WebSocketServer.set_authToken newToken (WebSocketServer.self s)) s) ;;;
     WebSocketServer.disconnectAllClients
   else Js.ret tt)%eff.

End PresentationControlApp.

(** ** A concrete environment

    A platform, a folder and two scripted drivers on which the definitions
    above run; the statements of Part II are evaluated on them. *)
Module Example.

(** *** Platform: POSIX paths, ASCII names *)

(** The scan of Node's POSIX [path.extname], from the last character to the
    first. *)
Record ExtScan : Type := {
  startDot : Z;
  startPart : Z;
  endPos : Z;
  matchedSlash : bool;
  preDotState : Z;
  stopped : bool;
}.

Definition extStep (st : ExtScan) (i : Z) (c : ascii) : ExtScan :=
  if stopped st then st
  else if Ascii.eqb c "/" then
    if negb (matchedSlash st) then
      {| startDot := startDot st; startPart := i + 1; endPos := endPos st;
         matchedSlash := matchedSlash st; preDotState := preDotState st;
         stopped := true |}
    else st
  else
    let st :=
      if endPos st =? -1 then
        {| startDot := startDot st; startPart := startPart st; endPos := i + 1;
           matchedSlash := false; preDotState := preDotState st;
           stopped := false |}
      else st in
    if Ascii.eqb c "." then
      if startDot st =? -1 then
        {| startDot := i; startPart := startPart st; endPos := endPos st;
           matchedSlash := matchedSlash st; preDotState := preDotState st;
           stopped := false |}
      else
        {| startDot := startDot st; startPart := startPart st; endPos := endPos st;
           matchedSlash := matchedSlash st; preDotState := 1;
           stopped := false |}
    else if negb (startDot st =? -1) then
      {| startDot := startDot st; startPart := startPart st; endPos := endPos st;
         matchedSlash := matchedSlash st; preDotState := -1;
         stopped := false |}
    else st.

(** [extScan chars n st]: the loop over the [n] first characters, given
    last first in [chars]. *)
Fixpoint extScan (reversed : list ascii) (n : Z) (st : ExtScan) : ExtScan :=
  match reversed with
  | [] => st
  | c :: rest => extScan rest (n - 1) (extStep st (n - 1) c)
  end.

Definition extname (p : string) : string :=
  let chars := list_ascii_of_string p in
  let st := extScan (rev chars) (Z.of_nat (List.length chars))
              {| startDot := -1; startPart := 0; endPos := -1;
                 matchedSlash := true; preDotState := 0; stopped := false |} in
  if (startDot st =? -1) || (endPos st =? -1) || (preDotState st =? 0)
     || ((preDotState st =? 1) && (startDot st =? endPos st - 1)
         && (startDot st =? startPart st + 1))
  then ""
  else substring (Z.to_nat (startDot st)) (Z.to_nat (endPos st - startDot st)) p.

(** [toLowerCase] on ASCII letters. *)
Definition lowerAscii (c : ascii) : ascii :=
  let n := nat_of_ascii c in
  if (65 <=? n)%nat && (n <=? 90)%nat then ascii_of_nat (n + 32) else c.

Definition lower (s : string) : string :=
  string_of_list_ascii (List.map lowerAscii (list_ascii_of_string s)).

(** [path.join] of a normalised folder without a trailing separator and an
    entry name. *)
Definition join (folder entryName : string) : string :=
  folder ++ "/" ++ entryName.

(** A comparator by character codes. *)
Definition compareCodes (a b : string) : Z :=
  match String.compare a b with
  | Lt => -1
  | Eq => 0
  | Gt => 1
  end.

Definition platform : Platform :=
  {| path_extname := extname;
     path_join := join;
     toLowerCase := lower;
     localeCompare := compareCodes |}.

(** *** A folder *)

Definition talks : list Dirent :=
  [ {| d_name := "c.ppt"; d_isFile := true |};
    {| d_name := "notes.txt"; d_isFile := true |};
    {| d_name := "a.key"; d_isFile := true |};
    {| d_name := "old.key"; d_isFile := false |};
    {| d_name := "b.pptx"; d_isFile := true |} ].

(** The scenario folder: [a.key], [b.pptx], [c.ppt], in the order the
    directory happens to list them. *)
Definition scenario : list Dirent :=
  [ {| d_name := "b.pptx"; d_isFile := true |};
    {| d_name := "c.ppt"; d_isFile := true |};
    {| d_name := "a.key"; d_isFile := true |} ].

Definition disk : FS :=
  {| fs_readdir := fun folder =>
       if String.eqb folder "/talks" then Some talks
       else if String.eqb folder "/scenario" then Some scenario
       else None;
     fs_stat := fun p =>
       if String.prefix "/talks/" p || String.prefix "/scenario/" p
       then Some {| st_size := 1024; st_mtime := 1700000000000;
                    st_isFile := negb (String.eqb p "/talks/old.key") |}
       else None |}.

(** The same disk when [/scenario/a.key] cannot be stat'ed: the file was
    removed after the directory was read, or may not be read. *)
Definition unreadable : FS :=
  {| fs_readdir := fs_readdir disk;
     fs_stat := fun p =>
       if String.eqb p "/scenario/a.key" then None else fs_stat disk p |}.

Definition file (n p e : string) (t : FileManager.FileType) : FileManager.PresentationFile :=
  {| FileManager.name := n; FileManager.path := p; FileManager.extension := e;
     FileManager.size := 1024; FileManager.modified := 1700000000000;
     FileManager.type := t |}.

Definition aKey : FileManager.PresentationFile :=
  file "a.key" "/talks/a.key" ".key" FileManager.keynote.
Definition bPptx : FileManager.PresentationFile :=
  file "b.pptx" "/talks/b.pptx" ".pptx" FileManager.powerpoint.
Definition cPpt : FileManager.PresentationFile :=
  file "c.ppt" "/talks/c.ppt" ".ppt" FileManager.powerpoint.

(** The registry after [setFolder("/talks")], with no file selected. *)
Definition registry : FileManager.t :=
  {| FileManager.currentFolder := Some "/talks";
     FileManager.files := [aKey; bPptx; cPpt];
     FileManager.currentFileIndex := -1;
     FileManager.watcher :=
       Some {| FileManager.watched := "/talks"; FileManager.closed := false |} |}.

(** *** Scripted drivers

    The application side: whether the application answers to scripts, and
    the slide show it has. *)
Record App : Type := {
  reachable : bool;
  slide : Z;
  slideCount : Z;
  notes : string;
}.

Definition scripted {A} (onSuccess : App -> A * App) (failureText : string)
  : Js.Eff App A :=
  fun a =>
    if reachable a then let '(r, a') := onSuccess a in (Js.Return r, a')
    else (Js.Throw failureText, a).

Definition moveTo (n : Z) (a : App) : App :=
  {| reachable := reachable a; slide := n; slideCount := slideCount a; notes := notes a |}.

Definition scriptedDriver (appName : string) : Driver.Ops App :=
  {| Driver.openFile := fun p a =>
       if reachable a
       then (Js.Return {| Driver.success := true;
                          Driver.message := "Opened " ++ p ++ " in " ++ appName |},
             moveTo 1 a)
       else (Js.Return {| Driver.success := false;
                          Driver.message := "Failed to open file: not running" |}, a);
     Driver.startPresentation :=
       scripted (fun a => (tt, a)) "Failed to start presentation: not running";
     Driver.stopPresentation :=
       scripted (fun a => (tt, a)) "Failed to stop presentation: not running";
     Driver.closePresentation :=
       scripted (fun a => (tt, a)) "Failed to close presentation: not running";
     Driver.nextSlide :=
       scripted (fun a => (tt, moveTo (slide a + 1) a))
                "Failed to go to next slide: not running";
     Driver.prevSlide :=
       scripted (fun a => (tt, moveTo (slide a - 1) a))
                "Failed to go to previous slide: not running";
     Driver.getCurrentSlideInfo := fun a =>
       if reachable a
       then (Js.Return {| Driver.currentSlide := slide a;
                          Driver.totalSlides := slideCount a |}, a)
       else (Js.Return {| Driver.currentSlide := 1; Driver.totalSlides := 0 |}, a);
     Driver.getSlideNotes := fun _ a =>
       (Js.Return (if reachable a then notes a else ""), a) |}.

Definition drivers (d : Driver.Ref) : Driver.Ops App :=
  match d with
  | Driver.keynoteDriver => scriptedDriver "Keynote"
  | Driver.powerpointDriver => scriptedDriver "PowerPoint"
  end.

(** An application showing slide 3 of 10. *)
Definition running : App :=
  {| reachable := true; slide := 3; slideCount := 10; notes := "Speaker notes" |}.

(** An application that does not answer. *)
Definition down : App :=
  {| reachable := false; slide := 1; slideCount := 0; notes := "" |}.

(** A manager on the example registry with no session. *)
Definition idle : PresentationManager.t :=
  PresentationManager.constructor (Some registry).

(** A manager presenting [a.key] in Keynote, with the slide cache of a
    freshly opened file. *)
Definition presentingKeynote : PresentationManager.t :=
  {| PresentationManager.fileManager :=
       FileManager.set_currentFileIndex 0 registry;
     PresentationManager.currentDriver := Some Driver.keynoteDriver;
     PresentationManager.currentFile := Some aKey;
     PresentationManager.isPresenting := true;
     PresentationManager.currentSlideIndex := 0;
     PresentationManager.totalSlides := 10;
     PresentationManager.slideNotes := "Speaker notes" |}.

(** A manager presenting [b.pptx] in PowerPoint, with the same cache. *)
Definition presentingPowerPoint : PresentationManager.t :=
  {| PresentationManager.fileManager :=
       FileManager.set_currentFileIndex 1 registry;
     PresentationManager.currentDriver := Some Driver.powerpointDriver;
     PresentationManager.currentFile := Some bPptx;
     PresentationManager.isPresenting := true;
     PresentationManager.currentSlideIndex := 0;
     PresentationManager.totalSlides := 10;
     PresentationManager.slideNotes := "Speaker notes" |}.

Definition sys (pm : PresentationManager.t) (a : App) : PresentationManager.Sys App :=
  {| PresentationManager.self := pm; PresentationManager.fs := disk;
     PresentationManager.app := a |}.

(** *** A server with two connections *)

Definition openSocket : WebSocketServer.Socket :=
  {| WebSocketServer.readyState := WebSocketServer.OPEN; WebSocketServer.sent := [] |}.

Definition client (socket : nat) (auth : bool) : WebSocketServer.Client :=
  {| WebSocketServer.ws := socket; WebSocketServer.authenticated := auth;
     WebSocketServer.lastPing := 0; WebSocketServer.ip := "127.0.0.1" |}.

(** Client [deck] is authenticated, client [guest] is not. *)
Definition server : WebSocketServer.Sys App :=
  {| WebSocketServer.self :=
       {| WebSocketServer.port := 8765;
          WebSocketServer.clients :=
            <["deck" := client 0%nat true]> (<["guest" := client 1%nat false]> ∅);
          WebSocketServer.authToken := "a1b2c3d4" |};
     WebSocketServer.sockets := <[0%nat := openSocket]> (<[1%nat := openSocket]> ∅);
     WebSocketServer.manager := sys idle running;
     WebSocketServer.now := 1700000000000 |}.

Definition msg (t : string) : WebSocketServer.Message :=
  {| WebSocketServer.type := Js.Str t;
     WebSocketServer.token := Js.Undefined;
     WebSocketServer.filePath := Js.Undefined |}.

Definition authMsg (tok : string) : WebSocketServer.Message :=
  {| WebSocketServer.type := Js.Str "auth";
     WebSocketServer.token := Js.Str tok;
     WebSocketServer.filePath := Js.Undefined |}.

End Example.

(** ** Vocabulary of the statements *)
Module Spec.

(** [nextFile] and [prevFile] as moves of the registry. *)
Definition advance (fm : FileManager.t) : FileManager.t := snd (FileManager.nextFile fm).
Definition retreat (fm : FileManager.t) : FileManager.t := snd (FileManager.prevFile fm).

(** The session invariant: without an active driver there is no active file
    and no running presentation. *)
Definition sessionInvariant (pm : PresentationManager.t) : Prop :=
  PresentationManager.currentDriver pm = None ->
  PresentationManager.currentFile pm = None
  /\ PresentationManager.isPresenting pm = false.

(** The operations of the session manager. *)
Inductive Operation : Type :=
| OpenFile (filePath : string)
| StartPresentation
| StopPresentation
| ClosePresentation
| NextSlide
| PrevSlide
| SetFolder (folderPath : string)
| GetStatus.

(** The system after an operation has run, whether it returned or threw. *)
Definition after {App} (P : Platform) (drivers : Driver.Ref -> Driver.Ops App)
    (op : Operation) (s : PresentationManager.Sys App) : PresentationManager.Sys App :=
  match op with
  | OpenFile filePath => snd (PresentationManager.openFile drivers filePath s)
  | StartPresentation => snd (PresentationManager.startPresentation drivers s)
  | StopPresentation => snd (PresentationManager.stopPresentation drivers s)
  | ClosePresentation => snd (PresentationManager.closePresentation drivers s)
  | NextSlide => snd (PresentationManager.nextSlide drivers s)
  | PrevSlide => snd (PresentationManager.prevSlide drivers s)
  | SetFolder folderPath => snd (PresentationManager.setFolder P folderPath s)
  | GetStatus => snd (PresentationManager.getStatus drivers s)
  end.

(** The slide position [getStatus] reports from the cache. *)
Definition reportsCache (pm : PresentationManager.t) (st : Status.t) : Prop :=
  Status.currentSlide st = PresentationManager.currentSlideIndex pm + 1
  /\ Status.totalSlides st = PresentationManager.totalSlides pm.

(** The slide position [getStatus] reports from a poll of the driver. *)
Definition reportsPoll (info : Driver.SlideInfo) (st : Status.t) : Prop :=
  Status.currentSlide st = Driver.currentSlide info
  /\ Status.totalSlides st = Driver.totalSlides info.

(** What [updatePresentationInfo] may touch: the three cached fields and
    the application side. *)
Definition sameButCache {App} (s s' : PresentationManager.Sys App) : Prop :=
  PresentationManager.fileManager (PresentationManager.self s')
  = PresentationManager.fileManager (PresentationManager.self s)
  /\ PresentationManager.currentDriver (PresentationManager.self s')
     = PresentationManager.currentDriver (PresentationManager.self s)
  /\ PresentationManager.currentFile (PresentationManager.self s')
     = PresentationManager.currentFile (PresentationManager.self s)
  /\ PresentationManager.isPresenting (PresentationManager.self s')
     = PresentationManager.isPresenting (PresentationManager.self s)
  /\ PresentationManager.fs s' = PresentationManager.fs s.

(** The ways [openFile] can fail: the path is not a file on disk, the file
    is not in the registry, its type has no driver, or the driver's
    [openFile] reports failure or throws. *)
Definition openFileFails {App} (drivers : Driver.Ref -> Driver.Ops App)
    (filePath : string) (s : PresentationManager.Sys App) : Prop :=
  FileManager.validateFile (PresentationManager.fs s) filePath = false
  \/ match fst (FileManager.setCurrentFile filePath
                  (PresentationManager.fileManager (PresentationManager.self s))) with
     | None => True
     | Some file =>
         match PresentationManager.getDriverForFile file with
         | None => True
         | Some driver =>
             match fst (Driver.openFile (drivers driver) filePath
                          (PresentationManager.app s)) with
             | Js.Return result => Driver.success result = false
             | Js.Throw _ => True
             end
         end
     end.

(** C7 as the specification states it: whenever the active driver has
    [getCurrentSlideInfo] and a presentation is running, the status carries
    what a poll of that driver returns. *)
Definition pollsWheneverSupported {App} (drivers : Driver.Ref -> Driver.Ops App) : Prop :=
  forall (s s' : PresentationManager.Sys App) driver info a' st,
    PresentationManager.currentDriver (PresentationManager.self s) = Some driver ->
    Driver.hasGetCurrentSlideInfo driver = true ->
    PresentationManager.isPresenting (PresentationManager.self s) = true ->
    Driver.getCurrentSlideInfo (drivers driver) (PresentationManager.app s)
    = (Js.Return info, a') ->
    PresentationManager.getStatus drivers s = (Js.Return st, s') ->
    reportsPoll info st.

(** A directory entry [scanFiles] keeps: a regular file whose lower-cased
    extension is in [supportedExtensions]. *)
Definition supportedEntry (P : Platform) (entry : Dirent) : bool :=
  d_isFile entry
  && Js.includes FileManager.supportedExtensions
       (FileManager.extensionOf P (d_name entry)).

(** A registry element describes the entry of its name in [folder]. *)
Definition describes (P : Platform) (fs : FS) (folder : string)
    (file : FileManager.PresentationFile) : Prop :=
  FileManager.path file = path_join P folder (FileManager.name file)
  /\ FileManager.extension file = FileManager.extensionOf P (FileManager.name file)
  /\ FileManager.type file = FileManager.getFileType (FileManager.extension file)
  /\ exists stats,
       fs_stat fs (FileManager.path file) = Some stats
       /\ FileManager.size file = st_size stats
       /\ FileManager.modified file = st_mtime stats.

(** Name order: [localeCompare] does not put [b] before [a]. *)
Definition nameLe (P : Platform) (a b : string) : Prop := localeCompare P a b <= 0.

(** What the scenario of C6 uses of the platform on its three names. *)
Record ScenarioNames (P : Platform) : Prop := {
  ext_a_key : FileManager.extensionOf P "a.key" = ".key";
  ext_b_pptx : FileManager.extensionOf P "b.pptx" = ".pptx";
  ext_c_ppt : FileManager.extensionOf P "c.ppt" = ".ppt";
  a_before_b : localeCompare P "a.key" "b.pptx" < 0;
  b_before_c : localeCompare P "b.pptx" "c.ppt" < 0;
}.

(** The three directory entries of the scenario. *)
Definition scenarioEntries : list Dirent :=
  [ {| d_name := "a.key"; d_isFile := true |};
    {| d_name := "b.pptx"; d_isFile := true |};
    {| d_name := "c.ppt"; d_isFile := true |} ].

End Spec.

(** ** The callbacks of the chokidar watcher ([setupWatcher])

    Each callback receives the full path of the file the event is about.
    [scanFiles()] is called without [await]: the call runs up to its first
    [await] (the [readdir]), the callback goes on with the list as it was,
    and the scan completes afterwards.  The embedding is that sequence with
    nothing else in between; with no folder set, [scanFiles] empties the list
    before it returns and the callback goes on with the empty list. *)
Module FileWatcher.

Section WithPlatform.
Variable P : Platform.

(** [this.supportedExtensions.includes(path.extname(filePath).toLowerCase())]. *)
Definition concerns (filePath : string) : bool :=
  Js.includes FileManager.supportedExtensions (FileManager.extensionOf P filePath).

(** [!this.currentFolder] is false. *)
Definition folderSet (fm : FileManager.t) : bool :=
  match FileManager.currentFolder fm with
  | Some folder => negb (String.eqb folder "")
  | None => false
  end.

(** The [if] of the ['unlink'] callback, with its assignment. *)
Definition resetIfCurrent (filePath : string) (fm : FileManager.t) : FileManager.t :=
  if (0 <=? FileManager.currentFileIndex fm)
     && match Js.index (FileManager.files fm) (FileManager.currentFileIndex fm) with
        | Some file => String.eqb (FileManager.path file) filePath
        | None => false
        end
  then FileManager.set_currentFileIndex (-1) fm
  else fm.

Definition onAdd (fs : FS) (filePath : string) (fm : FileManager.t) : FileManager.t :=
  if concerns filePath then FileManager.scanFiles P fs fm else fm.

Definition onUnlink (fs : FS) (filePath : string) (fm : FileManager.t) : FileManager.t :=
  if concerns filePath then
    if folderSet fm
    then FileManager.scanFiles P fs (resetIfCurrent filePath fm)
    else resetIfCurrent filePath (FileManager.scanFiles P fs fm)
  else fm.

Definition onChange (fs : FS) (filePath : string) (fm : FileManager.t) : FileManager.t :=
  if concerns filePath then FileManager.scanFiles P fs fm else fm.

End WithPlatform.

End FileWatcher.

(** ** Vocabulary of the further statements *)
Module Props.

(** The cursor selects nothing or a file of the list. *)
Definition cursorInRange (fm : FileManager.t) : Prop :=
  -1 <= FileManager.currentFileIndex fm < Js.length (FileManager.files fm).

(** The moves of the registry cursor. *)
Inductive CursorMove : Type :=
| SetCurrentFile (filePath : string)
| NextFile
| PrevFile
| GetFileByIndex (index : Z)
| ClearFolder
| SetFolder (P : Platform) (fs : FS) (folderPath : string).

Definition moved (m : CursorMove) (fm : FileManager.t) : FileManager.t :=
  match m with
  | SetCurrentFile filePath => snd (FileManager.setCurrentFile filePath fm)
  | NextFile => snd (FileManager.nextFile fm)
  | PrevFile => snd (FileManager.prevFile fm)
  | GetFileByIndex index => snd (FileManager.getFileByIndex index fm)
  | ClearFolder => FileManager.clearFolder fm
  | SetFolder P fs folderPath => FileManager.setFolder P fs folderPath fm
  end.

End Props.

(** ** Vocabulary for the commands of the session manager *)
Module Commands.

(** The five control methods a client can reach. *)
Inductive Command : Type := Start | Stop | Close | Next | Prev.

Section WithDrivers.
Context {App : Type}.
Variable drivers : Driver.Ref -> Driver.Ops App.

(** The method of the manager. *)
Definition run (c : Command) : PresentationManager.M (App := App) unit :=
  match c with
  | Start => PresentationManager.startPresentation drivers
  | Stop => PresentationManager.stopPresentation drivers
  | Close => PresentationManager.closePresentation drivers
  | Next => PresentationManager.nextSlide drivers
  | Prev => PresentationManager.prevSlide drivers
  end.

(** The file navigation helpers of the manager. *)
Inductive Helper : Type :=
| OpenNextFile
| OpenPrevFile
| OpenFileByIndex (index : Z).

Definition navigate (h : Helper) : PresentationManager.M (App := App) Driver.OpenResult :=
  match h with
  | OpenNextFile => PresentationManager.openNextFile drivers
  | OpenPrevFile => PresentationManager.openPrevFile drivers
  | OpenFileByIndex index => PresentationManager.openFileByIndex drivers index
  end.

(** The system with the registry cursor on [index]. *)
Definition withCursor (index : Z) (s : PresentationManager.Sys App)
  : PresentationManager.Sys App :=
  {| PresentationManager.self :=
       PresentationManager.set_fileManager
         (FileManager.set_currentFileIndex index
            (PresentationManager.fileManager (PresentationManager.self s)))
         (PresentationManager.self s);
     PresentationManager.fs := PresentationManager.fs s;
     PresentationManager.app := PresentationManager.app s |}.

(** The method of the driver that the method of the manager calls. *)
Definition driverCall (driver : Driver.Ref) (c : Command) : Js.Eff App unit :=
  match c with
  | Start => Driver.startPresentation (drivers driver)
  | Stop => Driver.stopPresentation (drivers driver)
  | Close => Driver.closePresentation (drivers driver)
  | Next => Driver.nextSlide (drivers driver)
  | Prev => Driver.prevSlide (drivers driver)
  end.

(** What a refresh by [updatePresentationInfo] with driver [driver], started
    on the manager [pm] and the application side [a], has left in [s']: the
    position the driver reports and its notes; empty notes when the notes
    cannot be fetched; the cache as it was when the position cannot be
    fetched. *)
Definition Refreshed (driver : Driver.Ref) (pm : PresentationManager.t) (a : App)
    (s' : PresentationManager.Sys App) : Prop :=
  match Driver.getCurrentSlideInfo (drivers driver) a with
  | (Js.Throw _, a1) =>
      (PresentationManager.currentSlideIndex (PresentationManager.self s'),
       PresentationManager.totalSlides (PresentationManager.self s'),
       PresentationManager.slideNotes (PresentationManager.self s'))
      = (PresentationManager.currentSlideIndex pm,
         PresentationManager.totalSlides pm,
         PresentationManager.slideNotes pm)
      /\ PresentationManager.app s' = a1
  | (Js.Return info, a1) =>
      PresentationManager.currentSlideIndex (PresentationManager.self s')
      = Driver.currentSlide info - 1
      /\ PresentationManager.totalSlides (PresentationManager.self s')
         = Driver.totalSlides info
      /\ match Driver.getSlideNotes (drivers driver) (Driver.currentSlide info) a1 with
         | (Js.Return notes, a2) =>
             PresentationManager.slideNotes (PresentationManager.self s') = notes
             /\ PresentationManager.app s' = a2
         | (Js.Throw _, a2) =>
             PresentationManager.slideNotes (PresentationManager.self s') = ""
             /\ PresentationManager.app s' = a2
         end
  end.

End WithDrivers.

(** The message of the error a method throws when its guard fails. *)
Definition guardMessage (c : Command) : string :=
  match c with
  | Start => "No presentation file is currently open"
  | Stop => "No presentation is currently active"
  | Close | Next | Prev => "No presentation is currently open"
  end.

(** The guard of the method: [this.currentDriver] is set, and for [Start]
    [this.currentFile] too. *)
Definition guard (c : Command) (pm : PresentationManager.t) : bool :=
  match PresentationManager.currentDriver pm, c with
  | None, _ => false
  | Some _, Start =>
      match PresentationManager.currentFile pm with Some _ => true | None => false end
  | Some _, _ => true
  end.

(** The commands that end with [updatePresentationInfo]. *)
Definition refreshes (c : Command) : bool :=
  match c with
  | Start | Next | Prev => true
  | Stop | Close => false
  end.

(** The name of the command in a message of a client. *)
Definition name (c : Command) : string :=
  match c with
  | Start => "start"
  | Stop => "stop"
  | Close => "close"
  | Next => "next"
  | Prev => "prev"
  end.

End Commands.

(** ** The heartbeat of the server and vocabulary for its statements *)
Module Heartbeat.

Definition set_lastPing (v : Z) (client : WebSocketServer.Client)
  : WebSocketServer.Client :=
  {| WebSocketServer.ws := WebSocketServer.ws client;
     WebSocketServer.authenticated := WebSocketServer.authenticated client;
     WebSocketServer.lastPing := v;
     WebSocketServer.ip := WebSocketServer.ip client |}.

(** The callback of the [forEach] in the timer of [setupPingInterval], on
    the clients map and the list of the sockets [ping()] was called on. *)
Definition pingClient (now : Z) (socks : gmap nat WebSocketServer.Socket)
    (clientId : string) (client : WebSocketServer.Client)
    (acc : gmap string WebSocketServer.Client * list nat)
  : gmap string WebSocketServer.Client * list nat :=
  if WebSocketServer.isOpen socks client then
    if 30000 <? now - WebSocketServer.lastPing client
    then (<[clientId := set_lastPing now client]> (fst acc),
          (snd acc ++ [WebSocketServer.ws client])%list)
    else acc
  else (delete clientId (fst acc), snd acc).

(** One run of the timer callback; the result is the list of the sockets
    that were pinged. *)
Definition tick {App} : WebSocketServer.M (App := App) (list nat) :=
  fun s =>
    let '(clients, pinged) :=
      WebSocketServer.forEach (pingClient (WebSocketServer.now s) (WebSocketServer.sockets s))
        (WebSocketServer.clients (WebSocketServer.self s))
        (WebSocketServer.clients (WebSocketServer.self s), []) in
    (Js.Return pinged,
     WebSocketServer.set_self
       (WebSocketServer.set_clients clients (WebSocketServer.self s)) s).

End Heartbeat.

Module ServerProps.

(** Every registered client has a socket of its own. *)
Definition distinctSockets (srv : WebSocketServer.t) : Prop :=
  forall id1 id2 c1 c2,
    WebSocketServer.clients srv !! id1 = Some c1 ->
    WebSocketServer.clients srv !! id2 = Some c2 ->
    WebSocketServer.ws c1 = WebSocketServer.ws c2 -> id1 = id2.

(** Some authenticated client of the map refers to the socket [h]. *)
Definition listening (clients : gmap string WebSocketServer.Client) (h : nat) : Prop :=
  exists id client,
    clients !! id = Some client
    /\ WebSocketServer.ws client = h
    /\ WebSocketServer.authenticated client = true.

(** From [socks] to [socks'], [message] was appended to every open socket an
    authenticated client refers to, and nothing else happened. *)
Definition Delivered (message : WebSocketServer.OutMsg)
    (clients : gmap string WebSocketServer.Client)
    (socks socks' : gmap nat WebSocketServer.Socket) : Prop :=
  forall h,
    (forall socket,
        socks !! h = Some socket ->
        WebSocketServer.readyState socket = WebSocketServer.OPEN ->
        listening clients h ->
        socks' !! h = Some (WebSocketServer.ws_send message socket))
    /\ (~ (exists socket,
              socks !! h = Some socket
              /\ WebSocketServer.readyState socket = WebSocketServer.OPEN
              /\ listening clients h) ->
        socks' !! h = socks !! h).

(** The message types [handleMessage] and [handlePresentationCommand] know. *)
Definition knownTypes : list string :=
  ["auth"; "ping"; "status"; "listFiles"; "openFile";
   "start"; "stop"; "close"; "next"; "prev"].

(** A message of a client with only its type. *)
Definition typed (t : Js.Val) : WebSocketServer.Message :=
  {| WebSocketServer.type := t;
     WebSocketServer.token := Js.Undefined;
     WebSocketServer.filePath := Js.Undefined |}.

End ServerProps.

(** ** More of the concrete environment *)
Module Example2.

(** The example server while Keynote presents [a.key]. *)
Definition presenting : WebSocketServer.Sys Example.App :=
  {| WebSocketServer.self := WebSocketServer.self Example.server;
     WebSocketServer.sockets := WebSocketServer.sockets Example.server;
     WebSocketServer.manager := Example.sys Example.presentingKeynote Example.running;
     WebSocketServer.now := WebSocketServer.now Example.server |}.

(** The example server with the socket of a connection that is being
    accepted. *)
Definition accepting : WebSocketServer.Sys Example.App :=
  {| WebSocketServer.self := WebSocketServer.self Example.server;
     WebSocketServer.sockets :=
       <[2%nat := Example.openSocket]> (WebSocketServer.sockets Example.server);
     WebSocketServer.manager := WebSocketServer.manager Example.server;
     WebSocketServer.now := WebSocketServer.now Example.server |}.

End Example2.

(** ** The two driver classes of [src/drivers]

    [executeAppleScript] runs [osascript] on a script text and returns what
    it prints, or throws an [Error] with the cleaned message.  The texts are
    fixed but for the file path and the slide number: a script is named by
    the method that builds it.  The presentation applications are the state
    [W] the scripts run on. *)
Module AppleScript.

Inductive Script : Type :=
(* PowerPointDriver *)
| PowerPointOpen (filePath : string)
| PowerPointRunSlideShow
| PowerPointExitSlideShow
| PowerPointClose
| PowerPointNextSlide
| PowerPointPreviousSlide
| PowerPointCountSlides        (* [totalScript] of [getCurrentSlideInfo] *)
| PowerPointSlideIndex         (* [currentScript] of [getCurrentSlideInfo] *)
| PowerPointNotesText
| PowerPointTotalSlides        (* the script of [getTotalSlides] *)
(* KeynoteDriver *)
| KeynoteOpen (filePath : string)
| KeynoteStartSlideshow
| KeynoteStopSlideshow
| KeynoteClose
| KeynoteShowNext
| KeynoteShowPrevious
| KeynoteCountSlides           (* [countScript] of [getCurrentSlideInfo] *)
| KeynoteSlideNumber           (* [currentScript] of [getCurrentSlideInfo] *)
| KeynotePresenterNotes (slideNumber : Z)
| KeynoteTotalSlides.          (* the script of [getTotalSlides] *)

(** What the drivers take from the runtime: [String.prototype.trim],
    [parseInt] ([None] is [NaN]) and [executeAppleScript]. *)
Record Runtime (W : Type) : Type := {
  trim : string -> string;
  parseInt : string -> option Z;
  executeAppleScript : Script -> Js.Eff W string;
}.
Arguments trim {W}.
Arguments parseInt {W}.
Arguments executeAppleScript {W}.

(** [n || d] on the result of [parseInt]: [NaN] and [0] are falsy. *)
Definition orElse (d : Z) (n : option Z) : Z :=
  match n with
  | Some v => if v =? 0 then d else v
  | None => d
  end.

(** An element of the array [getSlideList] builds. *)
Record Slide : Type := { index : Z; title : string; notes : string }.

End AppleScript.

Module PowerPointDriver.

(** The fields of the driver object besides the constant [appName]. *)
Record t : Type := {
  currentPresentation : option string;
  addinConnected : bool;
}.

Definition constructor : t :=
  {| currentPresentation := None; addinConnected := false |}.

Section WithRuntime.
Context {W : Type}.
Variable R : AppleScript.Runtime W.

(** A method runs on the driver object and the applications. *)
Definition M (A : Type) : Type := Js.Eff (t * W) A.

(** [this.executeAppleScript(script)]. *)
Definition run (script : AppleScript.Script) : M string :=
  Js.zoom snd (fun w s => (fst s, w)) (AppleScript.executeAppleScript R script).

Definition openFile (filePath : string) : M Driver.OpenResult :=
  Js.tryCatch
    (result <- run (AppleScript.PowerPointOpen filePath) ;;
     Js.modify (fun s => ({| currentPresentation := Some (AppleScript.trim R result);
                             addinConnected := addinConnected (fst s) |}, snd s)) ;;;
     Js.ret {| Driver.success := true;
               Driver.message :=
                 "Opened " ++ AppleScript.trim R result ++ " in PowerPoint" |})%eff
    (fun error =>
       Js.ret {| Driver.success := false;
                 Driver.message := "Failed to open file: " ++ error |}).

(** The five methods of the shape
    [try { this.executeAppleScript(script); return ... }
     catch (error) { throw new Error(prefix + error.message) }]. *)
Definition command (script : AppleScript.Script) (prefix : string) : M unit :=
  Js.tryCatch
    (run script ;;; Js.ret tt)%eff
    (fun error => Js.throw (prefix ++ error)).

Definition startPresentation : M unit :=
  command AppleScript.PowerPointRunSlideShow "Failed to start presentation: ".

Definition stopPresentation : M unit :=
  command AppleScript.PowerPointExitSlideShow "Failed to stop presentation: ".

Definition closePresentation : M unit :=
  command AppleScript.PowerPointClose "Failed to close presentation: ".

Definition nextSlide : M unit :=
  command AppleScript.PowerPointNextSlide "Failed to go to next slide: ".

Definition prevSlide : M unit :=
  command AppleScript.PowerPointPreviousSlide "Failed to go to previous slide: ".

Definition getCurrentSlideInfo : M Driver.SlideInfo :=
  Js.tryCatch
    (total <- run AppleScript.PowerPointCountSlides ;;
     let totalSlides :=
       AppleScript.orElse 0 (AppleScript.parseInt R (AppleScript.trim R total)) in
     currentSlide <-
       Js.tryCatch
         (current <- run AppleScript.PowerPointSlideIndex ;;
          Js.ret (AppleScript.orElse 1
                    (AppleScript.parseInt R (AppleScript.trim R current))))
         (fun _ => Js.ret 1) ;;
     Js.ret {| Driver.currentSlide := currentSlide;
               Driver.totalSlides := totalSlides |})%eff
    (fun _ => Js.ret {| Driver.currentSlide := 1; Driver.totalSlides := 0 |}).

(** The slide number is not used by the script of this driver. *)
Definition getSlideNotes (slideNumber : Z) : M string :=
  Js.tryCatch
    (result <- run AppleScript.PowerPointNotesText ;;
     Js.ret (AppleScript.trim R result))%eff
    (fun _ => Js.ret "").

(** The result is [NaN] ([None]) when the output is not a number. *)
Definition getTotalSlides : M (option Z) :=
  Js.tryCatch
    (result <- run AppleScript.PowerPointTotalSlides ;;
     Js.ret (AppleScript.parseInt R (AppleScript.trim R result)))%eff
    (fun error => Js.throw ("Failed to get total slides: " ++ error)).

Definition setAddinConnection (connected : bool) : M unit :=
  Js.modify (fun s => ({| currentPresentation := currentPresentation (fst s);
                          addinConnected := connected |}, snd s)).

End WithRuntime.

(** [`Slide ${i}`] for an integer. *)
Definition slideTitle (numberToString : Z -> string) (i : Z) : string :=
  "Slide " ++ numberToString i.

(** The [for (let i = 1; i <= totalSlides; i++)] loop of [getSlideList]; no
    turn when the total is [NaN]. *)
Definition placeholders (numberToString : Z -> string) (totalSlides : option Z)
  : list AppleScript.Slide :=
  match totalSlides with
  | Some n =>
      List.map (fun i => {| AppleScript.index := i;
                            AppleScript.title := slideTitle numberToString i;
                            AppleScript.notes := "" |})
               (seqZ 1 n)
  | None => []
  end.

Definition getSlideList {W} (R : AppleScript.Runtime W) (numberToString : Z -> string)
  : M (W := W) (list AppleScript.Slide) :=
  (s <- Js.get ;;
   if addinConnected (fst s)
   then Js.throw "Add-in communication not yet implemented"
   else
     totalSlides <- getTotalSlides R ;;
     Js.ret (placeholders numberToString totalSlides))%eff.

End PowerPointDriver.

Module KeynoteDriver.

(** The field of the driver object besides the constant [appName]. *)
Record t : Type := { currentDocument : option string }.

Definition constructor : t := {| currentDocument := None |}.

Section WithRuntime.
Context {W : Type}.
Variable R : AppleScript.Runtime W.

Definition M (A : Type) : Type := Js.Eff (t * W) A.

Definition run (script : AppleScript.Script) : M string :=
  Js.zoom snd (fun w s => (fst s, w)) (AppleScript.executeAppleScript R script).

Definition openFile (filePath : string) : M Driver.OpenResult :=
  Js.tryCatch
    (result <- run (AppleScript.KeynoteOpen filePath) ;;
     Js.modify (fun s => ({| currentDocument := Some (AppleScript.trim R result) |},
                          snd s)) ;;;
     Js.ret {| Driver.success := true;
               Driver.message :=
                 "Opened " ++ AppleScript.trim R result ++ " in Keynote" |})%eff
    (fun error =>
       Js.ret {| Driver.success := false;
                 Driver.message := "Failed to open file: " ++ error |}).

Definition command (script : AppleScript.Script) (prefix : string) : M unit :=
  Js.tryCatch
    (run script ;;; Js.ret tt)%eff
    (fun error => Js.throw (prefix ++ error)).

Definition startPresentation : M unit :=
  command AppleScript.KeynoteStartSlideshow "Failed to start presentation: ".

Definition stopPresentation : M unit :=
  command AppleScript.KeynoteStopSlideshow "Failed to stop presentation: ".

Definition closePresentation : M unit :=
  command AppleScript.KeynoteClose "Failed to close presentation: ".

Definition nextSlide : M unit :=
  command AppleScript.KeynoteShowNext "Failed to go to next slide: ".

Definition prevSlide : M unit :=
  command AppleScript.KeynoteShowPrevious "Failed to go to previous slide: ".

Definition getCurrentSlideInfo : M Driver.SlideInfo :=
  Js.tryCatch
    (total <- run AppleScript.KeynoteCountSlides ;;
     let totalSlides :=
       AppleScript.orElse 0 (AppleScript.parseInt R (AppleScript.trim R total)) in
     currentSlide <-
       Js.tryCatch
         (current <- run AppleScript.KeynoteSlideNumber ;;
          Js.ret (AppleScript.orElse 1
                    (AppleScript.parseInt R (AppleScript.trim R current))))
         (fun _ => Js.ret 1) ;;
     Js.ret {| Driver.currentSlide := currentSlide;
               Driver.totalSlides := totalSlides |})%eff
    (fun _ => Js.ret {| Driver.currentSlide := 1; Driver.totalSlides := 0 |}).

Definition getSlideNotes (slideNumber : Z) : M string :=
  Js.tryCatch
    (result <- run (AppleScript.KeynotePresenterNotes slideNumber) ;;
     Js.ret (AppleScript.trim R result))%eff
    (fun _ => Js.ret "").

Definition getTotalSlides : M (option Z) :=
  Js.tryCatch
    (result <- run AppleScript.KeynoteTotalSlides ;;
     Js.ret (AppleScript.parseInt R (AppleScript.trim R result)))%eff
    (fun error => Js.throw ("Failed to get total slides: " ++ error)).

End WithRuntime.

End KeynoteDriver.

(** ** The manager on the two driver objects it constructs *)
Module Drivers.

(** The application side of the manager: its two driver objects and the
    applications. *)
Record Side (W : Type) : Type := {
  powerpoint : PowerPointDriver.t;
  keynote : KeynoteDriver.t;
  world : W;
}.
Arguments powerpoint {W}.
Arguments keynote {W}.
Arguments world {W}.
Arguments Build_Side {W}.

Section WithRuntime.
Context {W : Type}.
Variable R : AppleScript.Runtime W.

(** A method of [this.powerpointDriver]. *)
Definition onPowerPoint {A} (m : PowerPointDriver.M A) : Js.Eff (Side W) A :=
  Js.zoom (fun s => (powerpoint s, world s))
          (fun p s => {| powerpoint := fst p; keynote := keynote s; world := snd p |})
          m.

(** A method of [this.keynoteDriver]. *)
Definition onKeynote {A} (m : KeynoteDriver.M A) : Js.Eff (Side W) A :=
  Js.zoom (fun s => (keynote s, world s))
          (fun p s => {| powerpoint := powerpoint s; keynote := fst p; world := snd p |})
          m.

Definition ops (driver : Driver.Ref) : Driver.Ops (Side W) :=
  match driver with
  | Driver.powerpointDriver =>
      {| Driver.openFile := fun p => onPowerPoint (PowerPointDriver.openFile R p);
         Driver.startPresentation := onPowerPoint (PowerPointDriver.startPresentation R);
         Driver.stopPresentation := onPowerPoint (PowerPointDriver.stopPresentation R);
         Driver.closePresentation := onPowerPoint (PowerPointDriver.closePresentation R);
         Driver.nextSlide := onPowerPoint (PowerPointDriver.nextSlide R);
         Driver.prevSlide := onPowerPoint (PowerPointDriver.prevSlide R);
         Driver.getCurrentSlideInfo := onPowerPoint (PowerPointDriver.getCurrentSlideInfo R);
         Driver.getSlideNotes := fun n => onPowerPoint (PowerPointDriver.getSlideNotes R n) |}
  | Driver.keynoteDriver =>
      {| Driver.openFile := fun p => onKeynote (KeynoteDriver.openFile R p);
         Driver.startPresentation := onKeynote (KeynoteDriver.startPresentation R);
         Driver.stopPresentation := onKeynote (KeynoteDriver.stopPresentation R);
         Driver.closePresentation := onKeynote (KeynoteDriver.closePresentation R);
         Driver.nextSlide := onKeynote (KeynoteDriver.nextSlide R);
         Driver.prevSlide := onKeynote (KeynoteDriver.prevSlide R);
         Driver.getCurrentSlideInfo := onKeynote (KeynoteDriver.getCurrentSlideInfo R);
         Driver.getSlideNotes := fun n => onKeynote (KeynoteDriver.getSlideNotes R n) |}
  end.

(** The script each driver runs for a control command of the manager, and
    the prefix it puts before the message of a failure. *)
Definition commandScript (driver : Driver.Ref) (c : Commands.Command) : AppleScript.Script :=
  match driver, c with
  | Driver.powerpointDriver, Commands.Start => AppleScript.PowerPointRunSlideShow
  | Driver.powerpointDriver, Commands.Stop => AppleScript.PowerPointExitSlideShow
  | Driver.powerpointDriver, Commands.Close => AppleScript.PowerPointClose
  | Driver.powerpointDriver, Commands.Next => AppleScript.PowerPointNextSlide
  | Driver.powerpointDriver, Commands.Prev => AppleScript.PowerPointPreviousSlide
  | Driver.keynoteDriver, Commands.Start => AppleScript.KeynoteStartSlideshow
  | Driver.keynoteDriver, Commands.Stop => AppleScript.KeynoteStopSlideshow
  | Driver.keynoteDriver, Commands.Close => AppleScript.KeynoteClose
  | Driver.keynoteDriver, Commands.Next => AppleScript.KeynoteShowNext
  | Driver.keynoteDriver, Commands.Prev => AppleScript.KeynoteShowPrevious
  end.

Definition failurePrefix (c : Commands.Command) : string :=
  match c with
  | Commands.Start => "Failed to start presentation: "
  | Commands.Stop => "Failed to stop presentation: "
  | Commands.Close => "Failed to close presentation: "
  | Commands.Next => "Failed to go to next slide: "
  | Commands.Prev => "Failed to go to previous slide: "
  end.

(** The scripts of [getCurrentSlideInfo], [getSlideNotes] and [openFile]. *)
Definition countScript (driver : Driver.Ref) : AppleScript.Script :=
  match driver with
  | Driver.powerpointDriver => AppleScript.PowerPointCountSlides
  | Driver.keynoteDriver => AppleScript.KeynoteCountSlides
  end.

Definition positionScript (driver : Driver.Ref) : AppleScript.Script :=
  match driver with
  | Driver.powerpointDriver => AppleScript.PowerPointSlideIndex
  | Driver.keynoteDriver => AppleScript.KeynoteSlideNumber
  end.

Definition notesScript (driver : Driver.Ref) (slideNumber : Z) : AppleScript.Script :=
  match driver with
  | Driver.powerpointDriver => AppleScript.PowerPointNotesText
  | Driver.keynoteDriver => AppleScript.KeynotePresenterNotes slideNumber
  end.

Definition openScript (driver : Driver.Ref) (filePath : string) : AppleScript.Script :=
  match driver with
  | Driver.powerpointDriver => AppleScript.PowerPointOpen filePath
  | Driver.keynoteDriver => AppleScript.KeynoteOpen filePath
  end.

(** The application of a driver, as its [openFile] writes it in the
    message. *)
Definition appName (driver : Driver.Ref) : string :=
  match driver with
  | Driver.powerpointDriver => "PowerPoint"
  | Driver.keynoteDriver => "Keynote"
  end.

(** The side with another state of the applications. *)
Definition withWorld (w : W) (s : Side W) : Side W :=
  {| powerpoint := powerpoint s; keynote := keynote s; world := w |}.

(** The side after [openFile] of a driver has stored the name [docName]. *)
Definition withDocument (driver : Driver.Ref) (docName : string) (w : W) (s : Side W)
  : Side W :=
  match driver with
  | Driver.powerpointDriver =>
      {| powerpoint :=
           {| PowerPointDriver.currentPresentation := Some docName;
              PowerPointDriver.addinConnected :=
                PowerPointDriver.addinConnected (powerpoint s) |};
         keynote := keynote s; world := w |}
  | Driver.keynoteDriver =>
      {| powerpoint := powerpoint s;
         keynote := {| KeynoteDriver.currentDocument := Some docName |};
         world := w |}
  end.

End WithRuntime.

End Drivers.

(** ** A runtime for the examples

    The applications answer every script while they run and refuse it when
    they do not. *)
Module ExampleScripts.

Definition isSpace (c : ascii) : bool :=
  bool_decide (c = " "%char) || bool_decide (c = "010"%char)
  || bool_decide (c = "009"%char) || bool_decide (c = "013"%char).

Fixpoint dropSpaces (l : list ascii) : list ascii :=
  match l with
  | c :: rest => if isSpace c then dropSpaces rest else l
  | [] => []
  end.

(** [trim] on text whose white space is blanks, tabs and line ends. *)
Definition trim (s : string) : string :=
  string_of_list_ascii
    (rev (dropSpaces (rev (dropSpaces (list_ascii_of_string s))))).

Definition digit (c : ascii) : option Z :=
  let n := Z.of_nat (nat_of_ascii c) in
  if (48 <=? n) && (n <=? 57) then Some (n - 48) else None.

Fixpoint digits (s : string) (acc : option Z) : option Z :=
  match s with
  | String c rest =>
      match digit c with
      | Some d => digits rest (Some (10 * default 0 acc + d))
      | None => acc
      end
  | EmptyString => acc
  end.

(** [parseInt] on trimmed text without a sign: the value of the leading
    decimal digits, [NaN] when there is none. *)
Definition parseInt (s : string) : option Z := digits s None.

(** What the applications print for a script: a deck of twelve slides shown
    on the third one. *)
Definition answer (script : AppleScript.Script) : string :=
  match script with
  | AppleScript.PowerPointOpen _ => "quarterly.pptx" ++ String "010" ""
  | AppleScript.KeynoteOpen _ => "keynote-deck.key" ++ String "010" ""
  | AppleScript.PowerPointCountSlides | AppleScript.KeynoteCountSlides
  | AppleScript.PowerPointTotalSlides | AppleScript.KeynoteTotalSlides =>
      "12" ++ String "010" ""
  | AppleScript.PowerPointSlideIndex | AppleScript.KeynoteSlideNumber =>
      "3" ++ String "010" ""
  | AppleScript.PowerPointNotesText | AppleScript.KeynotePresenterNotes _ =>
      "Mention the roadmap" ++ String "010" ""
  | _ => ""
  end.

(** The state of the applications: whether they run. *)
Definition runtime : AppleScript.Runtime bool :=
  {| AppleScript.trim := trim;
     AppleScript.parseInt := parseInt;
     AppleScript.executeAppleScript := fun script (running : bool) =>
       if running then (Js.Return (answer script), running)
       else (Js.Throw "Application is not running.", running) |}.

Definition side (running : bool) : Drivers.Side bool :=
  {| Drivers.powerpoint := PowerPointDriver.constructor;
     Drivers.keynote := KeynoteDriver.constructor;
     Drivers.world := running |}.

(** The manager of the examples on the two driver objects. *)
Definition sys (pm : PresentationManager.t) (running : bool)
  : PresentationManager.Sys (Drivers.Side bool) :=
  {| PresentationManager.self := pm;
     PresentationManager.fs := Example.disk;
     PresentationManager.app := side running |}.

End ExampleScripts.

(** ** The tray application: the folder commands

    [selectFolder], [loadLastFolder] and [clearFolder] of
    [PresentationControlApp].  Its [fileManager] is the registry object the
    manager of the server holds, and its [wsServer] is the server.  The tray
    icon, its menu and the log are not modelled. *)
Module FolderCommands.

(** [this.selectedFolder], and the [lastFolder] entry of the settings
    object of [SettingsManager]: a path or [null]. *)
Record t : Type := {
  selectedFolder : option string;
  lastFolder : option string;
}.

Definition set_selectedFolder (v : option string) (a : t) : t :=
  {| selectedFolder := v; lastFolder := lastFolder a |}.

(** [settingsManager.setLastFolder(v)]: the entry is assigned and the
    settings file written; an error of the write is caught and logged. *)
Definition setLastFolder (v : option string) (a : t) : t :=
  {| selectedFolder := selectedFolder a; lastFolder := v |}.

Record Sys (App : Type) : Type := {
  self : t;
  wsServer : WebSocketServer.Sys App;
}.
Arguments self {App}.
Arguments wsServer {App}.
Arguments Build_Sys {App}.

(** [this.fileManager]. *)
Definition fileManager {App} (s : Sys App) : FileManager.t :=
  PresentationManager.fileManager
    (PresentationManager.self (WebSocketServer.manager (wsServer s))).

(** The session of the manager the server drives. *)
Definition session {App} (s : Sys App) : PresentationManager.Session :=
  PresentationManager.session
    (PresentationManager.self (WebSocketServer.manager (wsServer s))).

Section WithPlatform.
Context {App : Type}.
Variable P : Platform.

Definition M (A : Type) : Type := Js.Eff (Sys App) A.

Definition assign (setter : t -> t) : M unit :=
  Js.modify (fun s => {| self := setter (self s); wsServer := wsServer s |}).

(** A method of [this.wsServer]. *)
Definition server {A} (m : WebSocketServer.M (App := App) A) : M A :=
  Js.zoom wsServer (fun w s => {| self := self s; wsServer := w |}) m.

(** A method of [this.fileManager] that assigns the registry. *)
Definition registry (f : FS -> FileManager.t -> FileManager.t) : M unit :=
  Js.modify (fun s =>
    let mgr := WebSocketServer.manager (wsServer s) in
    {| self := self s;
       wsServer :=
         WebSocketServer.set_manager
           {| PresentationManager.self :=
                PresentationManager.set_fileManager
                  (f (PresentationManager.fs mgr)
                     (PresentationManager.fileManager (PresentationManager.self mgr)))
                  (PresentationManager.self mgr);
              PresentationManager.fs := PresentationManager.fs mgr;
              PresentationManager.app := PresentationManager.app mgr |}
           (wsServer s) |}).

(** [selectFolder], from the result of the dialog on. *)
Definition selectFolder (canceled : bool) (filePaths : list string) : M unit :=
  (if negb canceled && (0 <? Js.length filePaths) then
     match filePaths with
     | folder :: _ =>
         assign (set_selectedFolder (Some folder)) ;;;
         assign (setLastFolder (Some folder)) ;;;
         registry (fun fs => FileManager.setFolder P fs folder) ;;;
         s <- Js.get ;;
         server (WebSocketServer.broadcast
                   (WebSocketServer.folderChanged
                      (selectedFolder (self s))
                      (FileManager.getFiles (fileManager s))))
     | [] => Js.ret tt
     end
   else Js.ret tt)%eff.

(** [loadLastFolder]; [existsSync] is [fs.existsSync]. *)
Definition loadLastFolder (existsSync : string -> bool) : M unit :=
  (s <- Js.get ;;
   match lastFolder (self s) with
   | Some folder =>
       if negb (String.eqb folder "") then
         if existsSync folder then
           assign (set_selectedFolder (Some folder)) ;;;
           registry (fun fs => FileManager.setFolder P fs folder)
         else assign (setLastFolder None)
       else Js.ret tt
   | None => Js.ret tt
   end)%eff.

Definition clearFolder : M unit :=
  (assign (set_selectedFolder None) ;;;
   assign (setLastFolder None) ;;;
   registry (fun _ => FileManager.clearFolder) ;;;
   server (WebSocketServer.broadcast (WebSocketServer.folderChanged None [])))%eff.

End WithPlatform.

End FolderCommands.

(* ================================================================== *)
(** * Part II. Properties                                               *)
(* ================================================================== *)

(** ** The file cursor *)
Module CursorFacts.
Import FileManager Spec.

Lemma length_pos (fm : t) : files fm <> [] -> 0 < Js.length (files fm).
Proof.
  unfold Js.length. destruct (files fm); [congruence | simpl; lia].
Qed.

Lemma length_eqb_false (fm : t) :
  files fm <> [] -> (Js.length (files fm) =? 0) = false.
Proof. intros H. apply Z.eqb_neq. pose proof (length_pos fm H). lia. Qed.

Lemma advance_files (fm : t) : files (advance fm) = files fm.
Proof.
  unfold advance, nextFile. destruct (Js.length (files fm) =? 0); reflexivity.
Qed.

Lemma advance_cursor (fm : t) :
  files fm <> [] ->
  currentFileIndex (advance fm)
  = Z.rem (currentFileIndex fm + 1) (Js.length (files fm)).
Proof.
  intros H. unfold advance, nextFile. rewrite (length_eqb_false fm H). reflexivity.
Qed.

Lemma iter_advance_files (k : nat) (fm : t) :
  files (Nat.iter k advance fm) = files fm.
Proof.
  induction k as [|k IH]; simpl; [reflexivity|].
  rewrite advance_files. exact IH.
Qed.

(** From a cursor on a file, [k] calls of [nextFile] move it [k] places
    round the list. *)
Lemma iter_advance_cursor (k : nat) (fm : t) :
  files fm <> [] ->
  0 <= currentFileIndex fm < Js.length (files fm) ->
  currentFileIndex (Nat.iter k advance fm)
  = (currentFileIndex fm + Z.of_nat k) mod Js.length (files fm).
Proof.
  intros Hne Hc. induction k as [|k IH].
  - simpl. rewrite Z.add_0_r. symmetry. apply Z.mod_small. exact Hc.
  - rewrite Nat.iter_succ, advance_cursor
      by (rewrite iter_advance_files; exact Hne).
    rewrite iter_advance_files, IH.
    pose proof (length_pos fm Hne) as Hpos.
    pose proof (Z.mod_pos_bound (currentFileIndex fm + Z.of_nat k)
                  (Js.length (files fm)) Hpos) as Hb.
    rewrite Z.rem_mod_nonneg by lia.
    rewrite Zplus_mod_idemp_l. f_equal. lia.
Qed.

(** C5, as the specification states it, fails on the cursor that selects
    no file: in the registry of three files with cursor -1, three calls of
    [nextFile] leave the cursor on the last file. *)
Lemma C5_advance_from_no_selection :
  Js.length (files Example.registry) = 3 /\
  currentFileIndex Example.registry = -1 /\
  currentFileIndex (Nat.iter 3 advance Example.registry) = 2 /\
  currentFileIndex (Nat.iter 3 advance Example.registry)
  <> currentFileIndex Example.registry.
Proof. repeat split. discriminate. Qed.

(** C5 (amended): on a list of N >= 1 files, N calls of [nextFile] bring a
    cursor that selects a file (0 <= cursor < N) back to where it was, and
    [prevFile] with the cursor at index 0 moves it to N-1; neither changes
    the list.  On the empty list both return [null] and change nothing. *)
Theorem C5_cursor_is_circular (fm : t) :
  (files fm <> [] ->
   0 <= currentFileIndex fm < Js.length (files fm) ->
   currentFileIndex (Nat.iter (List.length (files fm)) advance fm)
   = currentFileIndex fm
   /\ files (Nat.iter (List.length (files fm)) advance fm) = files fm)
  /\ (files fm <> [] ->
      currentFileIndex fm = 0 ->
      currentFileIndex (retreat fm) = Js.length (files fm) - 1
      /\ files (retreat fm) = files fm)
  /\ (files fm = [] ->
      nextFile fm = (None, fm) /\ prevFile fm = (None, fm)).
Proof.
  split; [|split].
  - intros Hne Hc. split; [|apply iter_advance_files].
    rewrite iter_advance_cursor by assumption.
    change (Z.of_nat (List.length (files fm))) with (Js.length (files fm)).
    rewrite <- (Z.mul_1_l (Js.length (files fm))) at 1.
    rewrite Z.mod_add by lia. apply Z.mod_small. exact Hc.
  - intros Hne Hc. unfold retreat, prevFile.
    rewrite (length_eqb_false fm Hne), Hc. simpl. split; reflexivity.
  - intros Hnil. unfold nextFile, prevFile, Js.length. rewrite Hnil.
    split; reflexivity.
Qed.

(** The amended C5 at the example registry with [b.pptx] selected. *)
Lemma C5_cursor_is_circular_witness :
  let fm := set_currentFileIndex 1 Example.registry in
  currentFileIndex (Nat.iter 3 advance fm) = 1
  /\ files (Nat.iter 3 advance fm) = files fm.
Proof.
  intros fm.
  apply (proj1 (C5_cursor_is_circular fm)).
  - discriminate.
  - change (0 <= 1 < 3). lia.
Defined.

End CursorFacts.

(** ** The session manager *)
Module SessionFacts.
Import PresentationManager Spec.

(** Unfold the effect combinators down to state-passing functions. *)
Ltac eff :=
  unfold assign, call, registry in *;
  unfold Js.bind, Js.ret, Js.get, Js.modify, Js.tryCatch, Js.throw, Js.zoom in *;
  simpl in *.

(** Case analysis on the outcome of the driver call the goal waits on. *)
Ltac driver_outcome :=
  match goal with
  | |- context [Driver.openFile ?d ?p ?a] =>
      destruct (Driver.openFile d p a) as [[?result|?err] ?a'] eqn:?Hcall
  | |- context [Driver.getSlideNotes ?d ?n ?a] =>
      destruct (Driver.getSlideNotes d n a) as [[?notes|?err] ?a'] eqn:?Hcall
  | |- context [Driver.getCurrentSlideInfo ?d ?a] =>
      destruct (Driver.getCurrentSlideInfo d a) as [[?info|?err] ?a'] eqn:?Hcall
  | |- context [Driver.startPresentation ?d ?a] =>
      destruct (Driver.startPresentation d a) as [[[]|?err] ?a'] eqn:?Hcall
  | |- context [Driver.stopPresentation ?d ?a] =>
      destruct (Driver.stopPresentation d a) as [[[]|?err] ?a'] eqn:?Hcall
  | |- context [Driver.closePresentation ?d ?a] =>
      destruct (Driver.closePresentation d a) as [[[]|?err] ?a'] eqn:?Hcall
  | |- context [Driver.nextSlide ?d ?a] =>
      destruct (Driver.nextSlide d a) as [[[]|?err] ?a'] eqn:?Hcall
  | |- context [Driver.prevSlide ?d ?a] =>
      destruct (Driver.prevSlide d a) as [[[]|?err] ?a'] eqn:?Hcall
  end; simpl.

Section WithDrivers.
Context {App : Type}.
Variable drivers : Driver.Ref -> Driver.Ops App.

Lemma sameButCache_refl (s : Sys App) : sameButCache s s.
Proof. repeat split. Qed.

(** [updatePresentationInfo] never throws and only refreshes the cache. *)
Lemma updatePresentationInfo_returns (s : Sys App) :
  exists s', updatePresentationInfo drivers s = (Js.Return tt, s')
             /\ sameButCache s s'.
Proof.
  unfold updatePresentationInfo. eff.
  destruct (currentDriver (self s)) as [d|] eqn:Hd.
  - driver_outcome.
    + driver_outcome; eexists; (split; [reflexivity|]);
    unfold sameButCache; simpl; auto.
    + eexists; split; [reflexivity|]. unfold sameButCache; simpl; auto.
  - eexists; split; [reflexivity|]. apply sameButCache_refl.
Qed.

(** A driver-less manager is left exactly as it is. *)
Lemma updatePresentationInfo_idle (s : Sys App) :
  currentDriver (self s) = None ->
  updatePresentationInfo drivers s = (Js.Return tt, s).
Proof. intros H. unfold updatePresentationInfo. eff. rewrite H. reflexivity. Qed.

(** Replace a call of [updatePresentationInfo] in the goal by its result. *)
Ltac refresh_cache name :=
  match goal with
  | |- context [updatePresentationInfo drivers ?st] =>
      destruct (updatePresentationInfo_returns st) as (name & -> & (? & ? & ? & ? & ?));
      simpl in *
  end.

(** What a call of [openFile] does, by its result. *)
Lemma openFile_outcome (filePath : string) (s : Sys App) :
  exists result s',
    openFile drivers filePath s = (Js.Return result, s')
    /\ fs s' = fs s
    /\ fileManager (self s')
       = (if FileManager.validateFile (fs s) filePath
          then snd (FileManager.setCurrentFile filePath (fileManager (self s)))
          else fileManager (self s))
    /\ (Driver.success result = false -> session (self s') = session (self s))
    /\ (openFileFails drivers filePath s -> Driver.success result = false)
    /\ (Driver.success result = true ->
        exists file driver,
          fst (FileManager.setCurrentFile filePath (fileManager (self s))) = Some file
          /\ getDriverForFile file = Some driver
          /\ currentDriver (self s') = Some driver
          /\ currentFile (self s') = Some file
          /\ isPresenting (self s') = false).
Proof.
  unfold openFile, openFileFails. eff.
  destruct (FileManager.validateFile (fs s) filePath) eqn:Hvalid; simpl.
  2:{ do 2 eexists. split; [reflexivity|]. simpl. repeat split; discriminate. }
  destruct (FileManager.setCurrentFile filePath (fileManager (self s)))
    as [[file|] fm] eqn:Hset; simpl.
  2:{ do 2 eexists. split; [reflexivity|]. simpl. repeat split; discriminate. }
  destruct (getDriverForFile file) as [driver|] eqn:Hdrv; simpl.
  2:{ do 2 eexists. split; [reflexivity|]. simpl. repeat split; discriminate. }
  driver_outcome.
  2:{ do 2 eexists. split; [reflexivity|]. simpl. repeat split; discriminate. }
  destruct (Driver.success result) eqn:Hok; simpl.
  2:{ do 2 eexists. split; [reflexivity|]. simpl. rewrite Hok.
      repeat split; discriminate. }
  refresh_cache s1.
  do 2 eexists. split; [reflexivity|]. rewrite Hok.
  repeat split; try discriminate; try assumption.
  - intros [Hbad|Hbad]; [discriminate | exact Hbad].
  - intros _. exists file, driver. repeat split; assumption.
Qed.

(** C1: a call of [openFile] always returns a result object and never
    throws; when the result is a failure, the six session fields are what
    they were before the call; and the result is a failure whenever the
    path is not a file, the file is not in the registry, its type has no
    driver, or the driver's [openFile] reports failure or throws. *)
Theorem C1_failed_openFile_keeps_session (filePath : string) (s : Sys App) :
  exists result s',
    openFile drivers filePath s = (Js.Return result, s')
    /\ (Driver.success result = false -> session (self s') = session (self s))
    /\ (openFileFails drivers filePath s -> Driver.success result = false).
Proof.
  destruct (openFile_outcome filePath s)
    as (result & s' & Hrun & _ & _ & Hkeep & Hfail & _).
  exists result, s'. auto.
Qed.

Lemma setCurrentFile_found (filePath : string) (fm : FileManager.t)
    (file : FileManager.PresentationFile) :
  fst (FileManager.setCurrentFile filePath fm) = Some file ->
  let fm' := snd (FileManager.setCurrentFile filePath fm) in
  FileManager.currentFileIndex fm' = FileManager.getFileIndex filePath fm
  /\ 0 <= FileManager.getFileIndex filePath fm
  /\ Js.index (FileManager.files fm) (FileManager.getFileIndex filePath fm) = Some file
  /\ FileManager.files fm' = FileManager.files fm
  /\ FileManager.currentFolder fm' = FileManager.currentFolder fm
  /\ FileManager.watcher fm' = FileManager.watcher fm.
Proof.
  unfold FileManager.setCurrentFile, FileManager.getFileIndex.
  destruct (0 <=? Js.findIndex _ (FileManager.files fm)) eqn:Hidx; simpl.
  - intros Hfile. apply Z.leb_le in Hidx. repeat split; assumption.
  - discriminate.
Qed.

(** C10: when [openFile] fails after the file was found on disk and in the
    registry, the registry cursor is on the requested file (the index
    [findIndex] gives for the path) and stays there, the rest of the
    registry and the six session fields being as before the call. *)
Theorem C10_failed_openFile_leaves_cursor_moved
    (filePath : string) (s s' : Sys App)
    (file : FileManager.PresentationFile) (result : Driver.OpenResult) :
  FileManager.validateFile (fs s) filePath = true ->
  fst (FileManager.setCurrentFile filePath (fileManager (self s))) = Some file ->
  openFile drivers filePath s = (Js.Return result, s') ->
  Driver.success result = false ->
  FileManager.currentFileIndex (fileManager (self s'))
  = FileManager.getFileIndex filePath (fileManager (self s))
  /\ Js.index (FileManager.files (fileManager (self s)))
       (FileManager.currentFileIndex (fileManager (self s'))) = Some file
  /\ FileManager.files (fileManager (self s')) = FileManager.files (fileManager (self s))
  /\ FileManager.currentFolder (fileManager (self s'))
     = FileManager.currentFolder (fileManager (self s))
  /\ session (self s') = session (self s).
Proof.
  intros Hvalid Hfound Hrun Hfail.
  destruct (openFile_outcome filePath s)
    as (result0 & s0 & Hrun0 & _ & Hfm & Hkeep & _).
  rewrite Hrun in Hrun0. injection Hrun0 as <- <-.
  rewrite Hvalid in Hfm.
  destruct (setCurrentFile_found filePath (fileManager (self s)) file Hfound)
    as (Hcur & _ & Hat & Hfiles & Hfolder & _).
  rewrite Hfm, Hcur. repeat split; auto.
Qed.

(** What [closePresentation] does: it throws without a driver or when the
    driver throws, and otherwise assigns five of the six session fields. *)
Lemma closePresentation_outcome (s : Sys App) :
  closePresentation drivers s
  = match currentDriver (self s) with
    | None => (Js.Throw "No presentation is currently open", s)
    | Some driver =>
        match Driver.closePresentation (drivers driver) (app s) with
        | (Js.Return _, a') =>
            (Js.Return tt,
             {| self := {| fileManager := fileManager (self s);
                           currentDriver := None;
                           currentFile := None;
                           isPresenting := false;
                           currentSlideIndex := 0;
                           totalSlides := 0;
                           slideNotes := slideNotes (self s) |};
                fs := fs s; app := a' |})
        | (Js.Throw e, a') =>
            (Js.Throw e, {| self := self s; fs := fs s; app := a' |})
        end
    end.
Proof.
  unfold closePresentation. eff.
  destruct (currentDriver (self s)) as [driver|]; [|reflexivity].
  driver_outcome; reflexivity.
Qed.

(** What [getStatus] does: the manager and the file system are left as
    they are, and the driver is polled only behind the guard. *)
Lemma getStatus_outcome (s : Sys App) :
  exists st s',
    getStatus drivers s = (Js.Return st, s')
    /\ self s' = self s
    /\ fs s' = fs s
    /\ (if bool_decide (currentDriver (self s) = Some Driver.powerpointDriver)
           && isPresenting (self s)
        then
          match Driver.getCurrentSlideInfo (drivers Driver.powerpointDriver) (app s) with
          | (Js.Return info, a') => reportsPoll info st /\ app s' = a'
          | (Js.Throw _, a') => reportsCache (self s) st /\ app s' = a'
          end
        else reportsCache (self s) st /\ s' = s).
Proof.
  unfold getStatus, realTimeSlideInfo, reportsPoll, reportsCache. eff.
  destruct (currentDriver (self s)) as [[|]|] eqn:Hd; simpl.
  - do 2 eexists. split; [reflexivity|]. simpl. repeat split.
  - destruct (isPresenting (self s)) eqn:Hp; simpl.
    + driver_outcome; do 2 eexists; (split; [reflexivity|]); simpl;
        rewrite ?Hd, ?Hp; repeat split.
    + do 2 eexists. split; [reflexivity|]. simpl. rewrite ?Hd, ?Hp.
      repeat split.
  - do 2 eexists. split; [reflexivity|]. simpl. repeat split.
Qed.

(** C7 (amended): [getStatus] always returns a snapshot.  It carries the
    slide position a poll of the driver returns exactly when the active
    driver is the PowerPoint driver, a presentation is running and the
    poll does not throw; in every other case, the Keynote driver
    presenting included, it carries the cached [currentSlideIndex + 1]
    and [totalSlides], and when the guard is false nothing is polled. *)
Theorem C7_getStatus_polls_powerpoint_only (s : Sys App) :
  exists st s',
    getStatus drivers s = (Js.Return st, s')
    /\ (currentDriver (self s) = Some Driver.powerpointDriver ->
        isPresenting (self s) = true ->
        forall info a',
          Driver.getCurrentSlideInfo (drivers Driver.powerpointDriver) (app s)
          = (Js.Return info, a') ->
          reportsPoll info st)
    /\ (currentDriver (self s) = Some Driver.powerpointDriver ->
        isPresenting (self s) = true ->
        forall e a',
          Driver.getCurrentSlideInfo (drivers Driver.powerpointDriver) (app s)
          = (Js.Throw e, a') ->
          reportsCache (self s) st)
    /\ (~ (currentDriver (self s) = Some Driver.powerpointDriver
           /\ isPresenting (self s) = true) ->
        reportsCache (self s) st /\ s' = s).
Proof.
  destruct (getStatus_outcome s) as (st & s' & Hrun & _ & _ & Hcase).
  exists st, s'. split; [exact Hrun|].
  destruct (bool_decide (currentDriver (self s) = Some Driver.powerpointDriver))
    eqn:Hd; [apply bool_decide_eq_true in Hd | apply bool_decide_eq_false in Hd];
    simpl in Hcase.
  - destruct (isPresenting (self s)) eqn:Hp.
    + split; [|split].
      * intros _ _ info a' Hpoll. rewrite Hpoll in Hcase. apply Hcase.
      * intros _ _ e a' Hpoll. rewrite Hpoll in Hcase. apply Hcase.
      * intros Hno. exfalso. apply Hno. split; [exact Hd | reflexivity].
    + split; [|split]; try discriminate. intros _. exact Hcase.
  - split; [|split]; try (intros; contradiction). intros _. exact Hcase.
Qed.

(** C8: [getStatus] returns a snapshot and changes neither the session nor
    the registry (nor any other field of the manager); when the
    application side is left as it was, a second call returns the same
    snapshot and the same state again. *)
Theorem C8_getStatus_is_idempotent (s : Sys App) :
  exists st s',
    getStatus drivers s = (Js.Return st, s')
    /\ self s' = self s
    /\ fs s' = fs s
    /\ (app s' = app s -> getStatus drivers s' = (Js.Return st, s')).
Proof.
  destruct (getStatus_outcome s) as (st & s' & Hrun & Hself & Hfs & _).
  exists st, s'. repeat split; try assumption.
  intros Happ.
  assert (s' = s) as ->; [|exact Hrun].
  destruct s, s'; simpl in *; congruence.
Qed.

(** The invariant only reads three session fields. *)
Lemma sessionInvariant_same (pm pm' : t) :
  currentDriver pm' = currentDriver pm ->
  currentFile pm' = currentFile pm ->
  isPresenting pm' = isPresenting pm ->
  sessionInvariant pm -> sessionInvariant pm'.
Proof. unfold sessionInvariant. intros -> -> ->. auto. Qed.

Lemma sessionInvariant_active (pm : t) (driver : Driver.Ref) :
  currentDriver pm = Some driver -> sessionInvariant pm.
Proof. unfold sessionInvariant. congruence. Qed.

Lemma sessionInvariant_constructor (fm : option FileManager.t) :
  sessionInvariant (constructor fm).
Proof. unfold sessionInvariant. auto. Qed.

Variable P : Platform.

(** C9: each operation of the session manager, whether it returns or
    throws, leaves a manager in which an unset driver comes with an unset
    file and a false presenting flag, provided it started from one; the
    constructor builds such a manager. *)
Theorem C9_operations_preserve_session_invariant
    (op : Operation) (s : Sys App) :
  sessionInvariant (self s) ->
  sessionInvariant (self (after P drivers op s)).
Proof.
  intros Hinv. destruct op; simpl.
  - (* openFile *)
    destruct (openFile_outcome filePath s)
      as (result & s' & -> & _ & _ & Hkeep & _ & Hopen). simpl.
    destruct (Driver.success result) eqn:Hok.
    + destruct (Hopen eq_refl) as (file & driver & _ & _ & Hd & _).
      eapply sessionInvariant_active; exact Hd.
    + specialize (Hkeep eq_refl). unfold session in Hkeep.
      injection Hkeep as Hd Hf Hp _ _ _.
      eapply sessionInvariant_same; eassumption.
  - (* startPresentation *)
    unfold startPresentation. eff.
    destruct (currentDriver (self s)) as [driver|] eqn:Hd;
      [destruct (currentFile (self s)) as [file|] eqn:Hf|]; simpl;
      try exact Hinv.
    driver_outcome; [|exact Hinv].
    refresh_cache s1. apply (sessionInvariant_active _ driver). congruence.
  - (* stopPresentation *)
    unfold stopPresentation. eff.
    destruct (currentDriver (self s)) as [driver|] eqn:Hd; simpl;
      [|exact Hinv].
    driver_outcome; [|exact Hinv].
    apply (sessionInvariant_active _ driver). exact Hd.
  - (* closePresentation *)
    rewrite closePresentation_outcome.
    destruct (currentDriver (self s)) as [driver|] eqn:Hd; simpl;
      [|exact Hinv].
    driver_outcome; [|exact Hinv].
    unfold sessionInvariant. simpl. auto.
  - (* nextSlide *)
    unfold nextSlide. eff.
    destruct (currentDriver (self s)) as [driver|] eqn:Hd; simpl;
      [|exact Hinv].
    driver_outcome; [|exact Hinv].
    refresh_cache s1. apply (sessionInvariant_active _ driver). congruence.
  - (* prevSlide *)
    unfold prevSlide. eff.
    destruct (currentDriver (self s)) as [driver|] eqn:Hd; simpl;
      [|exact Hinv].
    driver_outcome; [|exact Hinv].
    refresh_cache s1. apply (sessionInvariant_active _ driver). congruence.
  - (* setFolder *)
    unfold sessionInvariant. simpl. auto.
  - (* getStatus *)
    destruct (getStatus_outcome s) as (st & s' & -> & Hself & _).
    simpl. rewrite Hself. exact Hinv.
Qed.

End WithDrivers.

(** C1 on the example: [a.key] is on disk and in the registry, Keynote does
    not answer, and the session is the empty one it was. *)
Lemma C1_failed_openFile_keeps_session_witness :
  let s := Example.sys Example.idle Example.down in
  session (self (snd (openFile Example.drivers "/talks/a.key" s)))
  = session (self s).
Proof.
  intros s.
  destruct (C1_failed_openFile_keeps_session Example.drivers "/talks/a.key" s)
    as (result & s' & Hrun & Hkeep & _).
  rewrite Hrun. simpl. apply Hkeep.
  vm_compute in Hrun. injection Hrun as <- _. reflexivity.
Defined.

(** C10 on the example: opening [b.pptx] while PowerPoint does not answer
    leaves the cursor, which selected nothing, on index 1. *)
Lemma C10_failed_openFile_leaves_cursor_moved_witness :
  let s := Example.sys Example.idle Example.down in
  let out := openFile Example.drivers "/talks/b.pptx" s in
  FileManager.currentFileIndex (fileManager (self s)) = -1
  /\ FileManager.currentFileIndex (fileManager (self (snd out))) = 1
  /\ session (self (snd out)) = session (self s).
Proof.
  intros s out.
  destruct (C10_failed_openFile_leaves_cursor_moved Example.drivers
              "/talks/b.pptx" s (snd out) Example.bPptx
              (failure "Failed to open file: not running"))
    as (Hcur & _ & _ & _ & Hsession);
    try reflexivity.
  split; [reflexivity|]. split; [rewrite Hcur; reflexivity | exact Hsession].
Defined.

(** C2 fails on the code: closing the Keynote presentation of the example
    succeeds and resets five fields, but the cached notes of the closed
    presentation stay, so the session is not the empty one. *)
Lemma C2_closePresentation_keeps_slideNotes :
  let s := Example.sys Example.presentingKeynote Example.running in
  let out := closePresentation Example.drivers s in
  fst out = Js.Return tt
  /\ session (self (snd out))
     = {| s_currentDriver := None; s_currentFile := None; s_isPresenting := false;
          s_currentSlideIndex := 0; s_totalSlides := 0;
          s_slideNotes := "Speaker notes" |}
  /\ session (self (snd out)) <> emptySession.
Proof. repeat split. discriminate. Qed.

(** C7, as the specification states it, fails on the Keynote driver: it has
    [getCurrentSlideInfo], the presentation is running on slide 3 of 10, and
    the status carries the cached slide 1. *)
Lemma C7_keynote_is_never_polled : ~ pollsWheneverSupported Example.drivers.
Proof.
  intros Hclaim.
  pose (s := Example.sys Example.presentingKeynote Example.running).
  assert (reportsPoll {| Driver.currentSlide := 3; Driver.totalSlides := 10 |}
            (match fst (getStatus Example.drivers s) with
             | Js.Return st => st
             | Js.Throw _ =>
                 {| Status.currentFile := None; Status.isPresenting := false;
                    Status.currentSlide := 0; Status.totalSlides := 0;
                    Status.slideNotes := ""; Status.folder := None;
                    Status.fileCount := 0; Status.driverType := None |}
             end)) as [Hslide _].
  { apply (Hclaim s (snd (getStatus Example.drivers s)) Driver.keynoteDriver
             _ Example.running); reflexivity. }
  vm_compute in Hslide. discriminate.
Qed.

(** The amended C7 on the example: PowerPoint presenting slide 3 of 10 with
    slide 1 in the cache. *)
Lemma C7_getStatus_polls_powerpoint_only_witness :
  let s := Example.sys Example.presentingPowerPoint Example.running in
  exists st, fst (getStatus Example.drivers s) = Js.Return st
             /\ Status.currentSlide st = 3 /\ Status.totalSlides st = 10.
Proof.
  intros s.
  destruct (C7_getStatus_polls_powerpoint_only Example.drivers s)
    as (st & s' & Hrun & Hpoll & _).
  exists st. rewrite Hrun. split; [reflexivity|].
  apply (Hpoll eq_refl eq_refl
           {| Driver.currentSlide := 3; Driver.totalSlides := 10 |} Example.running).
  reflexivity.
Defined.

(** C8 on the example: two calls in a row while PowerPoint presents. *)
Lemma C8_getStatus_is_idempotent_witness :
  let s := Example.sys Example.presentingPowerPoint Example.running in
  getStatus Example.drivers (snd (getStatus Example.drivers s))
  = getStatus Example.drivers s.
Proof.
  intros s.
  destruct (C8_getStatus_is_idempotent Example.drivers s)
    as (st & s' & Hrun & _ & _ & Hagain).
  rewrite Hrun. simpl. apply Hagain.
  vm_compute in Hrun. injection Hrun as _ <-. reflexivity.
Defined.

(** C9 on the example: closing the running Keynote presentation. *)
Lemma C9_operations_preserve_session_invariant_witness :
  sessionInvariant
    (self (after Example.platform Example.drivers ClosePresentation
             (Example.sys Example.presentingKeynote Example.running))).
Proof.
  apply C9_operations_preserve_session_invariant.
  unfold sessionInvariant. simpl. discriminate.
Defined.

End SessionFacts.

(** ** The protocol server *)
Module ServerFacts.
Import WebSocketServer.

Ltac eff :=
  unfold sendStatus, sendError, send, call in *;
  unfold Js.bind, Js.ret, Js.get, Js.modify, Js.tryCatch, Js.throw, Js.zoom in *;
  simpl in *.

Lemma isCase_false (v : Js.Val) (label : string) :
  v <> Js.Str label -> isCase v label = false.
Proof. intros H. unfold isCase. apply bool_decide_eq_false. exact H. Qed.

Lemma isCase_true (label : string) : isCase (Js.Str label) label = true.
Proof. unfold isCase. apply bool_decide_eq_true. reflexivity. Qed.

Lemma isOpen_true (socks : gmap nat Socket) (client : Client) (socket : Socket) :
  socks !! ws client = Some socket -> readyState socket = OPEN ->
  isOpen socks client = true.
Proof.
  intros Hs Ho. unfold isOpen. rewrite Hs. apply bool_decide_eq_true. exact Ho.
Qed.

(** One step of the [forEach] of [disconnectAllClients]. *)
Lemma disconnectClient_lookup (client : Client) (socks : gmap nat Socket) (h : nat) :
  disconnectClient client socks !! h
  = match socks !! h with
    | Some socket =>
        if bool_decide (readyState socket = OPEN) && bool_decide (ws client = h)
        then Some (ws_close (ws_send tokenChangedNotice socket))
        else Some socket
    | None => None
    end.
Proof.
  unfold disconnectClient, isOpen.
  destruct (decide (ws client = h)) as [<-|Hne].
  - rewrite (bool_decide_eq_true_2 (ws client = ws client)) by reflexivity.
    destruct (socks !! ws client) as [socket|] eqn:Hs; [|exact Hs].
    rewrite andb_true_r.
    destruct (bool_decide (readyState socket = OPEN)); [|exact Hs].
    rewrite lookup_alter_eq, Hs. reflexivity.
  - rewrite (bool_decide_eq_false_2 (ws client = h)) by exact Hne.
    assert (forall b : bool,
               (if b then alter (fun socket => ws_close (ws_send tokenChangedNotice socket))
                           (ws client) socks
                else socks) !! h = socks !! h) as Hskip.
    { intros []; [apply lookup_alter_ne; exact Hne | reflexivity]. }
    rewrite Hskip. destruct (socks !! h); [|reflexivity].
    rewrite andb_false_r. reflexivity.
Qed.

Lemma closing_not_open (socket : Socket) :
  readyState socket = OPEN ->
  readyState (ws_close (ws_send tokenChangedNotice socket)) = CLOSING.
Proof. intros Ho. unfold ws_close. simpl. rewrite Ho. reflexivity. Qed.

(** The sockets after the [forEach] of [disconnectAllClients] over a list of
    clients: an open socket some client of the list refers to has the
    notice as its last message and is closing; every other socket is as it
    was. *)
Lemma disconnect_list (l : list (string * Client)) (socks : gmap nat Socket) (h : nat) :
  fold_left (fun s kv => disconnectClient (snd kv) s) l socks !! h
  = match socks !! h with
    | Some socket =>
        if bool_decide (readyState socket = OPEN)
           && bool_decide (Exists (fun kv => ws (snd kv) = h) l)
        then Some (ws_close (ws_send tokenChangedNotice socket))
        else Some socket
    | None => None
    end.
Proof.
  revert socks. induction l as [|[id client] l IH]; intros socks; cbn [fold_left].
  - destruct (socks !! h) as [socket|]; [|reflexivity].
    rewrite (bool_decide_eq_false_2 (Exists _ [])) by (rewrite Exists_nil; tauto).
    rewrite andb_false_r. reflexivity.
  - rewrite IH. cbn [snd]. rewrite disconnectClient_lookup.
    destruct (socks !! h) as [socket|]; [|reflexivity].
    rewrite (bool_decide_ext _ _ (Exists_cons _ (id, client) l)). simpl.
    destruct (decide (readyState socket = OPEN)) as [Ho|Ho].
    + rewrite (bool_decide_eq_true_2 _ Ho). simpl.
      destruct (decide (ws client = h)) as [Hh|Hh].
      * rewrite (bool_decide_eq_true_2 _ Hh).
        rewrite (bool_decide_eq_true_2 (_ \/ _)) by (left; exact Hh).
        rewrite (bool_decide_eq_false_2 (readyState _ = OPEN))
          by (rewrite (closing_not_open _ Ho); discriminate).
        reflexivity.
      * rewrite (bool_decide_eq_false_2 _ Hh).
        rewrite (bool_decide_eq_true_2 _ Ho). simpl.
        f_equal. 
        destruct (decide (Exists (fun kv : string * Client => ws (snd kv) = h) l)) as [He|He].
        -- rewrite (bool_decide_eq_true_2 _ He).
           rewrite (bool_decide_eq_true_2 (_ \/ _)) by (right; exact He).
           reflexivity.
        -- rewrite (bool_decide_eq_false_2 _ He).
           rewrite (bool_decide_eq_false_2 (_ \/ _)) by tauto.
           reflexivity.
    + rewrite (bool_decide_eq_false_2 _ Ho). simpl.
      rewrite (bool_decide_eq_false_2 _ Ho). reflexivity.
Qed.

(** A registered client refers to the socket [h]. *)
Lemma Exists_clients (m : gmap string Client) (h : nat) :
  Exists (fun kv => ws (snd kv) = h) (map_to_list m)
  <-> exists id client, m !! id = Some client /\ ws client = h.
Proof.
  rewrite Exists_exists. split.
  - intros ([id client] & Hin & Hws). exists id, client.
    split; [apply elem_of_map_to_list; exact Hin | exact Hws].
  - intros (id & client & Hin & Hws). exists (id, client).
    split; [apply elem_of_map_to_list; exact Hin | exact Hws].
Qed.

Section WithDrivers.
Context {App : Type}.
Variable drivers : Driver.Ref -> Driver.Ops App.

(** What [send] does to the sockets when the client is registered and its
    socket is open. *)
Lemma send_open (clientId : string) (message : OutMsg) (s : Sys App)
    (client : Client) (socket : Socket) :
  clients (self s) !! clientId = Some client ->
  sockets s !! ws client = Some socket ->
  readyState socket = OPEN ->
  send clientId message s
  = (Js.Return tt,
     set_sockets (alter (ws_send message) (ws client) (sockets s)) s).
Proof.
  intros Hc Hs Ho. unfold send, Js.modify.
  rewrite Hc, (isOpen_true _ _ _ Hs Ho). reflexivity.
Qed.

(** C3: a message whose type is not ['auth'], received on a registered
    connection that is not authenticated and whose socket is open, is
    answered by [error 'Authentication required'] on that socket and by
    nothing else: the handler returns, the server object (the clients and
    their flags with it), the manager with its registry and session, and
    the application side are what they were, and the socket stays open. *)
Theorem C3_unauthenticated_command_is_refused
    (clientId : string) (message : Message) (s : Sys App)
    (client : Client) (socket : Socket) :
  clients (self s) !! clientId = Some client ->
  authenticated client = false ->
  type message <> Js.Str "auth" ->
  sockets s !! ws client = Some socket ->
  readyState socket = OPEN ->
  exists s',
    handleMessage drivers clientId message s = (Js.Return tt, s')
    /\ self s' = self s
    /\ manager s' = manager s
    /\ sockets s' !! ws client
       = Some {| readyState := OPEN;
                 sent := sent socket ++ [error "Authentication required"] |}
    /\ (forall h, h <> ws client -> sockets s' !! h = sockets s !! h).
Proof.
  intros Hc Hauth Htype Hs Ho.
  unfold handleMessage, Js.bind, Js.get. rewrite Hc.
  rewrite (isCase_false _ _ Htype), Hauth. simpl.
  unfold sendError. rewrite (send_open _ _ _ _ _ Hc Hs Ho).
  eexists. split; [reflexivity|]. simpl.
  split; [reflexivity|]. split; [reflexivity|]. split.
  - rewrite lookup_alter_eq, Hs. simpl. unfold ws_send. rewrite Ho. reflexivity.
  - intros h Hh. apply lookup_alter_ne. congruence.
Qed.

(** The ['message'] handler on text that is not a JSON object never
    reaches a command either. *)
Lemma onMessage_malformed (clientId : string) (data : Payload) (s : Sys App) :
  data = NotJson \/ data = JsonNull ->
  onMessage drivers clientId data s = sendError clientId "Invalid JSON format" s.
Proof. intros [-> | ->]; reflexivity. Qed.

(** An [auth] message whose token is not the server's: the client's flag
    is not set, and the answer on an open socket is a failed
    [authResult]. *)
Lemma handleMessage_wrong_token (clientId : string) (message : Message) (s : Sys App) :
  type message = Js.Str "auth" ->
  token message <> Js.Str (authToken (self s)) ->
  exists s',
    handleMessage drivers clientId message s = (Js.Return tt, s')
    /\ self s' = self s
    /\ manager s' = manager s
    /\ (forall client socket,
           clients (self s) !! clientId = Some client ->
           sockets s !! ws client = Some socket ->
           readyState socket = OPEN ->
           sockets s' !! ws client
           = Some (ws_send (authResult false "Invalid authentication token") socket)).
Proof.
  intros Htype Htoken.
  unfold handleMessage, Js.bind, Js.get.
  destruct (clients (self s) !! clientId) as [client|] eqn:Hc.
  - rewrite Htype, isCase_true.
    rewrite (bool_decide_eq_false_2 _ Htoken).
    unfold send, Js.modify. rewrite Hc.
    destruct (isOpen (sockets s) client) eqn:Hopen.
    + eexists. split; [reflexivity|]. simpl.
      split; [reflexivity|]. split; [reflexivity|].
      intros client0 socket [= <-] Hs Ho.
      rewrite lookup_alter_eq, Hs. reflexivity.
    + exists s. split; [reflexivity|].
      split; [reflexivity|]. split; [reflexivity|].
      intros client0 socket [= <-] Hs Ho.
      rewrite (isOpen_true _ _ _ Hs Ho) in Hopen. discriminate.
  - exists s. split; [reflexivity|].
    split; [reflexivity|]. split; [reflexivity|]. intros ? ? [=].
Qed.

(** What [disconnectAllClients] does. *)
Lemma disconnectAllClients_outcome (s : Sys App) :
  exists s',
    disconnectAllClients s = (Js.Return tt, s')
    /\ authToken (self s') = authToken (self s)
    /\ clients (self s') = ∅
    /\ manager s' = manager s
    /\ (forall h,
           sockets s' !! h
           = match sockets s !! h with
             | Some socket =>
                 if bool_decide (readyState socket = OPEN)
                    && bool_decide (Exists (fun kv => ws (snd kv) = h)
                                      (map_to_list (clients (self s))))
                 then Some (ws_close (ws_send tokenChangedNotice socket))
                 else Some socket
             | None => None
             end).
Proof.
  unfold disconnectAllClients, Js.bind, Js.modify, forEach. simpl.
  eexists. split; [reflexivity|]. simpl.
  split; [reflexivity|]. split; [reflexivity|]. split; [reflexivity|].
  intros h. apply disconnect_list.
Qed.

(** C4: when the user confirms the rotation and a token different from
    the current one is installed, every open socket a registered client
    refers to gets the [tokenChanged] notice as its last message and is
    closing; afterwards no socket of a client that was registered,
    authenticated or not, is open, no client is registered, and in every
    later state that carries the new token an [auth] message presenting
    the old token authenticates nobody and is answered, on an open
    socket, by a failed [authResult]. *)
Theorem C4_token_rotation_disconnects_all
    (newToken : string) (s : Sys App) :
  newToken <> authToken (self s) ->
  exists s',
    PresentationControlApp.regenerateAuthToken 1 newToken s = (Js.Return tt, s')
    /\ authToken (self s') = newToken
    /\ clients (self s') = ∅
    /\ manager s' = manager s
    /\ (forall id client socket,
           clients (self s) !! id = Some client ->
           sockets s !! ws client = Some socket ->
           readyState socket = OPEN ->
           sockets s' !! ws client
           = Some {| readyState := CLOSING;
                     sent := sent socket ++ [tokenChangedNotice] |})
    /\ (forall id client socket',
           clients (self s) !! id = Some client ->
           sockets s' !! ws client = Some socket' ->
           readyState socket' <> OPEN)
    /\ (forall (t : Sys App) clientId message,
           authToken (self t) = newToken ->
           type message = Js.Str "auth" ->
           token message = Js.Str (authToken (self s)) ->
           exists t',
             handleMessage drivers clientId message t = (Js.Return tt, t')
             /\ self t' = self t
             /\ manager t' = manager t
             /\ (forall client socket,
                    clients (self t) !! clientId = Some client ->
                    sockets t !! ws client = Some socket ->
                    readyState socket = OPEN ->
                    sockets t' !! ws client
                    = Some (ws_send
                              (authResult false "Invalid authentication token")
                              socket))).
Proof.
  intros Hnew.
  unfold PresentationControlApp.regenerateAuthToken. simpl.
  unfold Js.bind at 1. unfold Js.modify at 1.
  destruct (disconnectAllClients_outcome
              (set_self (set_authToken newToken (self s)) s))
    as (s' & -> & Htok & Hclients & Hmgr & Hsocks).
  simpl in *. exists s'.
  split; [reflexivity|]. split; [exact Htok|]. split; [exact Hclients|].
  split; [exact Hmgr|]. split; [|split].
  - intros id client socket Hc Hs Ho.
    rewrite Hsocks, Hs.
    rewrite (bool_decide_eq_true_2 _ Ho).
    rewrite (bool_decide_eq_true_2 (Exists _ _))
      by (apply Exists_clients; exists id, client; auto).
    simpl. unfold ws_close. simpl. rewrite Ho. reflexivity.
  - intros id client socket' Hc Hs'.
    rewrite Hsocks in Hs'.
    destruct (sockets s !! ws client) as [socket|]; [|discriminate].
    rewrite (bool_decide_eq_true_2 (Exists _ _)) in Hs'
      by (apply Exists_clients; exists id, client; auto).
    rewrite andb_true_r in Hs'.
    destruct (decide (readyState socket = OPEN)) as [Ho|Ho].
    + rewrite (bool_decide_eq_true_2 _ Ho) in Hs'. injection Hs' as <-.
      rewrite (closing_not_open _ Ho). discriminate.
    + rewrite (bool_decide_eq_false_2 _ Ho) in Hs'. injection Hs' as <-.
      exact Ho.
  - intros t clientId message Ht Htype Htoken.
    apply handleMessage_wrong_token; [exact Htype|].
    rewrite Htoken, Ht. congruence.
Qed.

End WithDrivers.
(** C3 on the example server: [guest] asks for the status before
    authenticating. *)
Lemma C3_unauthenticated_command_is_refused_witness :
  exists s',
    handleMessage Example.drivers "guest" (Example.msg "status") Example.server
    = (Js.Return tt, s')
    /\ self s' = self Example.server
    /\ manager s' = manager Example.server
    /\ sockets s' !! 1%nat
       = Some {| readyState := OPEN;
                 sent := [error "Authentication required"] |}.
Proof.
  destruct (C3_unauthenticated_command_is_refused Example.drivers
              "guest" (Example.msg "status") Example.server
              (Example.client 1%nat false) Example.openSocket)
    as (s' & Hrun & Hself & Hmgr & Hsock & _);
    [reflexivity | reflexivity | discriminate | reflexivity | reflexivity |].
  exists s'. auto.
Defined.

(** C4 on the example server: the token [a1b2c3d4] is replaced. *)
Lemma C4_token_rotation_disconnects_all_witness :
  exists s',
    PresentationControlApp.regenerateAuthToken 1 "9f8e7d6c" Example.server
    = (Js.Return tt, s')
    /\ clients (self s') = ∅
    /\ sockets s' !! 0%nat
       = Some {| readyState := CLOSING; sent := [tokenChangedNotice] |}
    /\ sockets s' !! 1%nat
       = Some {| readyState := CLOSING; sent := [tokenChangedNotice] |}
    /\ fst (handleMessage Example.drivers "deck" (Example.authMsg "a1b2c3d4") s')
       = Js.Return tt
    /\ self (snd (handleMessage Example.drivers "deck" (Example.authMsg "a1b2c3d4") s'))
       = self s'.
Proof.
  destruct (C4_token_rotation_disconnects_all Example.drivers
              "9f8e7d6c" Example.server)
    as (s' & Hrun & Htok & Hclients & _ & Hclosed & _ & Hold);
    [discriminate|].
  exists s'. split; [exact Hrun|]. split; [exact Hclients|].
  split; [|split].
  - apply (Hclosed "deck" (Example.client 0%nat true) Example.openSocket);
      reflexivity.
  - apply (Hclosed "guest" (Example.client 1%nat false) Example.openSocket);
      reflexivity.
  - destruct (Hold s' "deck" (Example.authMsg "a1b2c3d4") Htok eq_refl eq_refl)
      as (t' & -> & Hself & _).
    split; [reflexivity | exact Hself].
Defined.

End ServerFacts.

(** ** The folder scan *)
Module FolderFacts.
Import FileManager Spec.

(** *** [Array.prototype.sort] *)
Section Sort.
Context {A : Type}.
Variable cmp : A -> A -> Z.
Hypothesis cmp_antisym : forall a b, Z.sgn (cmp b a) = - Z.sgn (cmp a b).

Let le (a b : A) : Prop := cmp a b <= 0.

Lemma insertSorted_perm (x : A) (l : list A) :
  Permutation (Js.insertSorted cmp x l) (x :: l).
Proof.
  induction l as [|y l IH]; simpl; [reflexivity|].
  destruct (cmp x y <? 0); [reflexivity|].
  rewrite IH. apply perm_swap.
Qed.

Lemma insertSorted_hd (a x : A) (l : list A) :
  le a x -> HdRel le a l -> HdRel le a (Js.insertSorted cmp x l).
Proof.
  intros Hax Hal. destruct l as [|y l]; simpl.
  - constructor. exact Hax.
  - destruct (cmp x y <? 0); constructor; [exact Hax|].
    inversion Hal; assumption.
Qed.

Lemma insertSorted_sorted (x : A) (l : list A) :
  Sorted le l -> Sorted le (Js.insertSorted cmp x l).
Proof.
  induction 1 as [|y l Hl IH Hy]; simpl.
  - repeat constructor.
  - destruct (cmp x y <? 0) eqn:Hxy.
    + apply Z.ltb_lt in Hxy. constructor; [constructor; assumption|].
      constructor. unfold le. lia.
    + apply Z.ltb_ge in Hxy. constructor; [exact IH|].
      apply insertSorted_hd; [|exact Hy].
      unfold le. pose proof (cmp_antisym x y). lia.
Qed.

Lemma sort_perm_from (l acc : list A) :
  Permutation (fold_left (fun sorted x => Js.insertSorted cmp x sorted) l acc)
              (acc ++ l).
Proof.
  revert acc. induction l as [|x l IH]; intros acc; simpl.
  - rewrite app_nil_r. reflexivity.
  - rewrite IH, insertSorted_perm. apply Permutation_middle.
Qed.

Lemma sort_sorted_from (l acc : list A) :
  Sorted le acc ->
  Sorted le (fold_left (fun sorted x => Js.insertSorted cmp x sorted) l acc).
Proof.
  revert acc. induction l as [|x l IH]; intros acc Hacc; simpl.
  - exact Hacc.
  - apply IH. apply insertSorted_sorted. exact Hacc.
Qed.

(** The sorted array is in order and has the elements of the array. *)
Lemma sort_sorted (l : list A) : Sorted le (Js.sort cmp l).
Proof. apply sort_sorted_from. constructor. Qed.

Lemma sort_perm (l : list A) : Permutation (Js.sort cmp l) l.
Proof. apply (sort_perm_from l []). Qed.
End Sort.

(** *** Lists *)

Lemma filter_perm {A} (f : A -> bool) (l l' : list A) :
  Permutation l l' -> Permutation (List.filter f l) (List.filter f l').
Proof.
  induction 1 as [|x l l' _ IH|x y l|l l' l'' _ IH1 _ IH2]; simpl.
  - reflexivity.
  - destruct (f x); [constructor|]; exact IH.
  - destruct (f x), (f y); try reflexivity. apply perm_swap.
  - etransitivity; eassumption.
Qed.

Lemma NoDup_map_filter {A B} (g : A -> B) (f : A -> bool) (l : list A) :
  NoDup (List.map g l) -> NoDup (List.map g (List.filter f l)).
Proof.
  induction l as [|x l IH]; simpl; [auto|].
  intros Hnd. inversion Hnd as [|? ? Hx Hl]; subst.
  destruct (f x); simpl; [|auto].
  constructor; [|auto].
  intros Hin. apply Hx. apply list_elem_of_In. apply list_elem_of_In in Hin.
  apply in_map_iff in Hin as (y & Hy & Hin).
  apply in_map_iff. exists y. split; [exact Hy|].
  apply filter_In in Hin. tauto.
Qed.

Lemma Sorted_map {A B} (g : A -> B) (R : B -> B -> Prop) (l : list A) :
  Sorted (fun a b => R (g a) (g b)) l -> Sorted R (List.map g l).
Proof.
  induction 1 as [|x l _ IH Hx]; simpl; constructor; [exact IH|].
  destruct Hx; simpl; constructor. assumption.
Qed.

(** *** [scanFiles] and [setFolder] *)
#[local] Arguments Js.includes : simpl never.

Section Scan.
Variable P : Platform.
Hypothesis P_ok : PlatformOk P.
Variable fs : FS.
Variable folder : string.

(** The loop pushes one element per kept entry, in the order of the
    entries, and each element describes its entry. *)
Lemma scanEntries_pushed (entries : list Dirent) (pushed : list PresentationFile) :
  scanEntries P fs folder entries = Some pushed ->
  List.map name pushed = List.map d_name (List.filter (supportedEntry P) entries)
  /\ Forall (describes P fs folder) pushed.
Proof.
  revert pushed. induction entries as [|entry entries IH]; intros pushed; simpl.
  - intros [= <-]. split; [reflexivity | constructor].
  - unfold supportedEntry at 1.
    destruct (d_isFile entry); simpl; [|apply IH].
    destruct (Js.includes supportedExtensions (extensionOf P (d_name entry)));
      simpl; [|apply IH].
    destruct (fs_stat fs (path_join P folder (d_name entry))) as [stats|] eqn:Hstat;
      [|discriminate].
    destruct (scanEntries P fs folder entries) as [rest|]; [|discriminate].
    intros [= <-]. destruct (IH rest eq_refl) as [Hnames Hdesc].
    split; [simpl; f_equal; exact Hnames|].
    constructor; [|exact Hdesc].
    unfold describes. simpl. repeat split. exists stats. auto.
Qed.

(** The loop fails only on a rejected [fs.stat]. *)
Lemma scanEntries_succeeds (entries : list Dirent) :
  (forall entry, In entry entries -> supportedEntry P entry = true ->
                 is_Some (fs_stat fs (path_join P folder (d_name entry)))) ->
  is_Some (scanEntries P fs folder entries).
Proof.
  induction entries as [|entry entries IH]; intros Hstat; simpl; [eauto|].
  assert (is_Some (scanEntries P fs folder entries)) as [rest Hrest].
  { apply IH. intros e He. apply Hstat. right. exact He. }
  pose proof (Hstat entry (or_introl eq_refl)) as Hentry.
  unfold supportedEntry in Hentry.
  destruct (d_isFile entry); simpl in *; [|eauto].
  destruct (Js.includes supportedExtensions (extensionOf P (d_name entry)));
    simpl in *; [|eauto].
  destruct (Hentry eq_refl) as [stats ->]. rewrite Hrest. eauto.
Qed.

Lemma setupWatcher_files (fm : t) : files (setupWatcher fm) = files fm.
Proof.
  unfold setupWatcher.
  destruct (currentFolder fm) as [f|]; [destruct (String.eqb f "")|]; reflexivity.
Qed.

(** The list after [setFolder] is the one [scanFiles] leaves. *)
Lemma setFolder_scans (fm : t) :
  getFiles (setFolder P fs folder fm)
  = files (scanFiles P fs
             (set_currentFileIndex (-1)
                (set_currentFolder (Some folder) (closeWatcher fm)))).
Proof. unfold setFolder, getFiles. apply setupWatcher_files. Qed.

(** [setFolder] on a folder that can be read leaves the sorted array of
    the pushed elements in [this.files]. *)
Lemma setFolder_files (fm : t) (entries : list Dirent) (pushed : list PresentationFile) :
  folder <> "" ->
  fs_readdir fs folder = Some entries ->
  scanEntries P fs folder entries = Some pushed ->
  getFiles (setFolder P fs folder fm) = Js.sort (byName P) pushed.
Proof.
  intros Hfolder Hdir Hscan.
  apply String.eqb_neq in Hfolder.
  rewrite setFolder_scans. unfold scanFiles. simpl.
  rewrite Hfolder, Hdir, Hscan. reflexivity.
Qed.

(** Any failure of the scan leaves the empty list. *)
Lemma setFolder_scan_error (fm : t) :
  fs_readdir fs folder = None
  \/ (exists entries, fs_readdir fs folder = Some entries
                      /\ scanEntries P fs folder entries = None) ->
  getFiles (setFolder P fs folder fm) = [].
Proof.
  rewrite setFolder_scans. unfold scanFiles. simpl.
  intros [Hdir | (entries & Hdir & Hscan)]; rewrite Hdir; try rewrite Hscan;
    destruct (String.eqb folder ""); reflexivity.
Qed.

#[local] Instance nameLe_trans : Transitive (nameLe P).
Proof. intros a b c. apply (localeCompare_trans P P_ok). Qed.


(** The general half of C6. *)
Lemma setFolder_listing (fm : t) (entries : list Dirent) :
  folder <> "" ->
  fs_readdir fs folder = Some entries ->
  NoDup (List.map (fun entry => path_join P folder (d_name entry)) entries) ->
  (forall entry, In entry entries -> supportedEntry P entry = true ->
                 is_Some (fs_stat fs (path_join P folder (d_name entry)))) ->
  let listed := getFiles (setFolder P fs folder fm) in
  Permutation (List.map name listed)
              (List.map d_name (List.filter (supportedEntry P) entries))
  /\ Forall (describes P fs folder) listed
  /\ Sorted (fun a b => nameLe P (name a) (name b)) listed
  /\ NoDup (List.map path listed).
Proof.
  intros Hfolder Hdir Hnames Hstat listed.
  destruct (scanEntries_succeeds entries Hstat) as [pushed Hscan].
  destruct (scanEntries_pushed entries pushed Hscan) as [Hpushed Hdesc].
  assert (Permutation listed pushed) as Hperm.
  { unfold listed. rewrite (setFolder_files fm entries pushed Hfolder Hdir Hscan).
    apply sort_perm. }
  assert (Forall (describes P fs folder) listed) as Hlisted.
  { rewrite Forall_forall in *. intros f Hf. apply Hdesc.
    rewrite <- Hperm. exact Hf. }
  split; [|split; [|split]].
  - rewrite (Permutation_map name Hperm), Hpushed. reflexivity.
  - exact Hlisted.
  - unfold listed. rewrite (setFolder_files fm entries pushed Hfolder Hdir Hscan).
    apply (sort_sorted (byName P)).
    intros a b. apply (localeCompare_antisym P P_ok).
  - rewrite (Permutation_map path Hperm).
    assert (List.map path pushed = List.map (path_join P folder) (List.map name pushed))
      as ->.
    { rewrite List.map_map. apply List.map_ext_in. intros f Hf.
      rewrite Forall_forall in Hdesc. apply Hdesc. apply list_elem_of_In. exact Hf. }
    rewrite Hpushed, List.map_map.
    apply NoDup_map_filter. exact Hnames.
Qed.

End Scan.
(** *** The scenario folder *)
Section Scenario.
Variable P : Platform.
Hypothesis P_ok : PlatformOk P.
Hypothesis names_ok : ScenarioNames P.

Lemma scenario_supported :
  List.filter (supportedEntry P) scenarioEntries = scenarioEntries.
Proof.
  unfold scenarioEntries, supportedEntry. simpl.
  rewrite (ext_a_key P names_ok), (ext_b_pptx P names_ok), (ext_c_ppt P names_ok).
  reflexivity.
Qed.

Lemma a_before_c : localeCompare P "a.key" "c.ppt" < 0.
Proof.
  pose proof (a_before_b P names_ok) as Hab.
  pose proof (b_before_c P names_ok) as Hbc.
  pose proof (localeCompare_trans P P_ok "a.key" "b.pptx" "c.ppt") as Hac.
  pose proof (localeCompare_trans P P_ok "c.ppt" "a.key" "b.pptx") as Hcb.
  pose proof (localeCompare_antisym P P_ok "a.key" "c.ppt").
  pose proof (localeCompare_antisym P P_ok "b.pptx" "c.ppt").
  lia.
Qed.

Lemma scenario_sorted : Sorted (nameLe P) ["a.key"; "b.pptx"; "c.ppt"].
Proof.
  pose proof (a_before_b P names_ok). pose proof (b_before_c P names_ok).
  repeat constructor; unfold nameLe; lia.
Qed.

(** On the three names, [localeCompare] orders strictly. *)
Lemma scenario_strict (x y : string) :
  In x ["a.key"; "b.pptx"; "c.ppt"] -> In y ["a.key"; "b.pptx"; "c.ppt"] ->
  nameLe P x y -> nameLe P y x -> x = y.
Proof.
  pose proof (a_before_b P names_ok). pose proof (b_before_c P names_ok).
  pose proof a_before_c.
  pose proof (localeCompare_antisym P P_ok "a.key" "b.pptx").
  pose proof (localeCompare_antisym P P_ok "b.pptx" "c.ppt").
  pose proof (localeCompare_antisym P P_ok "a.key" "c.ppt").
  unfold nameLe. simpl.
  intros [<-|[<-|[<-|[]]]] [<-|[<-|[<-|[]]]] Hxy Hyx;
    try reflexivity; exfalso; lia.
Qed.

(** The scenario half of C6. *)
Lemma setFolder_scenario (fs : FS) (folder : string) (fm : t)
    (entries : list Dirent) :
  folder <> "" ->
  fs_readdir fs folder = Some entries ->
  NoDup (List.map (fun entry => path_join P folder (d_name entry)) entries) ->
  Permutation entries scenarioEntries ->
  (forall entry, In entry entries ->
                 is_Some (fs_stat fs (path_join P folder (d_name entry)))) ->
  List.map (fun file => (name file, type file))
           (getFiles (setFolder P fs folder fm))
  = [("a.key", keynote); ("b.pptx", powerpoint); ("c.ppt", powerpoint)].
Proof.
  intros Hfolder Hdir Hnodup Hentries Hstat.
  destruct (setFolder_listing P P_ok fs folder fm entries Hfolder Hdir Hnodup)
    as (Hperm & Hdesc & Hsorted & _).
  { intros entry Hin _. apply Hstat. exact Hin. }
  rewrite (filter_perm _ _ _ Hentries), scenario_supported in Hperm.
  simpl in Hperm.
  assert (List.map name (getFiles (setFolder P fs folder fm))
          = ["a.key"; "b.pptx"; "c.ppt"]) as Hnames.
  { pose proof (nameLe_trans P P_ok) as Htrans.
    apply (Sorted_unique_strong (nameLe P)).
    - intros x y Hx Hy. apply scenario_strict.
      + rewrite Hperm in Hx. apply list_elem_of_In. exact Hx.
      + apply list_elem_of_In. exact Hy.
    - apply Sorted_map. exact Hsorted.
    - exact scenario_sorted.
    - exact Hperm. }
  assert (List.map (fun file => (name file, type file))
                   (getFiles (setFolder P fs folder fm))
          = List.map (fun n => (n, getFileType (extensionOf P n)))
                     (List.map name (getFiles (setFolder P fs folder fm)))) as ->.
  { rewrite List.map_map. apply List.map_ext_in. intros f Hf.
    rewrite Forall_forall in Hdesc.
    destruct (Hdesc f) as (_ & Hext & Htype & _); [apply list_elem_of_In; exact Hf|].
    rewrite Htype, Hext. reflexivity. }
  rewrite Hnames. simpl.
  rewrite (ext_a_key P names_ok), (ext_b_pptx P names_ok), (ext_c_ppt P names_ok).
  reflexivity.
Qed.

End Scenario.

(** C6, as the specification states it, fails when a file cannot be
    stat'ed: the folder [/scenario] can be read and lists the regular files
    [b.pptx], [c.ppt] and [a.key], all three with a supported extension, but
    the [stat] of [a.key] fails, the scan ends in its [catch] and the list
    after [setFolder] is empty, although [b.pptx] and [c.ppt] are there. *)
Lemma C6_failed_stat_empties_list :
  let listed :=
    getFiles (setFolder Example.platform Example.unreadable "/scenario" constructor) in
  fs_readdir Example.unreadable "/scenario" = Some Example.scenario
  /\ List.map d_name (List.filter (supportedEntry Example.platform) Example.scenario)
     = ["b.pptx"; "c.ppt"; "a.key"]
  /\ listed = []
  /\ ~ Permutation (List.map name listed)
        (List.map d_name (List.filter (supportedEntry Example.platform) Example.scenario)).
Proof.
  intros listed.
  assert (listed = []) as Hempty by reflexivity.
  split; [reflexivity|]. split; [reflexivity|]. split; [exact Hempty|].
  rewrite Hempty. intros Hperm. apply Permutation_nil in Hperm. discriminate.
Qed.

(** C6 (amended): when the folder can be read, its entries have different
    full paths and every kept entry can be stat'ed, the list after
    [setFolder] has exactly the names of the regular files whose lower-cased
    extension is [.key], [.pptx] or [.ppt], each element describing its
    entry (full path, extension, size, modification time, type tag by
    extension); the list is in [localeCompare] order of the names and no two
    elements share a path.  For a folder whose entries are the regular files
    [a.key], [b.pptx] and [c.ppt], listed by the directory in any order, the
    list has three elements, named [a.key], [b.pptx], [c.ppt] in this order
    and tagged keynote, powerpoint, powerpoint. *)
Theorem C6_setFolder_lists_supported_files
    (P : Platform) (fs : FS) (folder : string) (fm : t) (entries : list Dirent) :
  PlatformOk P ->
  folder <> "" ->
  fs_readdir fs folder = Some entries ->
  NoDup (List.map (fun entry => path_join P folder (d_name entry)) entries) ->
  (forall entry, In entry entries -> supportedEntry P entry = true ->
                 is_Some (fs_stat fs (path_join P folder (d_name entry)))) ->
  let listed := getFiles (setFolder P fs folder fm) in
  (Permutation (List.map name listed)
               (List.map d_name (List.filter (supportedEntry P) entries))
   /\ Forall (describes P fs folder) listed
   /\ Sorted (fun a b => nameLe P (name a) (name b)) listed
   /\ NoDup (List.map path listed))
  /\ (ScenarioNames P ->
      Permutation entries scenarioEntries ->
      List.map (fun file => (name file, type file)) listed
      = [("a.key", keynote); ("b.pptx", powerpoint); ("c.ppt", powerpoint)]).
Proof.
  intros P_ok Hfolder Hdir Hnodup Hstat listed. split.
  - apply setFolder_listing; assumption.
  - intros Hnames Hentries.
    apply (setFolder_scenario P P_ok Hnames fs folder fm entries); try assumption.
    intros entry Hin. apply Hstat; [exact Hin|].
    assert (In entry (List.filter (supportedEntry P) scenarioEntries)) as Hkept.
    { rewrite scenario_supported by assumption.
      apply (Permutation_in _ Hentries). exact Hin. }
    apply filter_In in Hkept. tauto.
Qed.

(** *** The example platform meets the assumptions *)


Lemma compareCodes_le (a b : string) :
  Example.compareCodes a b <= 0
  <-> a = b \/ OrderedTypeEx.String_as_OT.lt a b.
Proof.
  unfold Example.compareCodes.
  pose proof (OrderedTypeEx.String_as_OT.cmp_eq a b) as Heq.
  pose proof (OrderedTypeEx.String_as_OT.cmp_lt a b) as Hlt.
  unfold OrderedTypeEx.String_as_OT.cmp in *.
  destruct (String.compare a b); split; intros H; try lia.
  - left. apply Heq. reflexivity.
  - right. apply Hlt. reflexivity.
  - exfalso. destruct H as [H|H]; [apply Heq in H | apply Hlt in H]; discriminate.
Qed.

Lemma example_platform_ok : PlatformOk Example.platform.
Proof.
  split; simpl.
  - intros a b. unfold Example.compareCodes.
    rewrite (String.compare_antisym b a).
    destruct (String.compare a b); reflexivity.
  - intros a b c. rewrite !compareCodes_le.
    intros [->|Hab] [->|Hbc]; auto.
    right. eapply OrderedTypeEx.String_as_OT.lt_trans; eassumption.
Qed.

Lemma example_scenario_names : ScenarioNames Example.platform.
Proof. split; reflexivity. Qed.

(** C6 on the example disk: [/scenario] lists [b.pptx], [c.ppt], [a.key]. *)
Lemma C6_setFolder_lists_supported_files_witness :
  List.map (fun file => (name file, type file))
           (getFiles (setFolder Example.platform Example.disk "/scenario" constructor))
  = [("a.key", keynote); ("b.pptx", powerpoint); ("c.ppt", powerpoint)].
Proof.
  apply (C6_setFolder_lists_supported_files
           Example.platform Example.disk "/scenario" constructor Example.scenario).
  - exact example_platform_ok.
  - discriminate.
  - reflexivity.
  - simpl. repeat (constructor; [rewrite ?elem_of_cons, elem_of_nil; intuition discriminate|]).
    constructor.
  - simpl. intros entry [<-|[<-|[<-|[]]]] _; simpl; eauto.
  - exact example_scenario_names.
  - unfold Example.scenario, scenarioEntries.
    apply Permutation_sym, Permutation_cons_append.
Defined.

End FolderFacts.

(** ** More on the file registry *)
Module RegistryExtras.
Import FileManager Props.

(** [findIndex] from a start index: a miss means no element passes the test;
    a hit is the index of the first element that passes it. *)
Lemma findIndexFrom_spec {A} (p : A -> bool) (l : list A) (i : Z) :
  0 <= i ->
  (Js.findIndexFrom p l i = -1 /\ Forall (fun x => p x = false) l)
  \/ (exists k x,
         Js.findIndexFrom p l i = i + Z.of_nat k
         /\ l !! k = Some x /\ p x = true
         /\ Forall (fun y => p y = false) (take k l)).
Proof.
  revert i. induction l as [|x l IH]; intros i Hi; simpl.
  - left. split; [reflexivity | constructor].
  - destruct (p x) eqn:Hx.
    + right. exists 0%nat, x. simpl. repeat split; [lia | assumption | constructor].
    + destruct (IH (i + 1)) as [[Hmiss Hall] | (k & y & Hhit & Hk & Hy & Hbefore)];
        [lia | |].
      * left. split; [exact Hmiss | constructor; assumption].
      * right. exists (S k), y. simpl. repeat split; try assumption; [lia|].
        constructor; assumption.
Qed.

Lemma index_of_nat {A} (l : list A) (k : nat) : Js.index l (Z.of_nat k) = l !! k.
Proof.
  unfold Js.index. destruct (Z.of_nat k <? 0) eqn:H; [apply Z.ltb_lt in H; lia|].
  rewrite Nat2Z.id. reflexivity.
Qed.

Lemma lookup_length_Z {A} (l : list A) (k : nat) (x : A) :
  l !! k = Some x -> 0 <= Z.of_nat k < Js.length l.
Proof. intros H. apply lookup_lt_Some in H. unfold Js.length. lia. Qed.

Lemma setCurrentFile_cases (filePath : string) (fm : t) :
  match setCurrentFile filePath fm with
  | (Some file, fm') =>
      path file = filePath
      /\ In file (files fm)
      /\ currentFileIndex fm' = getFileIndex filePath fm
      /\ Js.index (files fm) (currentFileIndex fm') = Some file
      /\ (forall j other, 0 <= j < currentFileIndex fm' ->
                          Js.index (files fm) j = Some other -> path other <> filePath)
      /\ getCurrentFile fm' = Some file
      /\ files fm' = files fm
  | (None, fm') =>
      (forall file, In file (files fm) -> path file <> filePath) /\ fm' = fm
  end.
Proof.
  unfold setCurrentFile, getFileIndex, Js.findIndex.
  destruct (findIndexFrom_spec (fun file => String.eqb (path file) filePath) (files fm) 0)
    as [[-> Hall] | (k & file & -> & Hk & Hfile & Hbefore)]; [lia | |]; simpl.
  - split; [|reflexivity]. intros file Hin Hpath.
    rewrite Forall_forall in Hall.
    specialize (Hall file (proj2 (list_elem_of_In _ _) Hin)). simpl in Hall.
    apply String.eqb_neq in Hall. contradiction.
  - rewrite !Z.add_0_l.
    destruct (0 <=? Z.of_nat k) eqn:Hle; [|apply Z.leb_gt in Hle; lia].
    simpl. rewrite !index_of_nat, Hk.
    apply String.eqb_eq in Hfile.
    pose proof (lookup_length_Z _ _ _ Hk) as Hrange.
    repeat split.
    + exact Hfile.
    + apply list_elem_of_In. eapply list_elem_of_lookup_2. exact Hk.
    + intros j other Hj Hother Hpath.
      rewrite <- (Z2Nat.id j) in Hother by lia. rewrite index_of_nat in Hother.
      rewrite Forall_forall in Hbefore.
      assert (take k (files fm) !! Z.to_nat j = Some other) as Htake.
      { rewrite lookup_take_lt by lia. exact Hother. }
      specialize (Hbefore other (list_elem_of_lookup_2 _ _ _ Htake)). simpl in Hbefore.
      apply String.eqb_neq in Hbefore. contradiction.
    + unfold getCurrentFile. simpl.
      destruct (Z.of_nat k <? Js.length (files fm)) eqn:Hlt;
        [|apply Z.ltb_ge in Hlt; lia].
      rewrite Hle. simpl. rewrite index_of_nat. exact Hk.
Qed.

(** X1: [setCurrentFile(filePath)] returns a file exactly when some file of
    the list has that path.  The file returned is the first one with that
    path, the cursor is on it, and [getCurrentFile] returns it afterwards;
    on a miss the registry is left as it was. *)
Theorem setCurrentFile_selects_by_path (filePath : string) (fm : t) :
  match setCurrentFile filePath fm with
  | (Some file, fm') =>
      path file = filePath
      /\ In file (files fm)
      /\ currentFileIndex fm' = getFileIndex filePath fm
      /\ Js.index (files fm) (currentFileIndex fm') = Some file
      /\ (forall j other, 0 <= j < currentFileIndex fm' ->
                          Js.index (files fm) j = Some other -> path other <> filePath)
      /\ getCurrentFile fm' = Some file
      /\ files fm' = files fm
  | (None, fm') =>
      (forall file, In file (files fm) -> path file <> filePath) /\ fm' = fm
  end.
Proof. apply setCurrentFile_cases. Qed.

Lemma getFileIndex_range (filePath : string) (fm : t) :
  getFileIndex filePath fm = -1
  \/ 0 <= getFileIndex filePath fm < Js.length (files fm).
Proof.
  unfold getFileIndex, Js.findIndex.
  destruct (findIndexFrom_spec (fun file => String.eqb (path file) filePath) (files fm) 0)
    as [[-> _] | (k & file & -> & Hk & _)]; [lia | left; reflexivity |].
  right. pose proof (lookup_length_Z _ _ _ Hk). lia.
Qed.

Lemma index_in_range {A} (l : list A) (i : Z) :
  0 <= i < Js.length l -> exists x, Js.index l i = Some x /\ In x l.
Proof.
  intros Hi. unfold Js.index, Js.length in *.
  destruct (i <? 0) eqn:Hneg; [apply Z.ltb_lt in Hneg; lia|].
  destruct (lookup_lt_is_Some_2 l (Z.to_nat i)) as [x Hx]; [lia|].
  exists x. split; [exact Hx|].
  apply list_elem_of_In. eapply list_elem_of_lookup_2. exact Hx.
Qed.

Lemma getFileByIndex_cases (fm : t) :
  (forall i, 0 <= i < Js.length (files fm) ->
             exists file,
               getFileByIndex i fm = (Some file, set_currentFileIndex i fm)
               /\ Js.index (files fm) i = Some file
               /\ In file (files fm))
  /\ (forall i, i < 0 \/ Js.length (files fm) <= i ->
                getFileByIndex i fm = (None, fm)).
Proof.
  split.
  - intros i Hi. unfold getFileByIndex.
    destruct (0 <=? i) eqn:H0; [|apply Z.leb_gt in H0; lia].
    destruct (i <? Js.length (files fm)) eqn:H1; [|apply Z.ltb_ge in H1; lia].
    simpl. destruct (index_in_range (files fm) i Hi) as (file & Hat & Hin).
    exists file. rewrite Hat. auto.
  - intros i Hi. unfold getFileByIndex.
    destruct Hi as [Hi|Hi].
    + destruct (0 <=? i) eqn:H0; [apply Z.leb_le in H0; lia | reflexivity].
    + destruct (i <? Js.length (files fm)) eqn:H1; [apply Z.ltb_lt in H1; lia|].
      rewrite andb_false_r. reflexivity.
Qed.

(** X2: [getFileByIndex(i)] returns the file at [i] and puts the cursor
    there when 0 <= i < length, and returns [null] leaving the registry as
    it was otherwise; selecting by the index [getFileIndex] gives for a path
    is the same as [setCurrentFile] on that path. *)
Theorem getFileByIndex_bounds_and_path (fm : t) :
  (forall i, 0 <= i < Js.length (files fm) ->
             exists file,
               getFileByIndex i fm = (Some file, set_currentFileIndex i fm)
               /\ Js.index (files fm) i = Some file
               /\ In file (files fm))
  /\ (forall i, i < 0 \/ Js.length (files fm) <= i ->
                getFileByIndex i fm = (None, fm))
  /\ (forall filePath,
         getFileByIndex (getFileIndex filePath fm) fm = setCurrentFile filePath fm).
Proof.
  split; [|split].
  - intros i Hi. unfold getFileByIndex.
    destruct (0 <=? i) eqn:H0; [|apply Z.leb_gt in H0; lia].
    destruct (i <? Js.length (files fm)) eqn:H1; [|apply Z.ltb_ge in H1; lia].
    simpl. destruct (index_in_range (files fm) i Hi) as (file & Hat & Hin).
    exists file. rewrite Hat. auto.
  - intros i Hi. unfold getFileByIndex.
    destruct Hi as [Hi|Hi].
    + destruct (0 <=? i) eqn:H0; [apply Z.leb_le in H0; lia | reflexivity].
    + destruct (i <? Js.length (files fm)) eqn:H1; [apply Z.ltb_lt in H1; lia|].
      rewrite andb_false_r. reflexivity.
  - intros filePath. unfold getFileByIndex, setCurrentFile.
    fold (getFileIndex filePath fm).
    destruct (getFileIndex_range filePath fm) as [-> | Hr]; [reflexivity|].
    destruct (0 <=? getFileIndex filePath fm) eqn:H0; [|apply Z.leb_gt in H0; lia].
    destruct (getFileIndex filePath fm <? Js.length (files fm)) eqn:H1;
      [reflexivity | apply Z.ltb_ge in H1; lia].
Qed.

Lemma set_currentFileIndex_same (fm : t) :
  set_currentFileIndex (currentFileIndex fm) fm = fm.
Proof. destruct fm; reflexivity. Qed.

Lemma set_currentFileIndex_twice (i j : Z) (fm : t) :
  set_currentFileIndex i (set_currentFileIndex j fm) = set_currentFileIndex i fm.
Proof. reflexivity. Qed.

(** X3: on a list that is not empty and with the cursor on a file,
    [prevFile] undoes [nextFile] and [nextFile] undoes [prevFile]: the
    registry is back as it was. *)
Theorem nextFile_prevFile_inverse (fm : t) :
  files fm <> [] ->
  0 <= currentFileIndex fm < Js.length (files fm) ->
  snd (prevFile (snd (nextFile fm))) = fm
  /\ snd (nextFile (snd (prevFile fm))) = fm.
Proof.
  intros Hne Hc.
  assert ((Js.length (files fm) =? 0) = false) as Hlen by (apply Z.eqb_neq; lia).
  split.
  - unfold nextFile. rewrite Hlen. simpl.
    unfold prevFile. simpl. rewrite Hlen. simpl.
    rewrite set_currentFileIndex_twice. unfold Js.remainder.
    transitivity (set_currentFileIndex (currentFileIndex fm) fm);
      [f_equal | apply set_currentFileIndex_same].
    destruct (Z.eq_dec (currentFileIndex fm + 1) (Js.length (files fm))) as [He|He].
    + rewrite He, Z.rem_same by lia. simpl. lia.
    + rewrite Z.rem_small by lia.
      destruct (currentFileIndex fm + 1 <=? 0) eqn:H0; [apply Z.leb_le in H0; lia | lia].
  - unfold prevFile. rewrite Hlen. simpl.
    unfold nextFile. simpl. rewrite Hlen. simpl.
    rewrite set_currentFileIndex_twice. unfold Js.remainder.
    transitivity (set_currentFileIndex (currentFileIndex fm) fm);
      [f_equal | apply set_currentFileIndex_same].
    destruct (currentFileIndex fm <=? 0) eqn:H0.
    + apply Z.leb_le in H0. replace (Js.length (files fm) - 1 + 1)
        with (Js.length (files fm)) by lia.
      rewrite Z.rem_same by lia. lia.
    + apply Z.leb_gt in H0. rewrite Z.rem_small by lia. lia.
Qed.

(** X3 at the example registry with [b.pptx] selected. *)
Lemma nextFile_prevFile_inverse_witness :
  let fm := set_currentFileIndex 1 Example.registry in
  snd (prevFile (snd (nextFile fm))) = fm
  /\ snd (nextFile (snd (prevFile fm))) = fm.
Proof.
  intros fm. apply nextFile_prevFile_inverse.
  - discriminate.
  - change (0 <= 1 < 3). lia.
Defined.

Lemma scanFiles_cursor (P : Platform) (fs : FS) (fm : t) :
  currentFileIndex (scanFiles P fs fm) = currentFileIndex fm.
Proof.
  unfold scanFiles.
  destruct (currentFolder fm) as [folder|]; [|reflexivity].
  destruct (String.eqb folder ""); [reflexivity|].
  destruct (fs_readdir fs folder) as [entries|]; [|reflexivity].
  destruct (scanEntries P fs folder entries); reflexivity.
Qed.

Lemma setupWatcher_cursor (fm : t) :
  currentFileIndex (setupWatcher fm) = currentFileIndex fm
  /\ files (setupWatcher fm) = files fm.
Proof.
  unfold setupWatcher.
  destruct (currentFolder fm) as [f|]; [destruct (String.eqb f "")|]; split; reflexivity.
Qed.

Lemma moved_in_range (m : CursorMove) (fm : t) :
  cursorInRange fm -> cursorInRange (moved m fm).
Proof.
  unfold cursorInRange. intros Hc. destruct m; simpl.
  - pose proof (getFileIndex_range filePath fm) as Hr.
    unfold setCurrentFile. fold (getFileIndex filePath fm).
    destruct (0 <=? getFileIndex filePath fm) eqn:H0; simpl; [|exact Hc].
    apply Z.leb_le in H0. lia.
  - unfold nextFile.
    destruct (Js.length (files fm) =? 0) eqn:Hlen; simpl; [exact Hc|].
    apply Z.eqb_neq in Hlen. unfold Js.remainder.
    pose proof (Z.rem_bound_pos (currentFileIndex fm + 1) (Js.length (files fm))).
    lia.
  - unfold prevFile.
    destruct (Js.length (files fm) =? 0) eqn:Hlen; simpl; [exact Hc|].
    apply Z.eqb_neq in Hlen.
    destruct (currentFileIndex fm <=? 0) eqn:H0;
      [apply Z.leb_le in H0 | apply Z.leb_gt in H0]; lia.
  - unfold getFileByIndex.
    destruct (0 <=? index) eqn:H0; simpl; [|exact Hc].
    destruct (index <? Js.length (files fm)) eqn:H1; simpl; [|exact Hc].
    apply Z.leb_le in H0. apply Z.ltb_lt in H1. lia.
  - unfold clearFolder. simpl.
    destruct (watcher fm); simpl; unfold Js.length; simpl; lia.
  - unfold setFolder.
    destruct (setupWatcher_cursor
                (scanFiles P fs
                   (set_currentFileIndex (-1)
                      (set_currentFolder (Some folderPath) (closeWatcher fm)))))
      as [-> ->].
    rewrite scanFiles_cursor. simpl. unfold Js.length. lia.
Qed.

(** X4: a cursor that selects nothing (-1) or a file of the list still does
    after [setCurrentFile], [nextFile], [prevFile], [getFileByIndex],
    [clearFolder] and [setFolder], whatever they return. *)
Theorem cursor_moves_keep_range (m : CursorMove) (fm : t) :
  cursorInRange fm -> cursorInRange (moved m fm).
Proof. apply moved_in_range. Qed.

(** X4 at the example registry: [prevFile] from no selection. *)
Lemma cursor_moves_keep_range_witness :
  cursorInRange (moved PrevFile Example.registry).
Proof.
  apply cursor_moves_keep_range. unfold cursorInRange.
  change (-1 <= -1 < 3). lia.
Defined.

(** X5: on a list that is not empty and with a cursor in range (-1
    included), [nextFile] and [prevFile] never return [null]: they return
    the file of the list that the cursor is on afterwards. *)
Theorem nextFile_prevFile_return_current (fm : t) :
  files fm <> [] ->
  cursorInRange fm ->
  (exists file, fst (nextFile fm) = Some file
                /\ In file (files fm)
                /\ getCurrentFile (snd (nextFile fm)) = Some file)
  /\ (exists file, fst (prevFile fm) = Some file
                   /\ In file (files fm)
                   /\ getCurrentFile (snd (prevFile fm)) = Some file).
Proof.
  intros Hne Hc.
  pose proof (moved_in_range NextFile fm Hc) as Hn.
  pose proof (moved_in_range PrevFile fm Hc) as Hp.
  unfold cursorInRange in *. simpl in Hn, Hp.
  assert (0 < Js.length (files fm)) as Hpos.
  { unfold Js.length. destruct (files fm); [congruence | simpl; lia]. }
  assert ((Js.length (files fm) =? 0) = false) as Hlen by (apply Z.eqb_neq; lia).
  split.
  - unfold nextFile in *. rewrite Hlen in *. simpl in *.
    unfold Js.remainder in *.
    pose proof (Z.rem_bound_pos (currentFileIndex fm + 1) (Js.length (files fm))) as Hb.
    destruct (index_in_range (files fm)
                (Z.rem (currentFileIndex fm + 1) (Js.length (files fm))))
      as (file & Hat & Hin); [lia|].
    exists file. split; [exact Hat|]. split; [exact Hin|].
    unfold getCurrentFile. simpl.
    destruct (0 <=? _) eqn:H0; [|apply Z.leb_gt in H0; lia].
    destruct (_ <? Js.length (files fm)) eqn:H1; [|apply Z.ltb_ge in H1; lia].
    exact Hat.
  - unfold prevFile in *. rewrite Hlen in *. simpl in *.
    set (c := if currentFileIndex fm <=? 0
              then Js.length (files fm) - 1 else currentFileIndex fm - 1) in *.
    assert (0 <= c < Js.length (files fm)) as Hr.
    { unfold c. destruct (currentFileIndex fm <=? 0) eqn:H0;
        [apply Z.leb_le in H0 | apply Z.leb_gt in H0]; lia. }
    destruct (index_in_range (files fm) c Hr) as (file & Hat & Hin).
    exists file. split; [exact Hat|]. split; [exact Hin|].
    unfold getCurrentFile. simpl.
    destruct (0 <=? c) eqn:H0; [|apply Z.leb_gt in H0; lia].
    destruct (c <? Js.length (files fm)) eqn:H1; [|apply Z.ltb_ge in H1; lia].
    exact Hat.
Qed.

(** X5 at the example registry with nothing selected. *)
Lemma nextFile_prevFile_return_current_witness :
  fst (nextFile Example.registry) = Some Example.aKey
  /\ fst (prevFile Example.registry) = Some Example.cPpt.
Proof.
  destruct (nextFile_prevFile_return_current Example.registry)
    as [(f & Hf & _) (g & Hg & _)].
  - discriminate.
  - unfold cursorInRange. change (-1 <= -1 < 3). lia.
  - split; reflexivity.
Defined.

End RegistryExtras.

(** ** More on the folder scan *)
Module FolderExtras.
Import FileManager Spec Props.

#[local] Arguments Js.includes : simpl never.

(** The two tables agree: an extension is in [supportedExtensions] exactly
    when [getFileType] does not give ['unknown']. *)
Lemma supported_iff_known (ext : string) :
  Js.includes supportedExtensions ext = true <-> getFileType ext <> unknown.
Proof.
  unfold Js.includes, supportedExtensions, getFileType. simpl.
  destruct (String.eqb ext ".key"), (String.eqb ext ".pptx"), (String.eqb ext ".ppt");
    simpl; split; intros H; try reflexivity; try discriminate; congruence.
Qed.

Section Scan.
Variable P : Platform.
Variable fs : FS.

(** Every element the loop pushes carries a supported extension and the
    type tag of that extension. *)
Lemma scanEntries_types (folder : string) (entries : list Dirent)
    (pushed : list PresentationFile) :
  scanEntries P fs folder entries = Some pushed ->
  Forall (fun file =>
            Js.includes supportedExtensions (extension file) = true
            /\ type file = getFileType (extension file)) pushed.
Proof.
  revert pushed. induction entries as [|entry entries IH]; intros pushed; simpl.
  - intros [= <-]. constructor.
  - destruct (d_isFile entry); [|apply IH].
    destruct (Js.includes supportedExtensions (extensionOf P (d_name entry))) eqn:Hext;
      [|apply IH].
    destruct (fs_stat fs (path_join P folder (d_name entry))); [|discriminate].
    destruct (scanEntries P fs folder entries) as [rest|]; [|discriminate].
    intros [= <-]. constructor; [simpl; auto | apply IH; reflexivity].
Qed.

(** The loop fails as soon as one kept entry cannot be stat'ed. *)
Lemma scanEntries_fails (folder : string) (entries : list Dirent) (entry : Dirent) :
  In entry entries ->
  supportedEntry P entry = true ->
  fs_stat fs (path_join P folder (d_name entry)) = None ->
  scanEntries P fs folder entries = None.
Proof.
  intros Hin Hkept Hstat. induction entries as [|e entries IH]; [contradiction|].
  simpl. destruct Hin as [->|Hin].
  - unfold supportedEntry in Hkept. apply andb_true_iff in Hkept as [-> ->].
    rewrite Hstat. reflexivity.
  - rewrite (IH Hin).
    destruct (d_isFile e); [|reflexivity].
    destruct (Js.includes supportedExtensions (extensionOf P (d_name e))); [|reflexivity].
    destruct (fs_stat fs (path_join P folder (d_name e))); reflexivity.
Qed.

Lemma files_after_setFolder (folderPath : string) (fm : t) :
  files (setFolder P fs folderPath fm)
  = files (scanFiles P fs
             (set_currentFileIndex (-1)
                (set_currentFolder (Some folderPath) (closeWatcher fm)))).
Proof.
  unfold setFolder, setupWatcher.
  destruct (currentFolder _) as [f|]; [destruct (String.eqb f "")|]; reflexivity.
Qed.

Lemma files_of_scanFiles (fm : t) :
  files (scanFiles P fs fm) = []
  \/ exists folder entries pushed,
       currentFolder fm = Some folder
       /\ fs_readdir fs folder = Some entries
       /\ scanEntries P fs folder entries = Some pushed
       /\ files (scanFiles P fs fm) = Js.sort (byName P) pushed.
Proof.
  unfold scanFiles.
  destruct (currentFolder fm) as [folder|]; [|left; reflexivity].
  destruct (String.eqb folder ""); [left; reflexivity|].
  destruct (fs_readdir fs folder) as [entries|] eqn:Hdir; [|left; reflexivity].
  destruct (scanEntries P fs folder entries) as [pushed|] eqn:Hscan;
    [|left; reflexivity].
  right. exists folder, entries, pushed. auto.
Qed.

Lemma scanFiles_keeps (fm : t) :
  currentFolder (scanFiles P fs fm) = currentFolder fm
  /\ currentFileIndex (scanFiles P fs fm) = currentFileIndex fm.
Proof.
  unfold scanFiles.
  destruct (currentFolder fm) as [folder|] eqn:Hf; [|simpl; auto].
  destruct (String.eqb folder ""); [simpl; auto|].
  destruct (fs_readdir fs folder) as [entries|]; [|simpl; auto].
  destruct (scanEntries P fs folder entries); simpl; auto.
Qed.

Lemma setupWatcher_keeps (fm : t) :
  currentFolder (setupWatcher fm) = currentFolder fm
  /\ currentFileIndex (setupWatcher fm) = currentFileIndex fm.
Proof.
  unfold setupWatcher.
  destruct (currentFolder fm) as [f|] eqn:Hf; [destruct (String.eqb f "")|];
    simpl; auto.
Qed.

(** X6: whatever the folder and the state of the disk, every file listed
    after [setFolder] has a supported extension, a type tag other than
    ['unknown'], and a driver: [getDriverForFile] never gives [null] on a
    listed file. *)
Theorem listed_files_have_a_driver (folderPath : string) (fm : t)
    (file : PresentationFile) :
  In file (getFiles (setFolder P fs folderPath fm)) ->
  Js.includes supportedExtensions (extension file) = true
  /\ type file <> unknown
  /\ exists driver, PresentationManager.getDriverForFile file = Some driver.
Proof.
  unfold getFiles. rewrite files_after_setFolder.
  destruct (files_of_scanFiles
              (set_currentFileIndex (-1)
                 (set_currentFolder (Some folderPath) (closeWatcher fm))))
    as [-> | (folder & entries & pushed & _ & _ & Hscan & ->)]; [contradiction|].
  intros Hin.
  apply (Permutation_in _ (FolderFacts.sort_perm (byName P) pushed)) in Hin.
  pose proof (scanEntries_types folder entries pushed Hscan) as Htypes.
  rewrite Forall_forall in Htypes.
  destruct (Htypes file (proj2 (list_elem_of_In _ _) Hin)) as [Hext Htype].
  assert (type file <> unknown) as Hknown
      by (rewrite Htype; apply supported_iff_known; exact Hext).
  split; [exact Hext|]. split; [exact Hknown|].
  unfold PresentationManager.getDriverForFile.
  destruct (type file); eauto. contradiction.
Qed.

(** X7: [setFolder] never fails: when the folder cannot be read, or when one
    of its regular files with a supported extension cannot be stat'ed, the
    list is empty, however many other files the folder has; the folder is
    recorded and the cursor selects nothing all the same. *)
Theorem setFolder_scan_error_empties_list (folderPath : string) (fm : t) :
  fs_readdir fs folderPath = None
  \/ (exists entries entry,
         fs_readdir fs folderPath = Some entries
         /\ In entry entries
         /\ supportedEntry P entry = true
         /\ fs_stat fs (path_join P folderPath (d_name entry)) = None) ->
  let fm' := setFolder P fs folderPath fm in
  getFiles fm' = []
  /\ currentFolder fm' = Some folderPath
  /\ currentFileIndex fm' = -1
  /\ getCurrentFile fm' = None.
Proof.
  intros Herr fm'.
  assert (files fm' = []) as Hfiles.
  { unfold fm'. rewrite files_after_setFolder. unfold scanFiles. simpl.
    destruct (String.eqb folderPath ""); [reflexivity|].
    destruct Herr as [-> | (entries & entry & -> & Hin & Hkept & Hstat)];
      [reflexivity|].
    rewrite (scanEntries_fails folderPath entries entry Hin Hkept Hstat).
    reflexivity. }
  assert (currentFolder fm' = Some folderPath /\ currentFileIndex fm' = -1) as [Hf Hc].
  { unfold fm', setFolder.
    destruct (setupWatcher_keeps
                (scanFiles P fs
                   (set_currentFileIndex (-1)
                      (set_currentFolder (Some folderPath) (closeWatcher fm)))))
      as [-> ->].
    destruct (scanFiles_keeps
                (set_currentFileIndex (-1)
                   (set_currentFolder (Some folderPath) (closeWatcher fm))))
      as [-> ->].
    split; reflexivity. }
  unfold getFiles, getCurrentFile. rewrite Hfiles, Hc. auto.
Qed.

End Scan.

(** X7 on the example disk, with one file of [/talks] that cannot be
    stat'ed. *)
Lemma setFolder_scan_error_empties_list_witness :
  let broken :=
    {| fs_readdir := fs_readdir Example.disk;
       fs_stat := fun p => if String.eqb p "/talks/a.key" then None
                           else fs_stat Example.disk p |} in
  getFiles (setFolder Example.platform broken "/talks" constructor) = [].
Proof.
  intros broken.
  apply (setFolder_scan_error_empties_list Example.platform broken "/talks" constructor).
  right. exists Example.talks, {| d_name := "a.key"; d_isFile := true |}.
  split; [reflexivity|]. split; [simpl; tauto|]. split; reflexivity.
Defined.

(** X6 on the example disk. *)
Lemma listed_files_have_a_driver_witness :
  exists driver, PresentationManager.getDriverForFile Example.bPptx = Some driver.
Proof.
  apply (listed_files_have_a_driver Example.platform Example.disk "/talks" constructor).
  vm_compute. tauto.
Defined.

Section Watcher.
Variable P : Platform.
Variable fs : FS.

(** The list a scan leaves only depends on the folder. *)
Lemma scanFiles_files_by_folder (fm1 fm2 : t) :
  currentFolder fm1 = currentFolder fm2 ->
  files (scanFiles P fs fm1) = files (scanFiles P fs fm2).
Proof.
  intros H. unfold scanFiles. rewrite H.
  destruct (currentFolder fm2) as [folder|]; [|reflexivity].
  destruct (String.eqb folder ""); [reflexivity|].
  destruct (fs_readdir fs folder) as [entries|]; [|reflexivity].
  destruct (scanEntries P fs folder entries); reflexivity.
Qed.

Lemma resetIfCurrent_keeps (filePath : string) (fm : t) :
  currentFolder (FileWatcher.resetIfCurrent filePath fm) = currentFolder fm
  /\ files (FileWatcher.resetIfCurrent filePath fm) = files fm.
Proof.
  unfold FileWatcher.resetIfCurrent.
  destruct (_ && _); split; reflexivity.
Qed.

(** X8: a watcher event for a path whose extension is not supported changes
    nothing.  For a supported path in a registry with a folder, ['add'] and
    ['change'] replace the list by a fresh scan and keep the cursor index;
    ['unlink'] does the same, except that the cursor is set to -1 when the
    file it was on, in the list before the scan, has the removed path. *)
Theorem watcher_events_rescan (filePath : string) (fm : t) :
  (FileWatcher.concerns P filePath = false ->
   FileWatcher.onAdd P fs filePath fm = fm
   /\ FileWatcher.onUnlink P fs filePath fm = fm
   /\ FileWatcher.onChange P fs filePath fm = fm)
  /\ (FileWatcher.concerns P filePath = true ->
      FileWatcher.folderSet fm = true ->
      FileWatcher.onAdd P fs filePath fm = scanFiles P fs fm
      /\ FileWatcher.onChange P fs filePath fm = scanFiles P fs fm
      /\ currentFileIndex (scanFiles P fs fm) = currentFileIndex fm
      /\ files (FileWatcher.onUnlink P fs filePath fm) = files (scanFiles P fs fm)
      /\ currentFileIndex (FileWatcher.onUnlink P fs filePath fm)
         = match getCurrentFile fm with
           | Some file => if String.eqb (path file) filePath
                          then -1 else currentFileIndex fm
           | None => currentFileIndex fm
           end).
Proof.
  unfold FileWatcher.onAdd, FileWatcher.onUnlink, FileWatcher.onChange.
  split.
  - intros ->. auto.
  - intros -> ->.
    split; [reflexivity|]. split; [reflexivity|].
    split; [apply scanFiles_keeps|].
    destruct (resetIfCurrent_keeps filePath fm) as [Hfolder Hfiles].
    split; [apply scanFiles_files_by_folder; exact Hfolder|].
    destruct (scanFiles_keeps P fs (FileWatcher.resetIfCurrent filePath fm)) as [_ ->].
    unfold FileWatcher.resetIfCurrent, getCurrentFile.
    destruct (0 <=? currentFileIndex fm) eqn:H0; simpl.
    + destruct (Js.index (files fm) (currentFileIndex fm)) as [file|] eqn:Hat.
      * assert ((currentFileIndex fm <? Js.length (files fm)) = true) as ->.
        { apply Z.ltb_lt. apply Z.leb_le in H0. unfold Js.index in Hat.
          destruct (currentFileIndex fm <? 0); [discriminate|].
          apply lookup_lt_Some in Hat. unfold Js.length. lia. }
        destruct (String.eqb (path file) filePath); reflexivity.
      * destruct (currentFileIndex fm <? Js.length (files fm)); reflexivity.
    + reflexivity.
Qed.

End Watcher.

(** X8 on the example: [c.ppt] is selected in [/talks] and [a.key] is
    removed from the disk; the cursor keeps index 2, past the end of the new
    list. *)
Lemma watcher_events_rescan_witness :
  let without_a :=
    {| fs_readdir := fun folder =>
         if String.eqb folder "/talks"
         then Some [ {| d_name := "c.ppt"; d_isFile := true |};
                     {| d_name := "b.pptx"; d_isFile := true |} ]
         else None;
       fs_stat := fs_stat Example.disk |} in
  let fm := set_currentFileIndex 2 Example.registry in
  let fm' := FileWatcher.onUnlink Example.platform without_a "/talks/a.key" fm in
  List.map name (files fm') = ["b.pptx"; "c.ppt"]
  /\ currentFileIndex fm' = 2
  /\ getCurrentFile fm' = None.
Proof.
  intros without_a fm fm'.
  destruct (watcher_events_rescan Example.platform without_a "/talks/a.key" fm)
    as [_ Hevent].
  destruct Hevent as (_ & _ & _ & Hfiles & Hcursor); [reflexivity | reflexivity |].
  fold fm' in Hfiles, Hcursor.
  split; [rewrite Hfiles; reflexivity|].
  split; [rewrite Hcursor; reflexivity|].
  unfold getCurrentFile. rewrite Hfiles, Hcursor. reflexivity.
Defined.

End FolderExtras.

(** ** More on the session manager *)
Module SessionExtras.
Import PresentationManager Spec Commands.

Ltac eff := SessionFacts.eff.
Ltac driver_outcome := SessionFacts.driver_outcome.

Section WithDrivers.
Context {App : Type}.
Variable drivers : Driver.Ref -> Driver.Ops App.

Lemma updatePresentationInfo_cases (driver : Driver.Ref) (s : Sys App) :
  currentDriver (self s) = Some driver ->
  exists s',
    updatePresentationInfo drivers s = (Js.Return tt, s')
    /\ sameButCache s s'
    /\ Refreshed drivers driver (self s) (app s) s'.
Proof.
  intros Hd. unfold updatePresentationInfo, Refreshed, sameButCache. eff.
  rewrite Hd. driver_outcome.
  - driver_outcome; eexists; (split; [reflexivity|]); simpl; auto 10.
  - eexists; split; [reflexivity|]; simpl; auto 10.
Qed.

Lemma throwing_command_cases (c : Command) (s s' : Sys App) (e : string) :
  run drivers c s = (Js.Throw e, s') ->
  self s' = self s
  /\ fs s' = fs s
  /\ ((guard c (self s) = false /\ e = guardMessage c /\ s' = s)
      \/ (exists driver,
             currentDriver (self s) = Some driver
             /\ guard c (self s) = true
             /\ driverCall drivers driver c (app s) = (Js.Throw e, app s'))).
Proof.
  unfold guard.
  destruct c; simpl;
    [ unfold startPresentation | unfold stopPresentation
    | rewrite SessionFacts.closePresentation_outcome
    | unfold nextSlide | unfold prevSlide ]; eff;
    destruct (currentDriver (self s)) as [driver|] eqn:Hd; simpl;
    try (intros [= <- <-]; split; [reflexivity|]; split; [reflexivity|];
         left; destruct s; auto).
  - destruct (currentFile (self s)) as [file|] eqn:Hf; simpl;
      [|intros [= <- <-]; do 2 (split; [reflexivity|]); left; destruct s; auto].
    driver_outcome.
    + destruct (SessionFacts.updatePresentationInfo_returns drivers
                  {| self := set_isPresenting true (self s); fs := fs s; app := a' |})
        as (s1 & -> & _). discriminate.
    + intros [= <- <-]. simpl. do 2 (split; [reflexivity|]). right.
      exists driver. auto.
  - driver_outcome; [discriminate|].
    intros [= <- <-]. simpl. do 2 (split; [reflexivity|]). right.
    exists driver. auto.
  - driver_outcome; [discriminate|].
    intros [= <- <-]. simpl. do 2 (split; [reflexivity|]). right.
    exists driver. auto.
  - driver_outcome.
    + destruct (SessionFacts.updatePresentationInfo_returns drivers
                  {| self := self s; fs := fs s; app := a' |})
        as (s1 & -> & _). discriminate.
    + intros [= <- <-]. simpl. do 2 (split; [reflexivity|]). right.
      exists driver. auto.
  - driver_outcome.
    + destruct (SessionFacts.updatePresentationInfo_returns drivers
                  {| self := self s; fs := fs s; app := a' |})
        as (s1 & -> & _). discriminate.
    + intros [= <- <-]. simpl. do 2 (split; [reflexivity|]). right.
      exists driver. auto.
Qed.

(** X10: when the driver's method returns, [startPresentation], [nextSlide]
    and [prevSlide] return too, whatever the two queries of the refresh do:
    the driver and the file stay, the presenting flag is true after a start
    and unchanged after a slide move, and the cache holds the position the
    driver reports with its notes, empty notes if the notes cannot be
    fetched, or what it held before if the position cannot be fetched. *)
Theorem refreshing_command_outcome (c : Command) (s : Sys App)
    (driver : Driver.Ref) (a1 : App) :
  refreshes c = true ->
  currentDriver (self s) = Some driver ->
  guard c (self s) = true ->
  driverCall drivers driver c (app s) = (Js.Return tt, a1) ->
  exists s',
    run drivers c s = (Js.Return tt, s')
    /\ currentDriver (self s') = Some driver
    /\ currentFile (self s') = currentFile (self s)
    /\ fileManager (self s') = fileManager (self s)
    /\ isPresenting (self s')
       = match c with Start => true | _ => isPresenting (self s) end
    /\ Refreshed drivers driver (self s) a1 s'.
Proof.
  intros Hc Hd Hg Hcall. unfold guard in Hg. rewrite Hd in Hg.
  destruct c; try discriminate; simpl in *;
    [ unfold startPresentation | unfold nextSlide | unfold prevSlide ]; eff;
    rewrite Hd; simpl.
  - destruct (currentFile (self s)) as [file|] eqn:Hf; [|discriminate]. simpl.
    rewrite Hcall. simpl.
    destruct (updatePresentationInfo_cases driver
                {| self := set_isPresenting true (self s); fs := fs s; app := a1 |} Hd)
      as (s' & -> & (Hfm & Hdrv & Hfile & Hp & _) & Href).
    exists s'. simpl in *. repeat split; try assumption; congruence.
  - rewrite Hcall. simpl.
    destruct (updatePresentationInfo_cases driver
                {| self := self s; fs := fs s; app := a1 |} Hd)
      as (s' & -> & (Hfm & Hdrv & Hfile & Hp & _) & Href).
    exists s'. simpl in *. repeat split; try assumption; congruence.
  - rewrite Hcall. simpl.
    destruct (updatePresentationInfo_cases driver
                {| self := self s; fs := fs s; app := a1 |} Hd)
      as (s' & -> & (Hfm & Hdrv & Hfile & Hp & _) & Href).
    exists s'. simpl in *. repeat split; try assumption; congruence.
Qed.


Lemma registry_miss {A} (m : FileManager.t -> option A * FileManager.t) (s : Sys App) :
  m (fileManager (self s)) = (None, fileManager (self s)) ->
  registry m s = (Js.Return None, s).
Proof.
  intros H. unfold registry. rewrite H. destruct s as [[] ? ?]. reflexivity.
Qed.

Lemma registry_hit {A} (m : FileManager.t -> option A * FileManager.t) (s : Sys App)
    (x : A) (fm : FileManager.t) :
  m (fileManager (self s)) = (Some x, fm) ->
  registry m s
  = (Js.Return (Some x),
     {| self := set_fileManager fm (self s); fs := fs s; app := app s |}).
Proof. intros H. unfold registry. rewrite H. reflexivity. Qed.

(** X12: [openNextFile], [openPrevFile] and [openFileByIndex] never throw,
    and a failure result leaves the six session fields as they were.  On an
    empty registry, or for an index that is not in 0 .. length-1, the result
    is the helper's own failure and nothing at all has changed; for an index
    in range the call is [openFile] on the path of the file at that index,
    with the cursor already on it. *)
Theorem navigation_helpers_outcome (s : Sys App) :
  (forall h, exists result s',
        navigate drivers h s = (Js.Return result, s')
        /\ fs s' = fs s
        /\ (Driver.success result = false -> session (self s') = session (self s)))
  /\ (FileManager.files (fileManager (self s)) = [] ->
      navigate drivers OpenNextFile s
      = (Js.Return (failure "No next file available"), s)
      /\ navigate drivers OpenPrevFile s
         = (Js.Return (failure "No previous file available"), s))
  /\ (forall i, i < 0 \/ Js.length (FileManager.files (fileManager (self s))) <= i ->
                navigate drivers (OpenFileByIndex i) s
                = (Js.Return (failure "Invalid file index"), s))
  /\ (forall i file,
         0 <= i < Js.length (FileManager.files (fileManager (self s))) ->
         Js.index (FileManager.files (fileManager (self s))) i = Some file ->
         navigate drivers (OpenFileByIndex i) s
         = openFile drivers (FileManager.path file) (withCursor i s)).
Proof.
  assert (forall (m : FileManager.t -> option FileManager.PresentationFile * FileManager.t)
                 (message : string),
             exists result s',
               Js.bind (registry m)
                 (fun found => match found with
                               | Some file => openFile drivers (FileManager.path file)
                               | None => Js.ret (failure message)
                               end) s = (Js.Return result, s')
               /\ fs s' = fs s
               /\ (Driver.success result = false ->
                   session (self s') = session (self s))) as Hany.
  { intros m message. unfold Js.bind, registry.
    destruct (m (fileManager (self s))) as [[file|] fm]; simpl.
    - destruct (SessionFacts.openFile_outcome drivers (FileManager.path file)
                  {| self := set_fileManager fm (self s); fs := fs s; app := app s |})
        as (result & s' & -> & Hfs & _ & Hkeep & _).
      exists result, s'. split; [reflexivity|]. split; [exact Hfs|].
      intros Hfail. rewrite (Hkeep Hfail). reflexivity.
    - do 2 eexists. split; [reflexivity|]. simpl. auto. }
  split; [|split; [|split]].
  - intros [| |i]; apply Hany.
  - intros Hnil. simpl. unfold openNextFile, openPrevFile, Js.bind.
    rewrite !registry_miss; [split; reflexivity | |];
      unfold FileManager.prevFile, FileManager.nextFile, Js.length;
      rewrite Hnil; reflexivity.
  - intros i Hi. simpl. unfold openFileByIndex, Js.bind.
    rewrite registry_miss; [reflexivity|].
    apply (RegistryExtras.getFileByIndex_cases (fileManager (self s))). exact Hi.
  - intros i file Hi Hat. simpl. unfold openFileByIndex, Js.bind.
    destruct (proj1 (RegistryExtras.getFileByIndex_cases (fileManager (self s))) i Hi)
      as (file' & Hget & Hat' & _).
    rewrite (registry_hit _ _ file' _ Hget).
    assert (file' = file) as -> by congruence. reflexivity.
Qed.

(** X9: a control command that throws has changed nothing in the manager
    object: either its guard failed, the error carries the guard's message
    and the driver was not called, or the driver's method threw and the
    error is the driver's. *)
Theorem throwing_command_changes_nothing (c : Command) (s s' : Sys App) (e : string) :
  run drivers c s = (Js.Throw e, s') ->
  self s' = self s
  /\ fs s' = fs s
  /\ ((guard c (self s) = false /\ e = guardMessage c /\ s' = s)
      \/ (exists driver,
             currentDriver (self s) = Some driver
             /\ guard c (self s) = true
             /\ driverCall drivers driver c (app s) = (Js.Throw e, app s'))).
Proof. apply throwing_command_cases. Qed.

(** What [getStatus] copies from the manager. *)
Lemma getStatus_copies (s : Sys App) :
  exists st s',
    getStatus drivers s = (Js.Return st, s')
    /\ self s' = self s
    /\ fs s' = fs s
    /\ Status.isPresenting st = isPresenting (self s)
    /\ Status.slideNotes st = slideNotes (self s)
    /\ Status.folder st = FileManager.currentFolder (fileManager (self s))
    /\ Status.fileCount st = Js.length (FileManager.files (fileManager (self s))).
Proof.
  unfold getStatus, realTimeSlideInfo. eff.
  destruct (currentDriver (self s)) as [[|]|] eqn:Hd; simpl.
  - do 2 eexists. split; [reflexivity|]. simpl. auto 10.
  - destruct (isPresenting (self s)) eqn:Hp; simpl.
    + driver_outcome; do 2 eexists; (split; [reflexivity|]); simpl; auto 10.
    + do 2 eexists. split; [reflexivity|]. simpl. auto 10.
  - do 2 eexists. split; [reflexivity|]. simpl. auto 10.
Qed.

(** A [startPresentation] that returns has set the flag. *)
Lemma start_returns_presenting (s s' : Sys App) :
  startPresentation drivers s = (Js.Return tt, s') ->
  isPresenting (self s') = true.
Proof.
  unfold startPresentation. eff.
  destruct (currentDriver (self s)) as [driver|] eqn:Hd; [|discriminate].
  destruct (currentFile (self s)) as [file|]; [|discriminate]. simpl.
  driver_outcome; [|discriminate].
  destruct (SessionFacts.updatePresentationInfo_returns drivers
              {| self := set_isPresenting true (self s); fs := fs s; app := a' |})
    as (s1 & -> & (_ & _ & _ & Hp & _)).
  intros [= <-]. exact Hp.
Qed.

End WithDrivers.


(** X12 on the example: index 1 of the registry. *)
Lemma navigation_helpers_outcome_witness :
  let s := Example.sys Example.idle Example.running in
  navigate Example.drivers (OpenFileByIndex 1) s
  = openFile Example.drivers "/talks/b.pptx" (withCursor 1 s).
Proof.
  intros s.
  apply (proj2 (proj2 (proj2 (navigation_helpers_outcome Example.drivers s)))
           1 Example.bPptx).
  - change (0 <= 1 < 3). lia.
  - reflexivity.
Defined.

(** X10 on the example: [next] from slide 3 of 10 in Keynote. *)
Lemma refreshing_command_outcome_witness :
  let s := Example.sys Example.presentingKeynote Example.running in
  exists s',
    run Example.drivers Next s = (Js.Return tt, s')
    /\ currentSlideIndex (self s') = 3
    /\ totalSlides (self s') = 10.
Proof.
  intros s.
  destruct (refreshing_command_outcome Example.drivers Next s Driver.keynoteDriver
              (Example.moveTo 4 Example.running))
    as (s' & Hrun & _ & _ & _ & _ & Href); try reflexivity.
  exists s'. split; [exact Hrun|].
  unfold Refreshed in Href. simpl in Href. tauto.
Defined.

(** X9 on the example: [next] while Keynote does not answer. *)
Lemma throwing_command_changes_nothing_witness :
  self (snd (run Example.drivers Next
               (Example.sys Example.presentingKeynote Example.down)))
  = Example.presentingKeynote.
Proof.
  apply (throwing_command_changes_nothing Example.drivers Next
           (Example.sys Example.presentingKeynote Example.down) _
           "Failed to go to next slide: not running").
  reflexivity.
Defined.

End SessionExtras.

(** ** More on the protocol server *)
Module ServerExtras.
Import WebSocketServer ServerProps.

(** The callback of the [forEach] in [broadcast]. *)
Local Abbreviation broadcastTo message :=
  (fun (_ : string) (client : Client) (socks : gmap nat Socket) =>
     if authenticated client && isOpen socks client
     then alter (ws_send message) (ws client) socks
     else socks).

Lemma broadcastTo_lookup (message : OutMsg) (id : string) (client : Client)
    (socks : gmap nat Socket) (h : nat) :
  broadcastTo message id client socks !! h
  = match socks !! h with
    | Some socket =>
        if bool_decide (readyState socket = OPEN)
           && bool_decide (authenticated client = true /\ ws client = h)
        then Some (ws_send message socket)
        else Some socket
    | None => None
    end.
Proof.
  unfold isOpen.
  assert (forall b : bool,
             h <> ws client ->
             (if b then alter (ws_send message) (ws client) socks else socks) !! h
             = socks !! h) as Hother.
  { intros [] Hne; [apply lookup_alter_ne; congruence | reflexivity]. }
  destruct (decide (authenticated client = true /\ ws client = h)) as [[Ha <-]|Hno].
  - rewrite (bool_decide_eq_true_2 (_ /\ _)) by auto.
    rewrite Ha. cbn [andb].
    destruct (socks !! ws client) as [socket|] eqn:Hs; [|exact Hs].
    rewrite andb_true_r.
    destruct (bool_decide (readyState socket = OPEN)); [|exact Hs].
    rewrite lookup_alter_eq, Hs. reflexivity.
  - rewrite (bool_decide_eq_false_2 (_ /\ _)) by exact Hno.
    assert ((if authenticated client
                && match socks !! ws client with
                   | Some socket => bool_decide (readyState socket = OPEN)
                   | None => false
                   end
             then alter (ws_send message) (ws client) socks else socks) !! h
            = socks !! h) as ->.
    { destruct (authenticated client) eqn:Ha; cbn [andb]; [|reflexivity].
      apply Hother. intros ->. apply Hno. auto. }
    destruct (socks !! h); [rewrite andb_false_r|]; reflexivity.
Qed.

(** The sockets after the [forEach] of [broadcast] over a list of clients
    with sockets of their own. *)
Lemma broadcast_list (message : OutMsg) (l : list (string * Client))
    (socks : gmap nat Socket) (h : nat) :
  NoDup (List.map (fun kv => ws (snd kv)) l) ->
  fold_left (fun s kv => broadcastTo message (fst kv) (snd kv) s) l socks !! h
  = match socks !! h with
    | Some socket =>
        if bool_decide (readyState socket = OPEN)
           && bool_decide (Exists (fun kv => authenticated (snd kv) = true
                                             /\ ws (snd kv) = h) l)
        then Some (ws_send message socket)
        else Some socket
    | None => None
    end.
Proof.
  revert socks. induction l as [|[id client] l IH]; intros socks Hnd; cbn [fold_left].
  - destruct (socks !! h) as [socket|]; [|reflexivity].
    rewrite (bool_decide_eq_false_2 (Exists _ [])) by (rewrite Exists_nil; tauto).
    rewrite andb_false_r. reflexivity.
  - cbn [List.map] in Hnd. apply NoDup_cons in Hnd as [Hhead Hnd].
    rewrite (IH _ Hnd). cbn [fst snd]. rewrite (broadcastTo_lookup message id).
    destruct (socks !! h) as [socket|]; [|reflexivity].
    rewrite (bool_decide_ext _ _ (Exists_cons _ (id, client) l)). cbn [snd].
    destruct (decide (readyState socket = OPEN)) as [Ho|Ho].
    2:{ rewrite !(bool_decide_eq_false_2 _ Ho). simpl.
        rewrite (bool_decide_eq_false_2 _ Ho). reflexivity. }
    rewrite (bool_decide_eq_true_2 _ Ho). simpl.
    destruct (decide (authenticated client = true /\ ws client = h)) as [Hc|Hc].
    + rewrite (bool_decide_eq_true_2 _ Hc).
      rewrite (bool_decide_eq_true_2 (_ \/ _)) by (left; exact Hc).
      assert (~ Exists (fun kv : string * Client =>
                          authenticated (snd kv) = true /\ ws (snd kv) = h) l) as Hrest.
      { rewrite Exists_exists. intros ([id' c'] & Hin & _ & Hws). simpl in Hws.
        apply Hhead. apply list_elem_of_In. apply in_map_iff.
        exists (id', c'). split; [simpl; destruct Hc; congruence|].
        apply list_elem_of_In. exact Hin. }
      rewrite (bool_decide_eq_false_2 _ Hrest), andb_false_r. reflexivity.
    + rewrite (bool_decide_eq_false_2 _ Hc).
      rewrite (bool_decide_eq_true_2 _ Ho). simpl.
      set (E := Exists (fun kv : string * Client =>
                          authenticated (snd kv) = true /\ ws (snd kv) = h) l).
      rewrite (bool_decide_ext ((authenticated client = true /\ ws client = h) \/ E) E)
        by tauto.
      reflexivity.
Qed.

Lemma distinct_sockets_NoDup (srv : t) :
  distinctSockets srv ->
  NoDup (List.map (fun kv => ws (snd kv)) (map_to_list (clients srv))).
Proof.
  intros Hd.
  change (NoDup ((fun kv : string * Client => ws (snd kv)) <$> map_to_list (clients srv))).
  apply NoDup_fmap_2_strong; [|apply NoDup_map_to_list].
  intros [id1 c1] [id2 c2] H1 H2 Hws. simpl in Hws.
  apply elem_of_map_to_list in H1, H2.
  assert (id1 = id2) as -> by (eapply Hd; eassumption).
  congruence.
Qed.

Lemma Exists_listening (m : gmap string Client) (h : nat) :
  Exists (fun kv => authenticated (snd kv) = true /\ ws (snd kv) = h) (map_to_list m)
  <-> listening m h.
Proof.
  unfold listening. rewrite Exists_exists. split.
  - intros ([id client] & Hin & Ha & Hws). exists id, client.
    apply elem_of_map_to_list in Hin. auto.
  - intros (id & client & Hin & Hws & Ha). exists (id, client).
    split; [apply elem_of_map_to_list; exact Hin | auto].
Qed.

Section WithDrivers.
Context {App : Type}.
Variable drivers : Driver.Ref -> Driver.Ops App.

Lemma broadcast_outcome (message : OutMsg) (s : Sys App) :
  distinctSockets (self s) ->
  exists s',
    broadcast message s = (Js.Return tt, s')
    /\ self s' = self s
    /\ manager s' = manager s
    /\ now s' = now s
    /\ Delivered message (clients (self s)) (sockets s) (sockets s').
Proof.
  intros Hd. unfold broadcast, Js.modify, forEach.
  eexists. split; [reflexivity|]. simpl.
  do 3 (split; [reflexivity|]).
  intros h. rewrite (broadcast_list message _ _ h (distinct_sockets_NoDup _ Hd)).
  split.
  - intros socket Hs Ho Hl. rewrite Hs.
    rewrite (bool_decide_eq_true_2 _ Ho).
    rewrite (bool_decide_eq_true_2 (Exists _ _)) by (apply Exists_listening; exact Hl).
    reflexivity.
  - intros Hno. destruct (sockets s !! h) as [socket|] eqn:Hs; [|reflexivity].
    destruct (decide (readyState socket = OPEN)) as [Ho|Ho].
    + rewrite (bool_decide_eq_false_2 (Exists _ _)), andb_false_r; [reflexivity|].
      intros Hex. apply Hno. exists socket.
      split; [reflexivity|]. split; [exact Ho | apply Exists_listening; exact Hex].
    + rewrite (bool_decide_eq_false_2 _ Ho). reflexivity.
Qed.

(** X13: with every client on a socket of its own, [broadcast] appends the
    message to each open socket of an authenticated client, once, and does
    nothing else: sockets of clients that have not authenticated, closed
    sockets, the clients map and the manager are as they were. *)
Theorem broadcast_reaches_authenticated_only (message : OutMsg) (s : Sys App) :
  distinctSockets (self s) ->
  exists s',
    broadcast message s = (Js.Return tt, s')
    /\ self s' = self s
    /\ manager s' = manager s
    /\ Delivered message (clients (self s)) (sockets s) (sockets s').
Proof.
  intros Hd. destruct (broadcast_outcome message s Hd) as (s' & H1 & H2 & H3 & _ & H4).
  exists s'. auto.
Qed.

(** The [switch] on the five control commands. *)
Lemma dispatch_command (clientId : string) (c : Commands.Command) :
  handlePresentationCommand drivers clientId (typed (Js.Str (Commands.name c)))
  = Js.bind (call (Commands.run drivers c))
      (fun _ => Js.bind (send clientId (commandResult (Commands.name c) true))
                  (fun _ => broadcastStatus drivers)).
Proof. destruct c; reflexivity. Qed.

(** The gate of [handleMessage] for an authenticated client. *)
Lemma handleMessage_authenticated (clientId : string) (message : Message)
    (s : Sys App) (client : Client) :
  clients (self s) !! clientId = Some client ->
  authenticated client = true ->
  type message <> Js.Str "auth" ->
  handleMessage drivers clientId message s
  = Js.tryCatch (handlePresentationCommand drivers clientId message)
      (fun err => sendError clientId ("Command failed: " ++ err)) s.
Proof.
  intros Hc Ha Ht. unfold handleMessage, Js.bind, Js.get.
  rewrite Hc, (ServerFacts.isCase_false _ _ Ht), Ha. reflexivity.
Qed.

(** [send] to a registered client with an open socket. *)
Lemma send_registered (clientId : string) (message : OutMsg) (s : Sys App)
    (client : Client) (socket : Socket) :
  clients (self s) !! clientId = Some client ->
  sockets s !! ws client = Some socket ->
  readyState socket = OPEN ->
  send clientId message s
  = (Js.Return tt, set_sockets (<[ws client := ws_send message socket]> (sockets s)) s).
Proof.
  intros Hc Hs Ho. rewrite (ServerFacts.send_open _ _ _ _ _ Hc Hs Ho).
  f_equal. f_equal. apply map_eq. intros h.
  destruct (decide (h = ws client)) as [->|Hne].
  - rewrite lookup_alter_eq, lookup_insert_eq, Hs. reflexivity.
  - rewrite lookup_alter_ne, lookup_insert_ne by congruence. reflexivity.
Qed.

Lemma name_not_auth (c : Commands.Command) :
  type (typed (Js.Str (Commands.name c))) <> Js.Str "auth".
Proof. destruct c; discriminate. Qed.

(** X14: when a control command of an authenticated client throws in the
    manager (no presentation open, or the driver fails), the handler itself
    returns: the client gets [error] with ["Command failed: "] and the
    error's message, no status is broadcast, no other socket gets anything,
    and the manager object is as it was. *)
Theorem failed_command_answers_requester_only
    (c : Commands.Command) (clientId : string) (s : Sys App)
    (client : Client) (socket : Socket)
    (e : string) (m1 : PresentationManager.Sys App) :
  clients (self s) !! clientId = Some client ->
  authenticated client = true ->
  sockets s !! ws client = Some socket ->
  readyState socket = OPEN ->
  Commands.run drivers c (manager s) = (Js.Throw e, m1) ->
  handleMessage drivers clientId (typed (Js.Str (Commands.name c))) s
  = (Js.Return tt,
     set_sockets
       (<[ws client := ws_send (error ("Command failed: " ++ e)) socket]> (sockets s))
       (set_manager m1 s))
  /\ PresentationManager.self m1 = PresentationManager.self (manager s).
Proof.
  intros Hc Ha Hs Ho Hrun.
  split; [|apply (SessionExtras.throwing_command_cases drivers c _ _ e Hrun)].
  rewrite (handleMessage_authenticated _ _ _ _ Hc Ha (name_not_auth c)).
  unfold Js.tryCatch. rewrite dispatch_command.
  unfold Js.bind at 1. unfold call, Js.zoom. rewrite Hrun.
  unfold sendError.
  apply (send_registered clientId _ (set_manager m1 s) client socket Hc Hs Ho).
Qed.

(** X15: when a control command of an authenticated client returns in the
    manager, the client gets [commandResult] and then the status, and, with
    every client on a socket of its own, every other open socket of an
    authenticated client gets that same status and nothing else is sent;
    the status is the one [getStatus] gives after the command, so it says
    presenting after a [start]. *)
Theorem successful_command_is_broadcast
    (c : Commands.Command) (clientId : string) (s : Sys App)
    (client : Client) (socket : Socket) (m1 : PresentationManager.Sys App) :
  clients (self s) !! clientId = Some client ->
  authenticated client = true ->
  sockets s !! ws client = Some socket ->
  readyState socket = OPEN ->
  distinctSockets (self s) ->
  Commands.run drivers c (manager s) = (Js.Return tt, m1) ->
  exists snapshot m2 s',
    PresentationManager.getStatus drivers m1 = (Js.Return snapshot, m2)
    /\ handleMessage drivers clientId (typed (Js.Str (Commands.name c))) s
       = (Js.Return tt, s')
    /\ self s' = self s
    /\ manager s' = m2
    /\ sockets s' !! ws client
       = Some (ws_send (status snapshot)
                 (ws_send (commandResult (Commands.name c) true) socket))
    /\ Delivered (status snapshot) (clients (self s))
         (<[ws client := ws_send (commandResult (Commands.name c) true) socket]>
            (sockets s))
         (sockets s')
    /\ Status.isPresenting snapshot
       = PresentationManager.isPresenting (PresentationManager.self m1)
    /\ (c = Commands.Start -> Status.isPresenting snapshot = true).
Proof.
  intros Hc Ha Hs Ho Hd Hrun.
  destruct (SessionExtras.getStatus_copies drivers m1)
    as (snapshot & m2 & Hstatus & _ & _ & Hflag & _).
  set (cr := commandResult (Commands.name c) true).
  set (s2 := set_manager m2
               (set_sockets (<[ws client := ws_send cr socket]> (sockets s))
                  (set_manager m1 s))).
  destruct (broadcast_outcome (status snapshot) s2 Hd)
    as (s' & Hcast & Hself & Hmgr & _ & Hdel).
  exists snapshot, m2, s'.
  split; [exact Hstatus|]. split.
  - rewrite (handleMessage_authenticated _ _ _ _ Hc Ha (name_not_auth c)).
    unfold Js.tryCatch. rewrite dispatch_command.
    unfold Js.bind at 1. unfold call at 1, Js.zoom. rewrite Hrun.
    cbv beta iota. unfold Js.bind at 1. fold cr.
    rewrite (send_registered clientId cr (set_manager m1 s) client socket Hc Hs Ho).
    unfold broadcastStatus, Js.bind, call, Js.zoom.
    change (manager (set_sockets (<[ws client:=ws_send cr socket]> (sockets (set_manager m1 s)))
                       (set_manager m1 s))) with m1.
    rewrite Hstatus. cbv beta iota.
    change (broadcast (status snapshot) s2 = (Js.Return tt, s')). exact Hcast.
  - split; [exact Hself|]. split; [exact Hmgr|]. split; [|split; [exact Hdel|]].
    + apply (proj1 (Hdel (ws client)) (ws_send cr socket)).
      * simpl. apply lookup_insert_eq.
      * exact Ho.
      * exists clientId, client. auto.
    + split; [exact Hflag|]. intros ->. rewrite Hflag.
      apply (SessionExtras.start_returns_presenting drivers _ _ Hrun).
Qed.

(** X16: an [openFile] message of an authenticated client with a path that
    is a string and not empty is never answered by [error]: the client gets
    [fileOpened] carrying the result of the manager's [openFile], success or
    failure, and the path as sent, and the status taken afterwards goes to
    the client and, with every client on a socket of its own, to every other
    open socket of an authenticated client, also after a failure. *)
Theorem openFile_message_always_broadcasts
    (clientId p : string) (tok : Js.Val) (s : Sys App)
    (client : Client) (socket : Socket) :
  clients (self s) !! clientId = Some client ->
  authenticated client = true ->
  sockets s !! ws client = Some socket ->
  readyState socket = OPEN ->
  distinctSockets (self s) ->
  p <> "" ->
  exists result m1 snapshot m2 s',
    PresentationManager.openFile drivers p (manager s) = (Js.Return result, m1)
    /\ PresentationManager.getStatus drivers m1 = (Js.Return snapshot, m2)
    /\ handleMessage drivers clientId
         {| type := Js.Str "openFile"; token := tok; filePath := Js.Str p |} s
       = (Js.Return tt, s')
    /\ self s' = self s
    /\ manager s' = m2
    /\ sockets s' !! ws client
       = Some (ws_send (status snapshot)
                 (ws_send (fileOpened (Driver.success result) (Driver.message result)
                             (Js.Str p)) socket))
    /\ Delivered (status snapshot) (clients (self s))
         (<[ws client := ws_send (fileOpened (Driver.success result)
                                    (Driver.message result) (Js.Str p)) socket]>
            (sockets s))
         (sockets s').
Proof.
  intros Hc Ha Hs Ho Hd Hp.
  destruct (SessionFacts.openFile_outcome drivers p (manager s))
    as (result & m1 & Hopen & _).
  destruct (SessionExtras.getStatus_copies drivers m1)
    as (snapshot & m2 & Hstatus & _).
  set (fo := fileOpened (Driver.success result) (Driver.message result) (Js.Str p)).
  set (s2 := set_manager m2
               (set_sockets (<[ws client := ws_send fo socket]> (sockets s))
                  (set_manager m1 s))).
  destruct (broadcast_outcome (status snapshot) s2 Hd)
    as (s' & Hcast & Hself & Hmgr & _ & Hdel).
  exists result, m1, snapshot, m2, s'.
  split; [exact Hopen|]. split; [exact Hstatus|]. split.
  - rewrite (handleMessage_authenticated _ _ _ client Hc Ha) by discriminate.
    unfold Js.tryCatch.
    change (handlePresentationCommand drivers clientId
              {| type := Js.Str "openFile"; token := tok; filePath := Js.Str p |})
      with (if negb (negb (String.eqb p ""))
            then Js.throw "filePath parameter required"
            else Js.bind (call (PresentationManager.openFile drivers p))
                   (fun result =>
                      Js.bind (send clientId
                                 (fileOpened (Driver.success result)
                                    (Driver.message result) (Js.Str p)))
                        (fun _ => broadcastStatus drivers))).
    rewrite (proj2 (String.eqb_neq p "") Hp). cbn [negb].
    unfold Js.bind at 1. unfold call at 1, Js.zoom. rewrite Hopen.
    cbv beta iota. unfold Js.bind at 1. fold fo.
    rewrite (send_registered clientId fo (set_manager m1 s) client socket Hc Hs Ho).
    unfold broadcastStatus, Js.bind, call, Js.zoom.
    change (manager (set_sockets (<[ws client:=ws_send fo socket]> (sockets (set_manager m1 s)))
                       (set_manager m1 s))) with m1.
    rewrite Hstatus. cbv beta iota.
    change (broadcast (status snapshot) s2 = (Js.Return tt, s')). exact Hcast.
  - split; [exact Hself|]. split; [exact Hmgr|]. split; [|exact Hdel].
    apply (proj1 (Hdel (ws client)) (ws_send fo socket)).
    + simpl. apply lookup_insert_eq.
    + exact Ho.
    + exists clientId, client. auto.
Qed.

(** X17: a message of an authenticated client that asks for nothing the
    server can do is answered by one [error] and changes nothing else.  A
    type that is none of the ten known ones gives ["Command failed: Unknown
    command: "] with the type as a template prints it; when the type is an
    object the template cannot print, the [TypeError] of the template is
    what the handler catches, and the answer is ["Command failed: "] with
    the message of that error.  [openFile] without a truthy [filePath] gives
    ["Command failed: filePath parameter required"]. *)
Theorem bad_request_is_refused
    (clientId : string) (message : Message) (s : Sys App)
    (client : Client) (socket : Socket) :
  clients (self s) !! clientId = Some client ->
  authenticated client = true ->
  sockets s !! ws client = Some socket ->
  readyState socket = OPEN ->
  ((forall label, In label knownTypes -> type message <> Js.Str label) ->
   handleMessage drivers clientId message s
   = (Js.Return tt,
      set_sockets
        (<[ws client :=
             ws_send (error ("Command failed: "
                             ++ match Js.toString (type message) with
                                | Js.Return text => "Unknown command: " ++ text
                                | Js.Throw typeError => typeError
                                end)) socket]>
           (sockets s)) s))
  /\ (type message = Js.Str "openFile" ->
      Js.truthy (filePath message) = false ->
      handleMessage drivers clientId message s
      = (Js.Return tt,
         set_sockets
           (<[ws client := ws_send (error "Command failed: filePath parameter required")
                             socket]>
              (sockets s)) s)).
Proof.
  intros Hc Ha Hs Ho. split.
  - intros Hunknown.
    assert (forall label, In label knownTypes -> isCase (type message) label = false)
      as Hno.
    { intros label Hin. apply ServerFacts.isCase_false. apply Hunknown. exact Hin. }
    rewrite (handleMessage_authenticated _ _ _ client Hc Ha)
      by (apply Hunknown; simpl; tauto).
    unfold Js.tryCatch, handlePresentationCommand.
    rewrite !Hno by (simpl; tauto).
    unfold Js.bind, Js.eval, Js.throw, sendError.
    destruct (Js.toString (type message)) as [text|typeError];
      apply (send_registered clientId _ s client socket Hc Hs Ho).
  - intros Ht Hfalsy.
    rewrite (handleMessage_authenticated _ _ _ client Hc Ha)
      by (rewrite Ht; discriminate).
    unfold Js.tryCatch, handlePresentationCommand. rewrite Ht.
    change (isCase (Js.Str "openFile") "ping") with false.
    change (isCase (Js.Str "openFile") "status") with false.
    change (isCase (Js.Str "openFile") "listFiles") with false.
    change (isCase (Js.Str "openFile") "openFile") with true.
    cbv beta iota. rewrite Hfalsy. cbn [negb].
    unfold Js.throw, sendError.
    apply (send_registered clientId _ s client socket Hc Hs Ho).
Qed.

(** X18: an [auth] message with the server's token, from a registered
    client with an open socket, sets that client's flag and nothing else in
    the clients map; the client gets a successful [authResult] and then the
    status, no other socket gets anything, and the manager object is as it
    was. *)
Theorem auth_promotes_the_client
    (clientId : string) (message : Message) (s : Sys App)
    (client : Client) (socket : Socket) :
  clients (self s) !! clientId = Some client ->
  sockets s !! ws client = Some socket ->
  readyState socket = OPEN ->
  type message = Js.Str "auth" ->
  token message = Js.Str (authToken (self s)) ->
  exists snapshot m2 s',
    PresentationManager.getStatus drivers (manager s) = (Js.Return snapshot, m2)
    /\ handleMessage drivers clientId message s = (Js.Return tt, s')
    /\ clients (self s') = <[clientId := set_authenticated true client]> (clients (self s))
    /\ authToken (self s') = authToken (self s)
    /\ manager s' = m2
    /\ PresentationManager.self m2 = PresentationManager.self (manager s)
    /\ sockets s'
       = <[ws client :=
             ws_send (status snapshot)
               (ws_send (authResult true "Authentication successful") socket)]>
           (sockets s).
Proof.
  intros Hc Hs Ho Ht Htok.
  destruct (SessionExtras.getStatus_copies drivers (manager s))
    as (snapshot & m2 & Hstatus & Hself & _).
  set (promoted := set_self
                     (set_clients (<[clientId := set_authenticated true client]>
                                     (clients (self s))) (self s)) s).
  assert (clients (self promoted) !! clientId = Some (set_authenticated true client))
    as Hc' by (simpl; apply lookup_insert_eq).
  exists snapshot, m2.
  eexists. split; [exact Hstatus|]. split.
  - unfold handleMessage, Js.bind at 1, Js.get. rewrite Hc, Ht.
    change (isCase (Js.Str "auth") "auth") with true. cbv beta iota.
    rewrite (bool_decide_eq_true_2 _ Htok).
    unfold Js.bind at 1, Js.modify at 1. fold promoted.
    unfold Js.bind at 1.
    rewrite (send_registered clientId _ promoted _ socket Hc' Hs Ho).
    unfold sendStatus, Js.bind, call, Js.zoom. simpl manager. rewrite Hstatus.
    cbv beta iota.
    erewrite (send_registered clientId _ _ (set_authenticated true client)
                (ws_send (authResult true "Authentication successful") socket));
      [reflexivity | exact Hc' | simpl; apply lookup_insert_eq | exact Ho].
  - simpl. repeat split; try assumption.
    apply insert_insert_eq.
Qed.

(** X19: a new connection under an id that is not in use is registered as
    not authenticated, is sent the handshake when its socket is open, and
    raises the connection count by one; its ['close'] event then leaves the
    clients map and the count as they were before the connection. *)
Theorem connect_then_close_restores_clients
    (clientId : string) (h : nat) (remoteAddress : string) (s : Sys App)
    (socket : Socket) :
  clients (self s) !! clientId = None ->
  sockets s !! h = Some socket ->
  readyState socket = OPEN ->
  exists s1 s2,
    onConnection clientId h remoteAddress s = (Js.Return tt, s1)
    /\ clients (self s1) !! clientId
       = Some {| ws := h; authenticated := false; lastPing := now s;
                 ip := remoteAddress |}
    /\ sockets s1
       = <[h := ws_send (handshake "Presentation Control Helper v1.0" true) socket]>
           (sockets s)
    /\ getConnectionCount s1 = getConnectionCount s + 1
    /\ onClose clientId s1 = (Js.Return tt, s2)
    /\ clients (self s2) = clients (self s)
    /\ getConnectionCount s2 = getConnectionCount s
    /\ authToken (self s2) = authToken (self s)
    /\ manager s2 = manager s.
Proof.
  intros Hfresh Hs Ho.
  set (client := {| ws := h; authenticated := false; lastPing := now s;
                    ip := remoteAddress |}).
  set (s0 := set_self (set_clients (<[clientId := client]> (clients (self s))) (self s)) s).
  assert (clients (self s0) !! clientId = Some client) as Hc
      by (simpl; apply lookup_insert_eq).
  do 2 eexists. split.
  - unfold onConnection, Js.bind at 1, Js.get.
    unfold Js.bind at 1, Js.modify at 1. fold client. fold s0.
    apply (send_registered clientId _ s0 client socket Hc Hs Ho).
  - simpl. split; [apply lookup_insert_eq|]. split; [reflexivity|].
    split.
    { unfold getConnectionCount. simpl.
      rewrite map_size_insert_None by exact Hfresh. lia. }
    split; [reflexivity|]. simpl.
    rewrite delete_insert_id by exact Hfresh. 
    repeat split.
Qed.

End WithDrivers.

(** *** The heartbeat *)

(** What the timer callback leaves of a client. *)
Local Abbreviation survivor now socks client :=
  (if isOpen socks client
   then Some (if 30000 <? now - lastPing client
              then Heartbeat.set_lastPing now client else client)
   else None).

Local Abbreviation idleOpen now socks :=
  (fun kv : string * Client =>
     isOpen socks (snd kv) && (30000 <? now - lastPing (snd kv))).

Lemma ping_list (now : Z) (socks : gmap nat Socket) (l : list (string * Client))
    (acc : gmap string Client * list nat) :
  NoDup (List.map fst l) ->
  (forall id client, In (id, client) l -> fst acc !! id = Some client) ->
  (forall id,
      fst (fold_left (fun a kv => Heartbeat.pingClient now socks (fst kv) (snd kv) a)
             l acc) !! id
      = match List.find (fun kv => String.eqb (fst kv) id) l with
        | Some kv => survivor now socks (snd kv)
        | None => fst acc !! id
        end)
  /\ snd (fold_left (fun a kv => Heartbeat.pingClient now socks (fst kv) (snd kv) a)
            l acc)
     = (snd acc ++ List.map (fun kv => ws (snd kv))
                     (List.filter (idleOpen now socks) l))%list.
Proof.
  revert acc. induction l as [|[k c] l IH]; intros acc Hnd Hacc; cbn [fold_left].
  - simpl. split; [reflexivity | rewrite app_nil_r; reflexivity].
  - cbn [List.map fst] in Hnd. apply NoDup_cons in Hnd as [Hk Hnd].
    set (acc1 := Heartbeat.pingClient now socks k c acc).
    assert (forall id, id <> k -> fst acc1 !! id = fst acc !! id) as Hother.
    { intros id Hne. unfold acc1, Heartbeat.pingClient. cbn [fst snd].
      destruct (isOpen socks c); [destruct (30000 <? now - lastPing c)|]; cbn [fst];
        [apply lookup_insert_ne; congruence | reflexivity
        | apply lookup_delete_ne; congruence]. }
    assert (fst acc1 !! k = survivor now socks c) as Hself.
    { unfold acc1, Heartbeat.pingClient.
      destruct (isOpen socks c); [destruct (30000 <? now - lastPing c)|]; cbn [fst];
        [apply lookup_insert_eq | apply Hacc; left; reflexivity
        | apply lookup_delete_eq]. }
    assert (snd acc1 = (snd acc ++ (if idleOpen now socks (k, c) then [ws c] else []))%list)
      as Hpinged.
    { unfold acc1, Heartbeat.pingClient. cbn [fst snd].
      destruct (isOpen socks c); [destruct (30000 <? now - lastPing c)|]; cbn [snd andb];
        rewrite ?app_nil_r; reflexivity. }
    destruct (IH acc1 Hnd) as [Hlook Hlist].
    { intros id client Hin. rewrite Hother; [apply Hacc; right; exact Hin|].
      intros ->. apply Hk. apply list_elem_of_In. apply in_map_iff.
      exists (k, client). auto. }
    change (Heartbeat.pingClient now socks (fst (k, c)) (snd (k, c)) acc) with acc1.
    split.
    + intros id. rewrite Hlook. cbn [List.find fst snd].
      destruct (String.eqb k id) eqn:Hid.
      * apply String.eqb_eq in Hid. subst id.
        destruct (List.find (fun kv => String.eqb (fst kv) k) l) as [[k' c']|] eqn:Hfind;
          [|exact Hself].
        exfalso. apply List.find_some in Hfind as [Hin Heq]. simpl in Heq.
        apply String.eqb_eq in Heq. subst k'.
        apply Hk. apply list_elem_of_In. apply in_map_iff. exists (k, c'). auto.
      * apply String.eqb_neq in Hid.
        destruct (List.find (fun kv => String.eqb (fst kv) id) l); [reflexivity|].
        apply Hother. congruence.
    + rewrite Hlist, Hpinged. cbn [List.filter].
      destruct (idleOpen now socks (k, c)); cbn [List.map];
        rewrite <- ?app_assoc; [reflexivity | rewrite app_nil_l; reflexivity].
Qed.

Lemma find_map_to_list (m : gmap string Client) (id : string) :
  match List.find (fun kv => String.eqb (fst kv) id) (map_to_list m) with
  | Some kv => m !! id = Some (snd kv)
  | None => m !! id = None
  end.
Proof.
  destruct (List.find _ (map_to_list m)) as [[k c]|] eqn:Hfind.
  - apply List.find_some in Hfind as [Hin Heq]. simpl in *.
    apply String.eqb_eq in Heq. subst k.
    apply elem_of_map_to_list. apply list_elem_of_In. exact Hin.
  - destruct (m !! id) as [c|] eqn:Hm; [|reflexivity].
    exfalso. apply elem_of_map_to_list, list_elem_of_In in Hm.
    pose proof (List.find_none _ _ Hfind _ Hm) as Hno. simpl in Hno.
    rewrite String.eqb_refl in Hno. discriminate.
Qed.

(** X20: one run of the heartbeat timer removes from the clients map exactly
    the clients whose socket is not open, keeps every other client with its
    socket and its authenticated flag, pings exactly the open sockets of the
    clients whose last ping is more than 30000 ms old and sets their last
    ping to now; it sends no message and leaves the token and the manager as
    they were. *)
Theorem heartbeat_prunes_closed_connections {App} (s : Sys App) :
  exists pinged s',
    Heartbeat.tick s = (Js.Return pinged, s')
    /\ sockets s' = sockets s
    /\ manager s' = manager s
    /\ authToken (self s') = authToken (self s)
    /\ (forall id,
           clients (self s') !! id
           = match clients (self s) !! id with
             | Some client => survivor (now s) (sockets s) client
             | None => None
             end)
    /\ (forall h,
           In h pinged
           <-> exists id client,
                 clients (self s) !! id = Some client
                 /\ ws client = h
                 /\ isOpen (sockets s) client = true
                 /\ 30000 < now s - lastPing client).
Proof.
  unfold Heartbeat.tick, forEach.
  pose proof (ping_list (now s) (sockets s) (map_to_list (clients (self s)))
                (clients (self s), [])) as Hfold.
  destruct (fold_left _ (map_to_list (clients (self s))) (clients (self s), []))
    as [cl pinged].
  destruct Hfold as [Hlook Hlist].
  { change (NoDup (fst <$> map_to_list (clients (self s)))).
    apply NoDup_fst_map_to_list. }
  { intros id client Hin. simpl. apply elem_of_map_to_list, list_elem_of_In. exact Hin. }
  simpl in Hlook, Hlist.
  exists pinged. eexists. split; [reflexivity|]. simpl.
  do 3 (split; [reflexivity|]). split.
  - intros id. rewrite Hlook.
    pose proof (find_map_to_list (clients (self s)) id) as Hfind.
    destruct (List.find _ (map_to_list (clients (self s)))) as [[k c]|];
      rewrite Hfind; reflexivity.
  - intros h. rewrite Hlist, in_map_iff. split.
    + intros ([id client] & Hws & Hin). apply filter_In in Hin as [Hin Hidle].
      simpl in *. apply andb_true_iff in Hidle as [Hopen Hlate].
      exists id, client. apply Z.ltb_lt in Hlate.
      split; [apply elem_of_map_to_list, list_elem_of_In; exact Hin | auto].
    + intros (id & client & Hc & Hws & Hopen & Hlate).
      exists (id, client). split; [exact Hws|]. apply filter_In. split.
      * apply list_elem_of_In, elem_of_map_to_list. exact Hc.
      * simpl. rewrite Hopen. apply Z.ltb_lt in Hlate. rewrite Hlate. reflexivity.
Qed.

(** *** The statements on the example server *)

Lemma example_distinct_sockets : distinctSockets (self Example.server).
Proof.
  intros id1 id2 c1 c2 H1 H2 Hws. simpl in H1, H2.
  apply lookup_insert_Some in H1 as [[<- <-]|[Hn1 H1]];
    apply lookup_insert_Some in H2 as [[<- <-]|[Hn2 H2]]; try reflexivity;
    try (apply lookup_insert_Some in H1 as [[<- <-]|[Hm1 H1]]);
    try (apply lookup_insert_Some in H2 as [[<- <-]|[Hm2 H2]]);
    try reflexivity; try discriminate;
    try (rewrite lookup_empty in H1; discriminate);
    try (rewrite lookup_empty in H2; discriminate).
Qed.

(** X13 on the example server: [deck] is authenticated, [guest] is not. *)
Lemma broadcast_reaches_authenticated_only_witness :
  let s' := snd (broadcast (pong 0) Example.server) in
  sockets s' !! 0%nat = Some {| readyState := OPEN; sent := [pong 0] |}
  /\ sockets s' !! 1%nat = Some Example.openSocket.
Proof.
  intros s'.
  destruct (broadcast_reaches_authenticated_only (pong 0) Example.server
              example_distinct_sockets)
    as (s1 & Hrun & _ & _ & Hdel).
  assert (s' = s1) as -> by (unfold s'; rewrite Hrun; reflexivity).
  split.
  - apply (proj1 (Hdel 0%nat) Example.openSocket); [reflexivity | reflexivity|].
    exists "deck", (Example.client 0%nat true). repeat split.
  - rewrite (proj2 (Hdel 1%nat)); [reflexivity|].
    intros (socket & _ & _ & id & client & Hc & Hws & Ha). simpl in Hc.
    apply lookup_insert_Some in Hc as [[<- <-]|[_ Hc]]; [discriminate|].
    apply lookup_insert_Some in Hc as [[<- <-]|[_ Hc]]; [discriminate|].
    rewrite lookup_empty in Hc. discriminate.
Defined.

(** X14 on the example server: [next] with no presentation open. *)
Lemma failed_command_answers_requester_only_witness :
  handleMessage Example.drivers "deck" (typed (Js.Str "next")) Example.server
  = (Js.Return tt,
     set_sockets
       (<[0%nat := ws_send (error "Command failed: No presentation is currently open")
                     Example.openSocket]>
          (sockets Example.server))
       Example.server).
Proof.
  apply (failed_command_answers_requester_only Example.drivers Commands.Next "deck"
           Example.server (Example.client 0%nat true) Example.openSocket
           "No presentation is currently open" (manager Example.server));
    reflexivity.
Defined.

(** X15 on the example server while Keynote presents: [stop]. *)
Lemma successful_command_is_broadcast_witness :
  exists snapshot s',
    handleMessage Example.drivers "deck" (typed (Js.Str "stop")) Example2.presenting
    = (Js.Return tt, s')
    /\ Status.isPresenting snapshot = false
    /\ sockets s' !! 0%nat
       = Some {| readyState := OPEN;
                 sent := [commandResult "stop" true; status snapshot] |}.
Proof.
  destruct (successful_command_is_broadcast Example.drivers Commands.Stop "deck"
              Example2.presenting (Example.client 0%nat true) Example.openSocket
              (snd (Commands.run Example.drivers Commands.Stop
                      (manager Example2.presenting))))
    as (snapshot & m2 & s' & _ & Hrun & _ & _ & Hsock & _ & Hflag & _);
    try reflexivity; [exact example_distinct_sockets|].
  exists snapshot, s'. split; [exact Hrun|]. split; [rewrite Hflag; reflexivity|].
  exact Hsock.
Defined.

(** X16 on the example server: [deck] opens [a.key]. *)
Lemma openFile_message_always_broadcasts_witness :
  exists snapshot s',
    handleMessage Example.drivers "deck"
      {| type := Js.Str "openFile"; token := Js.Undefined;
         filePath := Js.Str "/talks/a.key" |} Example.server
    = (Js.Return tt, s')
    /\ sockets s' !! 0%nat
       = Some {| readyState := OPEN;
                 sent := [fileOpened true "Opened /talks/a.key in Keynote"
                            (Js.Str "/talks/a.key");
                          status snapshot] |}.
Proof.
  destruct (openFile_message_always_broadcasts Example.drivers "deck" "/talks/a.key"
              Js.Undefined Example.server (Example.client 0%nat true) Example.openSocket)
    as (result & m1 & snapshot & m2 & s' & Hopen & _ & Hrun & _ & _ & Hsock & _);
    try reflexivity; [exact example_distinct_sockets | discriminate|].
  exists snapshot, s'. split; [exact Hrun|].
  vm_compute in Hopen. injection Hopen as <- _. exact Hsock.
Defined.

(** X17 on the example server: a [goto] message, and a message whose type
    is the object with a [toString] entry that is [null]. *)
Lemma bad_request_is_refused_witness :
  handleMessage Example.drivers "deck" (typed (Js.Str "goto")) Example.server
  = (Js.Return tt,
     set_sockets
       (<[0%nat := ws_send (error "Command failed: Unknown command: goto")
                     Example.openSocket]>
          (sockets Example.server))
       Example.server)
  /\ handleMessage Example.drivers "deck"
       (typed (Js.Unprintable "Cannot convert object to primitive value"))
       Example.server
     = (Js.Return tt,
        set_sockets
          (<[0%nat := ws_send
                        (error "Command failed: Cannot convert object to primitive value")
                        Example.openSocket]>
             (sockets Example.server))
          Example.server).
Proof.
  split.
  - apply (proj1 (bad_request_is_refused Example.drivers "deck" (typed (Js.Str "goto"))
                    Example.server (Example.client 0%nat true) Example.openSocket
                    eq_refl eq_refl eq_refl eq_refl)).
    simpl. intros label Hin.
    repeat (destruct Hin as [<-|Hin]; [discriminate|]). contradiction.
  - apply (proj1 (bad_request_is_refused Example.drivers "deck"
                    (typed (Js.Unprintable "Cannot convert object to primitive value"))
                    Example.server (Example.client 0%nat true) Example.openSocket
                    eq_refl eq_refl eq_refl eq_refl)).
    simpl. intros label Hin. discriminate.
Defined.

(** X18 on the example server: [guest] presents the token. *)
Lemma auth_promotes_the_client_witness :
  exists s',
    handleMessage Example.drivers "guest" (Example.authMsg "a1b2c3d4") Example.server
    = (Js.Return tt, s')
    /\ clients (self s') !! "guest" = Some (Example.client 1%nat true).
Proof.
  destruct (auth_promotes_the_client Example.drivers "guest"
              (Example.authMsg "a1b2c3d4") Example.server
              (Example.client 1%nat false) Example.openSocket)
    as (snapshot & m2 & s' & _ & Hrun & Hclients & _); try reflexivity.
  exists s'. split; [exact Hrun|]. rewrite Hclients. apply lookup_insert_eq.
Defined.

(** X19 on the example server: a third connection comes and goes. *)
Lemma connect_then_close_restores_clients_witness :
  exists s1 s2,
    onConnection "panel" 2%nat "127.0.0.1" Example2.accepting = (Js.Return tt, s1)
    /\ getConnectionCount s1 = 3
    /\ onClose "panel" s1 = (Js.Return tt, s2)
    /\ clients (self s2) = clients (self Example.server).
Proof.
  destruct (connect_then_close_restores_clients "panel" 2%nat "127.0.0.1"
              Example2.accepting Example.openSocket)
    as (s1 & s2 & Hin & _ & _ & Hcount & Hout & Hclients & _); try reflexivity.
  exists s1, s2. split; [exact Hin|]. split; [rewrite Hcount; reflexivity|].
  split; [exact Hout | exact Hclients].
Defined.

End ServerExtras.

(* ------------------------------------------------------------------ *)
(** ** The driver classes and the manager on them *)
Module DriverExtras.
Import AppleScript Drivers.

Ltac eff := SessionFacts.eff.

Section WithRuntime.
Context {W : Type}.
Variable R : Runtime W.

Ltac script_outcome :=
  match goal with
  | |- context [executeAppleScript R ?script ?w] =>
      destruct (executeAppleScript R script w) as [[?out|?e] ?w'] eqn:?Hrun
  end.

Ltac driver_methods :=
  unfold ops, onPowerPoint, onKeynote,
    PowerPointDriver.openFile, KeynoteDriver.openFile,
    PowerPointDriver.startPresentation, KeynoteDriver.startPresentation,
    PowerPointDriver.stopPresentation, KeynoteDriver.stopPresentation,
    PowerPointDriver.closePresentation, KeynoteDriver.closePresentation,
    PowerPointDriver.nextSlide, KeynoteDriver.nextSlide,
    PowerPointDriver.prevSlide, KeynoteDriver.prevSlide,
    PowerPointDriver.getCurrentSlideInfo, KeynoteDriver.getCurrentSlideInfo,
    PowerPointDriver.getSlideNotes, KeynoteDriver.getSlideNotes,
    PowerPointDriver.getTotalSlides, KeynoteDriver.getTotalSlides,
    PowerPointDriver.command, KeynoteDriver.command,
    PowerPointDriver.run, KeynoteDriver.run, withWorld, withDocument in *;
  eff.

Lemma orElse_nonzero (d : Z) (n : option Z) : d <> 0 -> orElse d n <> 0.
Proof.
  intros Hd. unfold orElse. destruct n as [v|]; [|exact Hd].
  destruct (Z.eqb_spec v 0); assumption.
Qed.

(** [getCurrentSlideInfo] by the outcomes of its two scripts. *)
Lemma getCurrentSlideInfo_cases (driver : Driver.Ref) (s : Side W) :
  Driver.getCurrentSlideInfo (ops R driver) s
  = match executeAppleScript R (countScript driver) (world s) with
    | (Js.Throw _, w1) =>
        (Js.Return {| Driver.currentSlide := 1; Driver.totalSlides := 0 |},
         withWorld w1 s)
    | (Js.Return total, w1) =>
        match executeAppleScript R (positionScript driver) w1 with
        | (Js.Return current, w2) =>
            (Js.Return
               {| Driver.currentSlide := orElse 1 (parseInt R (trim R current));
                  Driver.totalSlides := orElse 0 (parseInt R (trim R total)) |},
             withWorld w2 s)
        | (Js.Throw _, w2) =>
            (Js.Return
               {| Driver.currentSlide := 1;
                  Driver.totalSlides := orElse 0 (parseInt R (trim R total)) |},
             withWorld w2 s)
        end
    end.
Proof.
  destruct driver; simpl; driver_methods;
    (script_outcome; simpl; [script_outcome; reflexivity | reflexivity]).
Qed.

Lemma getSlideNotes_cases (driver : Driver.Ref) (slideNumber : Z) (s : Side W) :
  Driver.getSlideNotes (ops R driver) slideNumber s
  = match executeAppleScript R (notesScript driver slideNumber) (world s) with
    | (Js.Return out, w1) => (Js.Return (trim R out), withWorld w1 s)
    | (Js.Throw _, w1) => (Js.Return "", withWorld w1 s)
    end.
Proof.
  destruct driver; simpl; driver_methods; script_outcome; reflexivity.
Qed.

Lemma driverCall_cases (driver : Driver.Ref) (c : Commands.Command) (s : Side W) :
  Commands.driverCall (ops R) driver c s
  = match executeAppleScript R (commandScript driver c) (world s) with
    | (Js.Return _, w1) => (Js.Return tt, withWorld w1 s)
    | (Js.Throw e, w1) => (Js.Throw (failurePrefix c ++ e), withWorld w1 s)
    end.
Proof.
  destruct driver, c; simpl; driver_methods; script_outcome; reflexivity.
Qed.

Lemma driver_openFile_cases (driver : Driver.Ref) (filePath : string) (s : Side W) :
  Driver.openFile (ops R driver) filePath s
  = match executeAppleScript R (openScript driver filePath) (world s) with
    | (Js.Return out, w1) =>
        (Js.Return {| Driver.success := true;
                      Driver.message :=
                        "Opened " ++ trim R out ++ " in " ++ appName driver |},
         withDocument driver (trim R out) w1 s)
    | (Js.Throw e, w1) =>
        (Js.Return {| Driver.success := false;
                      Driver.message := "Failed to open file: " ++ e |},
         withWorld w1 s)
    end.
Proof.
  destruct driver; simpl; driver_methods; script_outcome; reflexivity.
Qed.

(** A refresh of the cache on the two driver objects. *)
Lemma refresh_cases (driver : Driver.Ref) (s : PresentationManager.Sys (Side W)) :
  PresentationManager.currentDriver (PresentationManager.self s) = Some driver ->
  exists s',
    PresentationManager.updatePresentationInfo (ops R) s = (Js.Return tt, s')
    /\ Spec.sameButCache s s'
    /\ powerpoint (PresentationManager.app s') = powerpoint (PresentationManager.app s)
    /\ keynote (PresentationManager.app s') = keynote (PresentationManager.app s)
    /\ PresentationManager.currentSlideIndex (PresentationManager.self s') <> -1
    /\ match executeAppleScript R (countScript driver)
               (world (PresentationManager.app s)) with
       | (Js.Throw _, _) =>
           PresentationManager.currentSlideIndex (PresentationManager.self s') = 0
           /\ PresentationManager.totalSlides (PresentationManager.self s') = 0
       | (Js.Return total, _) =>
           PresentationManager.totalSlides (PresentationManager.self s')
           = orElse 0 (parseInt R (trim R total))
       end.
Proof.
  intros Hd.
  destruct (SessionExtras.updatePresentationInfo_cases (ops R) driver s Hd)
    as (s' & Hrun & Hsame & Href).
  exists s'. split; [exact Hrun|]. split; [exact Hsame|].
  unfold Commands.Refreshed in Href.
  rewrite getCurrentSlideInfo_cases in Href.
  destruct (executeAppleScript R (countScript driver)
              (world (PresentationManager.app s))) as [[total|e] w1].
  - destruct (executeAppleScript R (positionScript driver) w1) as [[current|e] w2];
      destruct Href as (Hi & Ht & Hn); rewrite getSlideNotes_cases in Hn;
      simpl in Hn;
      destruct (executeAppleScript R (notesScript driver _) w2) as [[notes|e'] w3];
      destruct Hn as (_ & Happ); rewrite Happ, Hi, Ht; simpl;
      (split; [reflexivity|]); (split; [reflexivity|]);
      (split; [|reflexivity]).
    + pose proof (orElse_nonzero 1 (parseInt R (trim R current))). lia.
    + pose proof (orElse_nonzero 1 (parseInt R (trim R current))). lia.
    + lia.
    + lia.
  - destruct Href as (Hi & Ht & Hn); rewrite getSlideNotes_cases in Hn;
      simpl in Hn;
      destruct (executeAppleScript R (notesScript driver _) w1) as [[notes|e'] w3];
      destruct Hn as (_ & Happ); rewrite Happ, Hi, Ht; simpl;
      (split; [reflexivity|]); (split; [reflexivity|]);
      (split; [lia|]); split; reflexivity.
Qed.

Lemma slide_info_total (driver : Driver.Ref) (s : Side W) :
  exists info w1,
    Driver.getCurrentSlideInfo (ops R driver) s = (Js.Return info, withWorld w1 s)
    /\ Driver.currentSlide info <> 0
    /\ forall e w,
        executeAppleScript R (countScript driver) (world s) = (Js.Throw e, w) ->
        info = {| Driver.currentSlide := 1; Driver.totalSlides := 0 |} /\ w1 = w.
Proof.
  rewrite getCurrentSlideInfo_cases.
  destruct (executeAppleScript R (countScript driver) (world s)) as [[total|e] w1].
  - destruct (executeAppleScript R (positionScript driver) w1) as [[current|e] w2];
      do 2 eexists; (split; [reflexivity|]); simpl; (split; [|discriminate]).
    + apply orElse_nonzero. discriminate.
    + discriminate.
  - do 2 eexists. split; [reflexivity|]. simpl. split; [discriminate|].
    intros e' w [= _ <-]. auto.
Qed.

(** X21: the two reading methods of both drivers never throw and never
    touch the driver objects.  [getCurrentSlideInfo] never reports slide 0;
    when its first script fails it reports slide 1 of 0 and the applications
    are as that script left them.  [getSlideNotes] gives the empty text when
    its script fails. *)
Theorem slide_readers_never_throw (driver : Driver.Ref) (slideNumber : Z) (s : Side W) :
  (exists info w1,
      Driver.getCurrentSlideInfo (ops R driver) s = (Js.Return info, withWorld w1 s)
      /\ Driver.currentSlide info <> 0
      /\ forall e w,
          executeAppleScript R (countScript driver) (world s) = (Js.Throw e, w) ->
          info = {| Driver.currentSlide := 1; Driver.totalSlides := 0 |} /\ w1 = w)
  /\ (exists notes w1,
         Driver.getSlideNotes (ops R driver) slideNumber s
         = (Js.Return notes, withWorld w1 s)
         /\ forall e w,
             executeAppleScript R (notesScript driver slideNumber) (world s)
             = (Js.Throw e, w) ->
             notes = "" /\ w1 = w).
Proof.
  split; [apply slide_info_total|].
  rewrite getSlideNotes_cases.
  destruct (executeAppleScript R (notesScript driver slideNumber) (world s))
    as [[out|e] w1]; do 2 eexists; (split; [reflexivity|]).
  - discriminate.
  - intros e' w [= _ <-]. auto.
Qed.

(** X22: on the two driver classes a refresh of the cache is never
    skipped.  [updatePresentationInfo] with a driver set returns, touches
    only the cache and the applications, and leaves a position that comes
    from the scripts: the total is the number the count script printed, or
    0 when it printed none; when the count script fails the cache is reset
    to the first slide of 0, not kept. *)
Theorem refresh_is_never_stale (driver : Driver.Ref)
    (s : PresentationManager.Sys (Side W)) :
  PresentationManager.currentDriver (PresentationManager.self s) = Some driver ->
  exists s',
    PresentationManager.updatePresentationInfo (ops R) s = (Js.Return tt, s')
    /\ Spec.sameButCache s s'
    /\ powerpoint (PresentationManager.app s') = powerpoint (PresentationManager.app s)
    /\ keynote (PresentationManager.app s') = keynote (PresentationManager.app s)
    /\ PresentationManager.currentSlideIndex (PresentationManager.self s') <> -1
    /\ (forall e w,
           executeAppleScript R (countScript driver) (world (PresentationManager.app s))
           = (Js.Throw e, w) ->
           PresentationManager.currentSlideIndex (PresentationManager.self s') = 0
           /\ PresentationManager.totalSlides (PresentationManager.self s') = 0)
    /\ (forall total w,
           executeAppleScript R (countScript driver) (world (PresentationManager.app s))
           = (Js.Return total, w) ->
           PresentationManager.totalSlides (PresentationManager.self s')
           = orElse 0 (parseInt R (trim R total))).
Proof.
  intros Hd.
  destruct (refresh_cases driver s Hd) as (s' & Hrun & Hsame & Hp & Hk & Hi & Hc).
  exists s'. do 5 (split; [assumption|]).
  destruct (executeAppleScript R (countScript driver)
              (world (PresentationManager.app s))) as [[total|e] w1].
  - split; [discriminate|]. intros total' w [= <- _]. exact Hc.
  - split; [|discriminate]. intros _ _ _. exact Hc.
Qed.

(** X23: while PowerPoint presents, the status always carries a live
    position.  The poll of [getStatus] on the PowerPoint driver cannot throw,
    so the cached position is never reported: the position in the status is
    the one [getCurrentSlideInfo] of the PowerPoint driver returns on the
    applications as they are, which is never slide 0.  The total is the
    number the count script printed, or 0 when it printed none, and the
    slide is the number the position script printed, or 1 when it printed
    none or failed; when the application does not answer the count script
    the status says slide 1 of 0 whatever the cache holds.  The manager
    object is left as it is. *)
Theorem status_of_powerpoint_show_is_live (s : PresentationManager.Sys (Side W)) :
  PresentationManager.currentDriver (PresentationManager.self s)
  = Some Driver.powerpointDriver ->
  PresentationManager.isPresenting (PresentationManager.self s) = true ->
  exists st s' info,
    PresentationManager.getStatus (ops R) s = (Js.Return st, s')
    /\ PresentationManager.self s' = PresentationManager.self s
    /\ Driver.getCurrentSlideInfo (ops R Driver.powerpointDriver)
         (PresentationManager.app s)
       = (Js.Return info, PresentationManager.app s')
    /\ Status.currentSlide st = Driver.currentSlide info
    /\ Status.totalSlides st = Driver.totalSlides info
    /\ Status.currentSlide st <> 0
    /\ match executeAppleScript R PowerPointCountSlides
               (world (PresentationManager.app s)) with
       | (Js.Throw _, _) =>
           Status.currentSlide st = 1 /\ Status.totalSlides st = 0
       | (Js.Return total, w1) =>
           Status.totalSlides st = orElse 0 (parseInt R (trim R total))
           /\ match executeAppleScript R PowerPointSlideIndex w1 with
              | (Js.Return current, _) =>
                  Status.currentSlide st = orElse 1 (parseInt R (trim R current))
              | (Js.Throw _, _) => Status.currentSlide st = 1
              end
       end.
Proof.
  intros Hd Hp.
  destruct (SessionFacts.getStatus_outcome (ops R) s) as (st & s' & Hrun & Hself & _ & Hpoll).
  rewrite Hd, Hp, bool_decide_eq_true_2 in Hpoll by reflexivity. simpl in Hpoll.
  destruct (slide_info_total Driver.powerpointDriver (PresentationManager.app s))
    as (info & w1 & Hinfo & Hnz & _).
  change (onPowerPoint (PowerPointDriver.getCurrentSlideInfo R))
    with (Driver.getCurrentSlideInfo (ops R Driver.powerpointDriver)) in Hpoll.
  rewrite Hinfo in Hpoll. destruct Hpoll as ((Hslide & Htotal) & Happ).
  exists st, s', info. split; [exact Hrun|]. split; [exact Hself|].
  split; [rewrite Happ; exact Hinfo|].
  split; [exact Hslide|]. split; [exact Htotal|].
  split; [rewrite Hslide; exact Hnz|].
  rewrite Hslide, Htotal.
  rewrite getCurrentSlideInfo_cases in Hinfo. simpl in Hinfo.
  destruct (executeAppleScript R PowerPointCountSlides
              (world (PresentationManager.app s))) as [[total|e] w2].
  - destruct (executeAppleScript R PowerPointSlideIndex w2) as [[current|e] w3];
      injection Hinfo as <- _; simpl; auto.
  - injection Hinfo as <- _. simpl. auto.
Qed.

(** X24: on the two driver classes a control command of the manager whose
    guard holds fails exactly when the script of the command fails.  The
    error is the script's message behind the prefix of the method, and the
    manager object and the driver objects are as before; when the script
    succeeds the command returns, whatever the scripts of the refresh do,
    and the driver objects are still as before. *)
Theorem command_fails_with_its_script (c : Commands.Command) (driver : Driver.Ref)
    (s : PresentationManager.Sys (Side W)) :
  Commands.guard c (PresentationManager.self s) = true ->
  PresentationManager.currentDriver (PresentationManager.self s) = Some driver ->
  match executeAppleScript R (commandScript driver c)
          (world (PresentationManager.app s)) with
  | (Js.Throw e, w1) =>
      Commands.run (ops R) c s
      = (Js.Throw (failurePrefix c ++ e),
         {| PresentationManager.self := PresentationManager.self s;
            PresentationManager.fs := PresentationManager.fs s;
            PresentationManager.app := withWorld w1 (PresentationManager.app s) |})
  | (Js.Return _, _) =>
      exists s',
        Commands.run (ops R) c s = (Js.Return tt, s')
        /\ powerpoint (PresentationManager.app s')
           = powerpoint (PresentationManager.app s)
        /\ keynote (PresentationManager.app s') = keynote (PresentationManager.app s)
  end.
Proof.
  intros Hguard Hd. unfold Commands.guard in Hguard. rewrite Hd in Hguard.
  pose proof (driverCall_cases driver c (PresentationManager.app s)) as Hcall.
  destruct (executeAppleScript R (commandScript driver c)
              (world (PresentationManager.app s))) as [[out|e] w1];
    destruct c; simpl in Hcall; simpl;
    unfold PresentationManager.startPresentation, PresentationManager.stopPresentation,
      PresentationManager.closePresentation, PresentationManager.nextSlide,
      PresentationManager.prevSlide;
    unfold PresentationManager.assign, PresentationManager.call,
      Js.bind, Js.get, Js.modify, Js.zoom, Js.throw;
    cbv beta; rewrite Hd;
    try (destruct (PresentationManager.currentFile (PresentationManager.self s));
         [|discriminate]);
    rewrite Hcall; cbv beta iota;
    try reflexivity;
    try (eexists; split; [reflexivity|]; simpl; split; reflexivity).
  all: match goal with
       | |- context [PresentationManager.updatePresentationInfo (ops R) ?st] =>
           destruct (refresh_cases driver st) as (s' & -> & _ & Hp & Hk & _);
             [exact Hd|]
       end;
    exists s'; split; [reflexivity|]; simpl in Hp, Hk; split; assumption.
Qed.

(** X25: [openFile] of the manager on the two driver classes, for a file on
    disk that is in the registry and has a driver.  The result is the
    driver's: a failure with the message of the open script when the script
    fails, with nothing changed but the cursor of the registry; a success
    naming the document when it succeeds, and then the driver object
    remembers the trimmed name the script printed, the other driver object
    is untouched and the session is the new file, not presenting. *)
Theorem openFile_result_is_the_scripts (filePath : string)
    (file : FileManager.PresentationFile) (fm : FileManager.t) (driver : Driver.Ref)
    (s : PresentationManager.Sys (Side W)) :
  FileManager.validateFile (PresentationManager.fs s) filePath = true ->
  FileManager.setCurrentFile filePath
    (PresentationManager.fileManager (PresentationManager.self s)) = (Some file, fm) ->
  PresentationManager.getDriverForFile file = Some driver ->
  match executeAppleScript R (openScript driver filePath)
          (world (PresentationManager.app s)) with
  | (Js.Throw e, w1) =>
      PresentationManager.openFile (ops R) filePath s
      = (Js.Return (PresentationManager.failure ("Failed to open file: " ++ e)),
         {| PresentationManager.self :=
              PresentationManager.set_fileManager fm (PresentationManager.self s);
            PresentationManager.fs := PresentationManager.fs s;
            PresentationManager.app := withWorld w1 (PresentationManager.app s) |})
  | (Js.Return out, _) =>
      exists s',
        PresentationManager.openFile (ops R) filePath s
        = (Js.Return {| Driver.success := true;
                        Driver.message :=
                          "Opened " ++ trim R out ++ " in " ++ appName driver |}, s')
        /\ PresentationManager.app s'
           = withDocument driver (trim R out) (world (PresentationManager.app s'))
               (PresentationManager.app s)
        /\ PresentationManager.currentDriver (PresentationManager.self s') = Some driver
        /\ PresentationManager.currentFile (PresentationManager.self s') = Some file
        /\ PresentationManager.isPresenting (PresentationManager.self s') = false
        /\ PresentationManager.fileManager (PresentationManager.self s') = fm
  end.
Proof.
  intros Hvalid Hset Hdrv.
  pose proof (driver_openFile_cases driver filePath (PresentationManager.app s)) as Hcall.
  unfold PresentationManager.openFile, PresentationManager.registry,
    PresentationManager.assign, PresentationManager.call, PresentationManager.failure,
    Js.tryCatch, Js.bind, Js.get, Js.modify, Js.zoom, Js.ret.
  cbv beta. rewrite Hvalid. cbn [negb]. cbv beta iota.
  rewrite Hset. cbv beta iota. rewrite Hdrv. cbv beta iota.
  cbn [PresentationManager.app].
  destruct (executeAppleScript R (openScript driver filePath)
              (world (PresentationManager.app s))) as [[out|e] w1];
    rewrite Hcall; cbv beta iota; cbn [Driver.success]; cbv iota;
    [|reflexivity].
  match goal with
  | |- context [PresentationManager.updatePresentationInfo (ops R) ?st] =>
      destruct (refresh_cases driver st eq_refl)
        as (s' & -> & (Hfm & Hd & Hf & Hpres & _) & Hp & Hk & _)
  end.
  exists s'. split; [reflexivity|]. simpl in *.
  split; [|auto].
  destruct (PresentationManager.app s') as [pp kn w]. simpl in *. subst pp kn.
  destruct driver; reflexivity.
Qed.

(** X26: the slide list of the PowerPoint driver.  With the add-in marked
    as connected it throws without running a script.  Otherwise it runs the
    count script once: a failure is thrown on behind the prefix of
    [getTotalSlides]; a printed number [n] gives the placeholders of slides
    1 to [n] in order, each with its title and empty notes, and an output
    that is no number gives the empty list. *)
Theorem powerpoint_slide_list (numberToString : Z -> string)
    (d : PowerPointDriver.t) (w : W) :
  (PowerPointDriver.addinConnected d = true ->
   PowerPointDriver.getSlideList R numberToString (d, w)
   = (Js.Throw "Add-in communication not yet implemented", (d, w)))
  /\ (PowerPointDriver.addinConnected d = false ->
      match executeAppleScript R PowerPointTotalSlides w with
      | (Js.Throw e, w1) =>
          PowerPointDriver.getSlideList R numberToString (d, w)
          = (Js.Throw ("Failed to get total slides: " ++ e), (d, w1))
      | (Js.Return out, w1) =>
          exists slides,
            PowerPointDriver.getSlideList R numberToString (d, w)
            = (Js.Return slides, (d, w1))
            /\ List.map index slides
               = seqZ 1 (default 0 (parseInt R (trim R out)))
            /\ Forall (fun slide =>
                         title slide
                         = PowerPointDriver.slideTitle numberToString (index slide)
                         /\ notes slide = "") slides
      end).
Proof.
  unfold PowerPointDriver.getSlideList, PowerPointDriver.getTotalSlides,
    PowerPointDriver.run, Js.tryCatch, Js.bind, Js.get, Js.zoom, Js.ret, Js.throw.
  cbv beta. cbn [fst snd].
  split; intros ->; [reflexivity|]. cbv beta iota. cbn [fst snd].
  destruct (executeAppleScript R PowerPointTotalSlides w) as [[out|e] w1];
    cbv beta iota; cbn [fst snd]; [|reflexivity].
  eexists. split; [reflexivity|].
  unfold PowerPointDriver.placeholders.
  destruct (parseInt R (trim R out)) as [n|]; simpl.
  - split.
    + rewrite List.map_map. simpl. apply List.map_id.
    + apply Forall_forall. intros slide Hin.
      apply list_elem_of_In, in_map_iff in Hin as (i & <- & _). auto.
  - split; [reflexivity | constructor].
Qed.

End WithRuntime.

(** X22 on the example: a refresh of the Keynote session while the
    application does not run. *)
Lemma refresh_is_never_stale_witness :
  let s := ExampleScripts.sys Example.presentingKeynote false in
  exists s',
    PresentationManager.updatePresentationInfo (ops ExampleScripts.runtime) s
    = (Js.Return tt, s')
    /\ PresentationManager.currentSlideIndex (PresentationManager.self s') = 0
    /\ PresentationManager.totalSlides (PresentationManager.self s') = 0.
Proof.
  intros s.
  destruct (refresh_is_never_stale ExampleScripts.runtime Driver.keynoteDriver s eq_refl)
    as (s' & Hrun & _ & _ & _ & _ & Hfail & _).
  exists s'. split; [exact Hrun|].
  apply (Hfail "Application is not running." false). reflexivity.
Defined.

(** X23 on the example: the status of the PowerPoint show on slide 3 of
    12, while the cache says slide 1 of 10. *)
Lemma status_of_powerpoint_show_is_live_witness :
  let s := ExampleScripts.sys Example.presentingPowerPoint true in
  exists st s',
    PresentationManager.getStatus (ops ExampleScripts.runtime) s = (Js.Return st, s')
    /\ Status.currentSlide st = 3
    /\ Status.totalSlides st = 12.
Proof.
  intros s.
  destruct (status_of_powerpoint_show_is_live ExampleScripts.runtime s eq_refl eq_refl)
    as (st & s' & info & Hrun & _ & _ & _ & _ & _ & Htotal & Hslide).
  exists st, s'. split; [exact Hrun|]. split; [exact Hslide | exact Htotal].
Defined.

(** X24 on the example: [next] in Keynote while the application does not
    run. *)
Lemma command_fails_with_its_script_witness :
  let s := ExampleScripts.sys Example.presentingKeynote false in
  Commands.run (ops ExampleScripts.runtime) Commands.Next s
  = (Js.Throw "Failed to go to next slide: Application is not running.", s).
Proof.
  intros s.
  exact (command_fails_with_its_script ExampleScripts.runtime Commands.Next
           Driver.keynoteDriver s eq_refl eq_refl).
Defined.

(** X25 on the example: opening [b.pptx] from the idle manager. *)
Lemma openFile_result_is_the_scripts_witness :
  let s := ExampleScripts.sys Example.idle true in
  exists s',
    PresentationManager.openFile (ops ExampleScripts.runtime) "/talks/b.pptx" s
    = (Js.Return {| Driver.success := true;
                    Driver.message := "Opened quarterly.pptx in PowerPoint" |}, s')
    /\ PowerPointDriver.currentPresentation (powerpoint (PresentationManager.app s'))
       = Some "quarterly.pptx"
    /\ keynote (PresentationManager.app s') = KeynoteDriver.constructor.
Proof.
  intros s.
  destruct (openFile_result_is_the_scripts ExampleScripts.runtime "/talks/b.pptx"
              Example.bPptx (FileManager.set_currentFileIndex 1 Example.registry)
              Driver.powerpointDriver s eq_refl eq_refl eq_refl)
    as (s' & Hrun & Happ & _).
  exists s'. split; [exact Hrun|]. rewrite Happ. split; reflexivity.
Defined.

End DriverExtras.

(* ------------------------------------------------------------------ *)
(** ** The folder commands of the tray application *)
Module FolderCommandExtras.
Import FolderCommands ServerProps.

Section WithPlatform.
Context {App : Type}.
Variable P : Platform.

Ltac eff :=
  unfold assign, server, registry, fileManager, session in *;
  unfold Js.bind, Js.ret, Js.get, Js.modify, Js.zoom in *;
  cbn [self wsServer selectedFolder lastFolder set_selectedFolder setLastFolder
       WebSocketServer.set_manager WebSocketServer.manager WebSocketServer.self
       WebSocketServer.sockets WebSocketServer.now
       PresentationManager.self PresentationManager.fs PresentationManager.app] in *.

Lemma setFolder_folder (fs : FS) (folder : string) (fm : FileManager.t) :
  FileManager.currentFolder (FileManager.setFolder P fs folder fm) = Some folder.
Proof.
  unfold FileManager.setFolder.
  etransitivity; [apply FolderExtras.setupWatcher_keeps|].
  etransitivity; [apply FolderExtras.scanFiles_keeps|]. reflexivity.
Qed.

Lemma clearFolder_fields (fm : FileManager.t) :
  FileManager.currentFolder (FileManager.clearFolder fm) = None
  /\ FileManager.getFiles (FileManager.clearFolder fm) = []
  /\ FileManager.getCurrentFile (FileManager.clearFolder fm) = None
  /\ FileManager.watcher (FileManager.clearFolder fm) = None.
Proof.
  unfold FileManager.clearFolder, FileManager.getCurrentFile, FileManager.getFiles.
  simpl. destruct (FileManager.watcher fm) eqn:Hw; simpl; auto.
Qed.

(** X27: a folder chosen in the dialog of the tray replaces the registry
    but not the session.  [selectFolder] stores the first path as the
    selected folder and as the saved setting, sets the registry to it, and
    sends [folderChanged] with the new list to every open socket of an
    authenticated client and to no other; the six session fields of the
    manager are what they were, a file that was open stays the current
    file.  When the dialog is cancelled or gives no path nothing
    changes. *)
Theorem selectFolder_keeps_the_session (canceled : bool) (filePaths : list string)
    (s : Sys App) :
  distinctSockets (WebSocketServer.self (wsServer s)) ->
  exists s',
    selectFolder P canceled filePaths s = (Js.Return tt, s')
    /\ session s' = session s
    /\ WebSocketServer.self (wsServer s') = WebSocketServer.self (wsServer s)
    /\ match filePaths with
       | folder :: _ =>
           if canceled then s' = s
           else
             selectedFolder (self s') = Some folder
             /\ lastFolder (self s') = Some folder
             /\ fileManager s'
                = FileManager.setFolder P
                    (PresentationManager.fs (WebSocketServer.manager (wsServer s)))
                    folder (fileManager s)
             /\ Delivered
                  (WebSocketServer.folderChanged (Some folder)
                     (FileManager.getFiles (fileManager s')))
                  (WebSocketServer.clients (WebSocketServer.self (wsServer s)))
                  (WebSocketServer.sockets (wsServer s))
                  (WebSocketServer.sockets (wsServer s'))
       | [] => s' = s
       end.
Proof.
  intros Hd. unfold selectFolder.
  destruct filePaths as [|folder rest].
  { exists s. rewrite andb_false_r. auto. }
  destruct canceled; [exists s; auto|].
  replace (negb false && (0 <? Js.length (folder :: rest))) with true
    by (unfold Js.length; simpl length; symmetry; apply andb_true_intro;
        split; [reflexivity | apply Z.ltb_lt; lia]).
  eff.
  match goal with
  | |- context [WebSocketServer.broadcast ?m ?st] =>
      destruct (ServerExtras.broadcast_outcome m st Hd)
        as (srv & -> & Hself & Hmgr & _ & Hdel)
  end.
  eexists. split; [reflexivity|]. eff. rewrite Hmgr, Hself. simpl.
  split; [reflexivity|]. split; [reflexivity|].
  split; [reflexivity|]. split; [reflexivity|]. split; [reflexivity|].
  exact Hdel.
Qed.

(** X28: [clearFolder] of the tray empties the registry, forgets the
    selected folder and the saved setting, and sends [folderChanged] with no
    folder and no files to every open socket of an authenticated client and
    to no other; the six session fields of the manager are what they were,
    so a file that was open stays the current file of the manager although
    the registry no longer lists it. *)
Theorem clearFolder_keeps_the_session (s : Sys App) :
  distinctSockets (WebSocketServer.self (wsServer s)) ->
  exists s',
    clearFolder s = (Js.Return tt, s')
    /\ session s' = session s
    /\ WebSocketServer.self (wsServer s') = WebSocketServer.self (wsServer s)
    /\ self s' = {| selectedFolder := None; lastFolder := None |}
    /\ FileManager.currentFolder (fileManager s') = None
    /\ FileManager.getFiles (fileManager s') = []
    /\ FileManager.getCurrentFile (fileManager s') = None
    /\ FileManager.watcher (fileManager s') = None
    /\ Delivered (WebSocketServer.folderChanged None [])
         (WebSocketServer.clients (WebSocketServer.self (wsServer s)))
         (WebSocketServer.sockets (wsServer s))
         (WebSocketServer.sockets (wsServer s')).
Proof.
  intros Hd. unfold clearFolder. eff.
  match goal with
  | |- context [WebSocketServer.broadcast ?m ?st] =>
      destruct (ServerExtras.broadcast_outcome m st Hd)
        as (srv & -> & Hself & Hmgr & _ & Hdel)
  end.
  eexists. split; [reflexivity|]. eff. rewrite Hmgr, Hself. simpl.
  do 3 (split; [reflexivity|]).
  destruct (clearFolder_fields
              (PresentationManager.fileManager
                 (PresentationManager.self (WebSocketServer.manager (wsServer s)))))
    as (Hf & Hl & Hc & Hw).
  auto 10.
Qed.

(** X29: [loadLastFolder] at start-up never leaves a saved folder that is
    gone.  It returns and sends nothing; the session and the server object
    are as they were; afterwards a saved folder that is not the empty text
    exists and is the selected folder and the folder of the registry; a
    saved folder that does not exist is forgotten and the registry is not
    touched. *)
Theorem loadLastFolder_forgets_missing_folder (existsSync : string -> bool)
    (s : Sys App) :
  exists s',
    loadLastFolder P existsSync s = (Js.Return tt, s')
    /\ session s' = session s
    /\ WebSocketServer.self (wsServer s') = WebSocketServer.self (wsServer s)
    /\ WebSocketServer.sockets (wsServer s') = WebSocketServer.sockets (wsServer s)
    /\ (forall folder,
           lastFolder (self s') = Some folder -> folder <> "" ->
           existsSync folder = true
           /\ selectedFolder (self s') = Some folder
           /\ FileManager.currentFolder (fileManager s') = Some folder)
    /\ (forall folder,
           lastFolder (self s) = Some folder -> folder <> "" ->
           existsSync folder = false ->
           lastFolder (self s') = None
           /\ selectedFolder (self s') = selectedFolder (self s)
           /\ fileManager s' = fileManager s).
Proof.
  unfold loadLastFolder. eff.
  destruct (lastFolder (self s)) as [folder|] eqn:Hlast.
  2:{ exists s. split; [reflexivity|]. do 3 (split; [reflexivity|]).
      split; [|discriminate]. intros folder Hl. congruence. }
  destruct (String.eqb_spec folder "") as [->|Hne]; simpl.
  { exists s. split; [reflexivity|]. do 3 (split; [reflexivity|]).
    split; intros folder Hl Hn; congruence. }
  destruct (existsSync folder) eqn:Hex.
  - eexists. split; [reflexivity|]. eff. do 3 (split; [reflexivity|]).
    split.
    + intros folder' Hl _. rewrite Hlast in Hl. injection Hl as <-.
      split; [exact Hex|]. split; [reflexivity|].
      simpl. apply setFolder_folder.
    + intros folder' [= <-] _ Hno. congruence.
  - eexists. split; [reflexivity|]. eff. do 3 (split; [reflexivity|]).
    split; [discriminate|].
    intros folder' _ _ _. destruct s as [[sel last] srv]. simpl.
    destruct srv as [srvself socks [pm fs a] now]. auto.
Qed.

End WithPlatform.

(** The application object in front of the example server, with [a.key]
    open in Keynote. *)
Local Abbreviation showing :=
  {| self := {| selectedFolder := Some "/talks"; lastFolder := Some "/talks" |};
     wsServer := Example2.presenting |}.

(** X27 on the example: another folder is chosen while [a.key] is open. *)
Lemma selectFolder_keeps_the_session_witness :
  exists s',
    selectFolder Example.platform false ["/scenario"] showing = (Js.Return tt, s')
    /\ PresentationManager.s_currentFile (session s') = Some Example.aKey
    /\ selectedFolder (self s') = Some "/scenario"
    /\ FileManager.currentFolder (fileManager s') = Some "/scenario".
Proof.
  destruct (selectFolder_keeps_the_session Example.platform false ["/scenario"] showing
              ServerExtras.example_distinct_sockets)
    as (s' & Hrun & Hsession & _ & Hsel & _ & Hfm & _).
  exists s'. split; [exact Hrun|]. rewrite Hsession, Hsel, Hfm.
  split; [reflexivity|]. split; [reflexivity|]. apply setFolder_folder.
Defined.

(** X28 on the example: the folder is cleared while [a.key] is open. *)
Lemma clearFolder_keeps_the_session_witness :
  exists s',
    clearFolder showing = (Js.Return tt, s')
    /\ PresentationManager.s_currentFile (session s') = Some Example.aKey
    /\ FileManager.getFiles (fileManager s') = [].
Proof.
  destruct (clearFolder_keeps_the_session showing ServerExtras.example_distinct_sockets)
    as (s' & Hrun & Hsession & _ & _ & _ & Hfiles & _).
  exists s'. split; [exact Hrun|]. rewrite Hsession, Hfiles.
  split; reflexivity.
Defined.

End FolderCommandExtras.
